(** * tap-mixpanel: the endpoint synchronisation engine ([tap_mixpanel/sync.py])

    A shallow embedding of [sync_endpoint] and [process_records] and of the
    helpers they call, of the stream orchestrator ([sync],
    [update_currently_syncing]) and of the entry point ([main] of
    [tap_mixpanel/__init__.py]), followed by the properties of the window
    planner, the record processor, the pagination loop, the response
    normalisation, the parent resolver, the shared request-parameter
    dictionary, the bookmark store, the orchestrator and the entry point. *)

From Stdlib Require Import ZArith List String Ascii Bool Lia.
From Stdlib Require Import OrderedTypeEx.
Import ListNotations.
#[local] Set Warnings "-register-all".
Open Scope string_scope.
Open Scope Z_scope.

(** ** Exceptions and results *)

Inductive exn : Type :=
| TypeError
| AttributeError
| KeyError
| OverflowError      (* raised by [timedelta(days=...)] and by datetime arithmetic *)
| OSError            (* raised by [singer.write_schema], [write_record], [write_state] *)
| TimezoneError      (* [UnknownTimeZoneError], raised by [pytz.timezone] *)
| ClientError        (* raised by [client.request] *)
| TransformError     (* raised by [Transformer.transform] or [transform_json] *)
| ParseError         (* raised by [strptime_to_utc] *)
| MissingKey.        (* what [raise 'Missing Key'] raises *)

Inductive result (A : Type) : Type :=
| Ok (a : A)
| Err (e : exn).
Arguments Ok {A} a.
Arguments Err {A} e.

Definition result_bind {A B} (r : result A) (f : A -> result B) : result B :=
  match r with
  | Ok a => f a
  | Err e => Err e
  end.

(** ** Instants and durations

    [utils.now()] and [strptime_to_utc] give timezone-aware UTC datetimes.
    An instant is its number of microseconds since the epoch, a [timedelta]
    is a number of microseconds; datetime arithmetic is integer arithmetic
    within the bounds that Python checks: a [timedelta] is built from at
    most 999999999 days, and the sum of a datetime and a [timedelta] lies
    in the years 1 to 9999; beyond them [OverflowError] is raised. *)

Definition us_per_second : Z := 1000000.
Definition us_per_day : Z := 24 * 3600 * us_per_second.

(** The number of microseconds of [d] days. *)
Definition timedelta (days : Z) : Z := days * us_per_day.

(** [datetime.min] and [datetime.max] in UTC: 0001-01-01T00:00:00 and
    9999-12-31T23:59:59.999999. *)
Definition datetime_min : Z := -62135596800000000.
Definition datetime_max : Z := 253402300799999999.

(** [timedelta(days=d)] *)
Definition py_timedelta (days : Z) : result Z :=
  if Z.abs days <=? 999999999 then Ok (timedelta days) else Err OverflowError.

(** [dt + td] for a datetime and a [timedelta]; [dt - td] is [dt + (-td)]. *)
Definition datetime_add (dt td : Z) : result Z :=
  if (datetime_min <=? dt + td) && (dt + td <=? datetime_max)
  then Ok (dt + td)
  else Err OverflowError.

(** The [.days] and [.seconds] attributes of a normalised timedelta:
    [td = days * 86400 s + seconds + microseconds] with
    [0 <= seconds < 86400] and [0 <= microseconds < 10^6]. *)
Definition td_days (td : Z) : Z := td / us_per_day.
Definition td_seconds (td : Z) : Z := (td mod us_per_day) / us_per_second.

(** [td.total_seconds()], rounded down to a whole second. *)
Definition td_total_seconds (td : Z) : Z := td / us_per_second.

(** [math.ceil(a / b)] for integers [a] and [b > 0]. *)
Definition ceil_div (a b : Z) : Z := - ((- a) / b).

(** ** Window planner ([sync_endpoint], lines 145-169 and 342-347) *)

Record window_plan : Type := mk_plan {
  pw_start : Z;          (* start_window *)
  pw_end : Z;            (* end_window *)
  pw_days_interval : Z   (* days_interval, as the loop will use it *)
}.

(** [ranged] is [bookmark_query_field_from and bookmark_query_field_to];
    [sync] always passes integers for [days_interval] and
    [attribution_window], so [not days_interval] is [days_interval = 0].
    Lines 161 and 162 build a [timedelta] and add it to a datetime, each
    of which may raise [OverflowError]. *)
Definition plan_windows (ranged : bool) (now_datetime last_dttm : Z)
    (days_interval attribution_window : Z) : result window_plan :=
  if ranged then
    let days_interval := if days_interval =? 0 then 30 else days_interval in
    let delta_days := td_days (now_datetime - last_dttm) in
    let delta_days :=
      if delta_days <=? attribution_window then attribution_window
      else if 365 <=? delta_days then 365
      else delta_days in
    result_bind (py_timedelta delta_days) (fun delta =>
    result_bind (datetime_add now_datetime (- delta)) (fun start_window =>
    result_bind (py_timedelta days_interval) (fun step =>
    result_bind (datetime_add start_window step) (fun end_window =>
    let end_window :=
      if now_datetime <? end_window then now_datetime else end_window in
    Ok (mk_plan start_window end_window days_interval)))))
  else
    let start_window := last_dttm in
    let end_window := now_datetime in
    let diff_sec := td_seconds (end_window - start_window) in
    let days_interval := ceil_div diff_sec (3600 * 24) in
    Ok (mk_plan start_window end_window days_interval).

(** "Increment date window": the next [(start_window, end_window)];
    line 343 raises [OverflowError] as line 162 does. *)
Definition next_window (now_datetime days_interval end_window : Z)
    : result (Z * Z) :=
  let start_window := end_window in
  result_bind (py_timedelta days_interval) (fun step =>
  result_bind (datetime_add end_window step) (fun next_end_window =>
  if now_datetime <? next_end_window
  then Ok (start_window, now_datetime)
  else Ok (start_window, next_end_window))).

(** The windows the [while start_window < now_datetime] loop visits, in
    order, when it returns; [None] when [fuel] iterations were not
    enough, [Some (Err e)] when incrementing a window raised [e]. *)
Fixpoint windows (fuel : nat) (now_datetime days_interval : Z)
    (start_window end_window : Z) : option (result (list (Z * Z))) :=
  match fuel with
  | O => None
  | S fuel' =>
      if start_window <? now_datetime then
        match next_window now_datetime days_interval end_window with
        | Ok (s, e) =>
            match windows fuel' now_datetime days_interval s e with
            | Some (Ok ws) => Some (Ok ((start_window, end_window) :: ws))
            | Some (Err ex) => Some (Err ex)
            | None => None
            end
        | Err ex => Some (Err ex)
        end
      else Some (Ok [])
  end.

Definition planned_windows (fuel : nat) (ranged : bool)
    (now_datetime last_dttm days_interval attribution_window : Z)
    : option (result (list (Z * Z))) :=
  match plan_windows ranged now_datetime last_dttm
                     days_interval attribution_window with
  | Ok p => windows fuel now_datetime (pw_days_interval p) (pw_start p) (pw_end p)
  | Err e => Some (Err e)
  end.

(** *** Vocabulary of the planner's properties *)

(** The clamp as section 4.1 of the specification words it: two successive
    tests, the lower bound first. *)
Definition clamp (x lo hi : Z) : Z :=
  let x := if x <=? lo then lo else x in
  if hi <=? x then hi else x.

Definition effective_start (now_datetime checkpoint attribution_window : Z) : Z :=
  now_datetime
  - timedelta (clamp (td_days (now_datetime - checkpoint)) attribution_window 365).

(** The number of days that lines 151-157 go back from now. *)
Definition days_back (now_datetime last_dttm attribution_window : Z) : Z :=
  if td_days (now_datetime - last_dttm) <=? attribution_window
  then attribution_window
  else if 365 <=? td_days (now_datetime - last_dttm) then 365
  else td_days (now_datetime - last_dttm).

(** [tiles a b ws]: the half-open windows [ws] are non-empty, each starts
    where the previous one ends, the first starts at [a], the last ends at
    [b] and none ends after [b]; the empty list tiles the empty interval. *)
Fixpoint tiles (a b : Z) (ws : list (Z * Z)) : Prop :=
  match ws with
  | [] => a = b
  | (s, e) :: rest => s = a /\ s < e /\ e <= b /\ tiles e b rest
  end.

(** [min e now], as lines 163-164 and 344-347 compute it. *)
Definition capped (now e : Z) : Z := if now <? e then now else e.

(** The value of [start_window] when the loop is left. *)
Definition final_start (start_window : Z) (ws : list (Z * Z)) : Z :=
  last (map snd ws) start_window.

(** ** Python values

    The JSON-shaped values the engine handles: responses of the client,
    records, query parameters and the sync state. A [dict] keeps its keys
    in insertion order, as Python's does. Floats are not modelled. *)

Inductive value : Type :=
| VNone
| VBool (b : bool)
| VInt (z : Z)
| VStr (s : string)
| VList (l : list value)
| VDict (d : list (string * value)).

Definition dict : Type := list (string * value).

(** [d.get(k)] on a dict, [None] of [option] meaning "no such key". *)
Fixpoint dict_get (d : dict) (k : string) : option value :=
  match d with
  | [] => None
  | (k', v) :: rest => if String.eqb k' k then Some v else dict_get rest k
  end.

(** [k in d] *)
Definition dict_has (d : dict) (k : string) : bool :=
  match dict_get d k with Some _ => true | None => false end.

(** [d[k] = v]: an existing key keeps its place, a new one goes last. *)
Fixpoint dict_set (d : dict) (k : string) (v : value) : dict :=
  match d with
  | [] => [(k, v)]
  | (k', v') :: rest =>
      if String.eqb k' k then (k', v) :: rest
      else (k', v') :: dict_set rest k v
  end.

(** Truth value of [v] in a condition ([if v], [not v]). *)
Definition truthy (v : value) : bool :=
  match v with
  | VNone => false
  | VBool b => b
  | VInt z => negb (z =? 0)
  | VStr s => negb (String.eqb s "")
  | VList l => match l with [] => false | _ => true end
  | VDict d => match d with [] => false | _ => true end
  end.

(** Truth value of an optional name of the stream definition
    ([endpoint_config.get(...)] is a string or [None]). *)
Definition name_set (o : option string) : bool :=
  match o with
  | Some s => negb (String.eqb s "")
  | None => false
  end.

(** [v == ''] *)
Definition is_empty_str (v : value) : bool :=
  match v with VStr s => String.eqb s "" | _ => false end.

(** [isinstance(v, dict)] *)
Definition is_dict (v : value) : bool :=
  match v with VDict _ => true | _ => false end.

(** [v is None] *)
Definition is_none (v : value) : bool :=
  match v with VNone => true | _ => false end.

(** [record.get(key)] where [record] may be any value: only a dict has
    [.get]; the key [None] is never one of a JSON object. *)
Definition py_get (record : value) (key : option string) : result value :=
  match record with
  | VDict d =>
      match key with
      | Some k => match dict_get d k with Some v => Ok v | None => Ok VNone end
      | None => Ok VNone
      end
  | _ => Err AttributeError
  end.

(** [d.get(k)] and [d.get(k, default)] on a dict. *)
Definition record_get (d : dict) (key : option string) : value :=
  match key with
  | Some k => match dict_get d k with Some v => v | None => VNone end
  | None => VNone
  end.

Definition dict_get_default (d : dict) (k : string) (default : value) : value :=
  match dict_get d k with Some v => v | None => default end.

(** [key in record] for a dict [record]. *)
Definition record_has (d : dict) (key : option string) : bool :=
  match key with
  | Some k => dict_has d k
  | None => false
  end.

(** [x == VStr k] / [x is None], used by [key in data] on a list. *)
Definition value_is_key (key : option string) (x : value) : bool :=
  match key, x with
  | Some k, VStr s => String.eqb s k
  | None, VNone => true
  | _, _ => false
  end.

(** [s1 in s2] on strings: [s1] occurs in [s2]. *)
Definition is_substring (s1 s2 : string) : bool :=
  match String.index 0 s1 s2 with Some _ => true | None => false end.

(** [data_key in data] *)
Definition py_in (key : option string) (data : value) : result bool :=
  match data with
  | VDict d => Ok (record_has d key)
  | VList l => Ok (existsb (value_is_key key) l)
  | VStr s =>
      match key with
      | Some k => Ok (is_substring k s)
      | None => Err TypeError
      end
  | _ => Err TypeError
  end.

(** [data[data_key]] once [data_key in data] holds: only a dict can be
    indexed by a string. *)
Definition py_index (data : value) (key : string) : result value :=
  match data with
  | VDict d =>
      match dict_get d key with
      | Some v => Ok v
      | None => Err KeyError
      end
  | _ => Err TypeError
  end.

(** [for x in v]: the elements of a list, the keys of a dict, the
    characters of a string. *)
Definition py_iter (v : value) : result (list value) :=
  match v with
  | VList l => Ok l
  | VDict d => Ok (map (fun kv => VStr (fst kv)) d)
  | VStr s =>
      Ok (map (fun c => VStr (String c EmptyString)) (list_ascii_of_string s))
  | _ => Err TypeError
  end.

(** An integer operand of [<=], [>] or [+] against an [int]
    ([bool] is a subclass of [int]); anything else raises [TypeError]. *)
Definition as_number (v : value) : result Z :=
  match v with
  | VInt z => Ok z
  | VBool b => Ok (if b then 1 else 0)
  | _ => Err TypeError
  end.

(** [x > t] where [t] is what [transform_datetime] returned (a string or
    [None]): defined between two strings only, by code points. *)
Definition py_gt_str (x : value) (t : option string) : result bool :=
  match x, t with
  | VStr a, Some b => Ok (String.ltb b a)
  | _, _ => Err TypeError
  end.

(** [a >= b] between two results of [transform_datetime]. *)
Definition py_ge_dt (a b : option string) : result bool :=
  match a, b with
  | Some x, Some y => Ok (String.leb y x)
  | _, _ => Err TypeError
  end.

(** ** The world the engine acts on

    - [w_params]: the dict object that [endpoint_config.get('params', {})]
      returns, the one held by the stream definition when it has a
      [params] entry. In [sync_endpoint] both [static_params] and, after
      [params = static_params], [params] name this one object: no copy is
      made, so every [params[k] = v] is a write to [w_params];
    - [w_state]: the sync state (a dict; [main] never passes [None]);
    - [w_sink]: the messages written to the output, oldest first;
    - [w_calls]: the requests issued to the client, oldest first. *)

Inductive message : Type :=
| SchemaMessage (stream_name : string)
| RecordMessage (stream_name : string) (record : dict)
| StateMessage (state : dict).

(** A request carries what the query string is squashed from: the
    parameter dict at the time of the call and the parent id that
    replaces [[parent_id]]; url, path and method are constants of the
    stream. *)
Inductive request : Type :=
| ParentRequest (parent_path : string)
| StreamRequest (params : dict) (parent_id : value).

Record world : Type := mk_world {
  w_params : dict;
  w_state : dict;
  w_sink : list message;
  w_calls : list request
}.

Definition with_params (w : world) (params : dict) : world :=
  mk_world params (w_state w) (w_sink w) (w_calls w).
Definition with_state (w : world) (state : dict) : world :=
  mk_world (w_params w) state (w_sink w) (w_calls w).
Definition written (w : world) (m : message) : world :=
  mk_world (w_params w) (w_state w) (w_sink w ++ [m]) (w_calls w).
Definition called (w : world) (r : request) : world :=
  mk_world (w_params w) (w_state w) (w_sink w) (w_calls w ++ [r]).

Inductive outcome (A : Type) : Type :=
| Done (a : A) (w : world)       (* returned normally *)
| Raised (e : exn) (w : world)   (* an exception escaped *)
| Starved (w : world).           (* a loop ran out of fuel *)
Arguments Done {A} a w.
Arguments Raised {A} e w.
Arguments Starved {A} w.

(** The world an outcome leaves behind. *)
Definition world_of {A} (o : outcome A) : world :=
  match o with
  | Done _ w => w
  | Raised _ w => w
  | Starved w => w
  end.

Definition M (A : Type) : Type := world -> outcome A.

Definition ret {A} (a : A) : M A := fun w => Done a w.

Definition bind {A B} (m : M A) (f : A -> M B) : M B :=
  fun w =>
    match m w with
    | Done a w' => f a w'
    | Raised e w' => Raised e w'
    | Starved w' => Starved w'
    end.

Definition raise {A} (e : exn) : M A := fun w => Raised e w.
Definition starve {A} : M A := fun w => Starved w.

Definition lift {A} (r : result A) : M A :=
  match r with
  | Ok a => ret a
  | Err e => raise e
  end.

Definition lift_option {A} (e : exn) (o : option A) : M A :=
  match o with
  | Some a => ret a
  | None => raise e
  end.

Declare Scope monad_scope.
Delimit Scope monad_scope with monad.
Notation "x <- m ;; k" := (bind m (fun x => k))
  (at level 61, m at next level, right associativity) : monad_scope.
Notation "m ;;; k" := (bind m (fun _ => k))
  (at level 61, right associativity) : monad_scope.
Notation "' pat <- m ;; k" := (bind m (fun x => match x with pat => k end))
  (at level 61, pat pattern, m at next level, right associativity) : monad_scope.
Open Scope monad_scope.

Definition when (b : bool) (m : M unit) : M unit :=
  if b then m else ret tt.

(** [params[k] = v] *)
Definition set_param (k : string) (v : value) : M unit :=
  fun w => Done tt (with_params w (dict_set (w_params w) k v)).

Definition get_params : M dict := fun w => Done (w_params w) w.

Definition get_state : M dict := fun w => Done (w_state w) w.

Definition put_state (state : dict) : M unit :=
  fun w => Done tt (with_state w state).

Definition get_sink : M (list message) := fun w => Done (w_sink w) w.

(** ** Stream definition and collaborators *)

(** The fields of [STREAMS[stream_name]] that [sync_endpoint] reads, each
    as [endpoint_config.get] returns it ([params] is [w_params]). *)
Record endpoint_config : Type := mk_config {
  data_key : option string;
  parent_path : option string;
  parent_id_field : option string;
  bookmark_query_field_from : option string;
  bookmark_query_field_to : option string;
  key_properties : option (list string);
  date_dictionary : bool;
  pagination : bool
}.

(** What the engine calls and this repository's [sync.py] does not
    define. [None] stands for a raised exception, except in
    [singer_transform_datetime], where it is Python's [None]. *)
Record collaborators : Type := mk_collaborators {
  (* client.request(...), given the requests issued so far *)
  client_request : list request -> request -> option value;
  (* tap_mixpanel.transform.transform_json(data, stream, tz[, parent_record]) *)
  transform_json : value -> option value -> option (list value);
  (* Transformer.transform(record, schema, stream_metadata) *)
  singer_transform : value -> option dict;
  (* Transformer._transform_datetime(value) *)
  singer_transform_datetime : value -> option string;
  (* singer.utils.strptime_to_utc(value) *)
  strptime_to_utc : value -> option Z;
  (* '{}'.format(tzone.normalize(dt))[0:10], for the zone of line 143 *)
  window_date : Z -> string;
  (* singer.write_schema, singer.messages.write_record and
     singer.write_state, given the messages written so far: the message
     is written, or (false) the call raises *)
  singer_write : list message -> message -> bool;
  (* catalog.get_stream(stream_name) is a stream, not None *)
  catalog_get_stream : string -> bool;
  (* pytz.timezone(project_timezone) returns a zone; false: it raises *)
  pytz_timezone : value -> bool;
  (* Counter._ready_to_log() at the increment that follows the writing of
     these messages: the log interval (60 s) has passed since the counter
     was entered or last logged *)
  counter_ready_to_log : list message -> bool
}.

(** One message to the output: [singer.write_schema],
    [singer.messages.write_record] or [singer.write_state]. *)
Definition emit (env : collaborators) (m : message) : M unit :=
  fun w =>
    if singer_write env (w_sink w) m then Done tt (written w m)
    else Raised OSError w.

(** ** Bookmark store ([get_bookmark], [write_bookmark]) *)

Definition get_bookmark (state : dict) (stream : string) (default : value)
    : result value :=
  if negb (dict_has state "bookmarks") then Ok default
  else
    match dict_get_default state "bookmarks" (VDict []) with
    | VDict bookmarks => Ok (dict_get_default bookmarks stream default)
    | _ => Err AttributeError
    end.

Definition write_bookmark (env : collaborators) (stream : string) (v : value)
    : M unit :=
  state <- get_state ;;
  let state :=
    if negb (dict_has state "bookmarks")
    then dict_set state "bookmarks" (VDict [])
    else state in
  match dict_get state "bookmarks" with
  | Some (VDict bookmarks) =>
      let state := dict_set state "bookmarks" (VDict (dict_set bookmarks stream v)) in
      put_state state ;;;
      emit env (StateMessage state)
  | _ => put_state state ;;; raise TypeError
  end.

(** ** Date-dictionary normalisation ([sync_endpoint], lines 261-271) *)

(** The body of [for key, val in data[data_key].items()]: the records
    appended to [results_list]. *)
Fixpoint date_records (items : dict) : result (list value) :=
  match items with
  | [] => Ok []
  | (key, val) :: rest =>
      if negb (String.eqb key "$overall") then
        match val with
        | VDict d =>
            let d := dict_set d "date" (VStr key) in
            let d := dict_set d "datetime" (VStr (key ++ "T00:00:00Z")) in
            result_bind (date_records rest) (fun l => Ok (VDict d :: l))
        | _ => Err TypeError
        end
      else date_records rest
  end.

(** [results = {data_key: results_list}], the new [data]. *)
Definition normalize_date_dictionary (data_key : string) (data : value)
    : result value :=
  result_bind (py_index data data_key) (fun inner =>
    match inner with
    | VDict items =>
        result_bind (date_records items) (fun results_list =>
          Ok (VDict [(data_key, VList results_list)]))
    | _ => Err AttributeError
    end).

(** ** Identifying fields ([sync_endpoint], lines 286-293) *)

(** [for key in id_fields]: the first missing or empty value raises. *)
Fixpoint check_id_fields (record : value) (id_fields : list string)
    : result unit :=
  match id_fields with
  | [] => Ok tt
  | key :: rest =>
      result_bind (py_get record (Some key)) (fun val =>
        if is_empty_str val || negb (truthy val) then Err MissingKey
        else check_id_fields record rest)
  end.

(** [for record in transformed_data: for key in id_fields: ...];
    iterating [id_fields = None] is a [TypeError]. *)
Fixpoint check_records (transformed_data : list value)
    (id_fields : option (list string)) : result unit :=
  match transformed_data with
  | [] => Ok tt
  | record :: rest =>
      match id_fields with
      | None => Err TypeError
      | Some keys =>
          result_bind (check_id_fields record keys) (fun _ =>
            check_records rest id_fields)
      end
  end.

(** The page size: [limit = 250]. *)
Definition limit : Z := 250.

(** The variables of the page loop, with the two accumulators it
    threads. *)
Record page_state : Type := mk_page_state {
  page : Z;
  offset : Z;
  total_records : value;
  session_id : value;
  ps_max_bookmark_value : value;
  ps_endpoint_total : Z
}.

(** The state in which the page loop is entered (lines 214-218). *)
Definition first_page (max_bookmark_value : value) (endpoint_total : Z)
    : page_state :=
  mk_page_state 0 0 (VInt 0) (VStr "initial") max_bookmark_value endpoint_total.

(** [offset <= total_records and session_id is not None] *)
Definition page_guard (st : page_state) : result bool :=
  result_bind (as_number (total_records st)) (fun total =>
    Ok ((offset st <=? total) && negb (is_none (session_id st)))).

(** The variables of the date-window loop. *)
Record window_state : Type := mk_window_state {
  ws_start : Z;
  ws_end : Z;
  ws_parent_id_field : option string;
  ws_max_bookmark_value : value;
  ws_endpoint_total : Z
}.

Section Engine.

Variable env : collaborators.
Variable stream_name : string.

Definition transform_datetime (this_dttm : value) : option string :=
  singer_transform_datetime env this_dttm.

(** [catalog.get_stream(stream_name)] followed by [stream.schema]:
    [None] has no attribute [schema]. *)
Definition get_stream : M unit :=
  if catalog_get_stream env stream_name then ret tt else raise AttributeError.

(** The [OSError] that [singer.write_schema] raises is logged and raised
    again. *)
Definition write_schema : M unit :=
  get_stream ;;;
  emit env (SchemaMessage stream_name).

(** As [write_schema]: an [OSError] is logged and raised again. *)
Definition write_record (record : dict) : M unit :=
  emit env (RecordMessage stream_name record).

(** [counter.increment()] of [singer.metrics.Counter]: the value is
    increased by one, then logged and set back to 0 when the counter is
    ready to log. *)
Definition counter_increment (counter : Z) : M Z :=
  sink <- get_sink ;;
  ret (if counter_ready_to_log env sink then 0 else counter + 1).

(** [client.request(...)]: the call is recorded, then answered. *)
Definition request_data (r : request) : M value :=
  fun w =>
    match client_request env (w_calls w) r with
    | Some data => Done data (called w r)
    | None => Raised ClientError (called w r)
    end.

(** The request of a page: the query string is squashed from the
    parameter dict as it is at that moment. *)
Definition request_stream (parent_id : value) : M value :=
  params <- get_params ;;
  request_data (StreamRequest params parent_id).

(** ** Record processor ([process_records]) *)

(** "Reset max_bookmark_value to new value if higher" (lines 87-90). *)
Definition reset_max (bookmark_field : option string)
    (transformed_record : dict) (max_bookmark_value : value) : result value :=
  if truthy (record_get transformed_record bookmark_field) then
    if is_none max_bookmark_value then
      Ok (record_get transformed_record bookmark_field)
    else
      result_bind
        (py_gt_str (record_get transformed_record bookmark_field)
                   (transform_datetime max_bookmark_value))
        (fun higher =>
           if higher then Ok (record_get transformed_record bookmark_field)
           else Ok max_bookmark_value)
  else Ok max_bookmark_value.

(** Lines 92-102: is the record written? *)
Definition keep_record (bookmark_field : option string)
    (transformed_record : dict) (last_datetime : value) : result bool :=
  if name_set bookmark_field && record_has transformed_record bookmark_field then
    let last_dttm := transform_datetime last_datetime in
    let bookmark_dttm :=
      transform_datetime (record_get transformed_record bookmark_field) in
    py_ge_dt bookmark_dttm last_dttm
  else Ok true.

(** The [for record in records] loop; [counter] is [counter.value]. *)
Fixpoint process_records_from (records : list value)
    (bookmark_field : option string) (max_bookmark_value : value)
    (last_datetime : value) (counter : Z) : M (value * Z) :=
  match records with
  | [] => ret (max_bookmark_value, counter)
  | record :: rest =>
      transformed_record <- lift_option TransformError (singer_transform env record) ;;
      max_bookmark_value <-
        lift (reset_max bookmark_field transformed_record max_bookmark_value) ;;
      keep <- lift (keep_record bookmark_field transformed_record last_datetime) ;;
      counter <-
        (if keep : bool
         then write_record transformed_record ;;; counter_increment counter
         else ret counter) ;;
      process_records_from rest bookmark_field max_bookmark_value
                           last_datetime counter
  end.

(** Lines 65-67 read the schema of the stream from the catalog; the
    result is [(max_bookmark_value, counter.value)], read before the
    counter is left. *)
Definition process_records (records : list value)
    (bookmark_field : option string) (max_bookmark_value : value)
    (last_datetime : value) : M (value * Z) :=
  get_stream ;;;
  process_records_from records bookmark_field max_bookmark_value last_datetime 0.

(** ** Pagination driver ([sync_endpoint], lines 209-337) *)

Variable cfg : endpoint_config.
Variable bookmark_field : option string.

(** Lines 286-329: the identifying fields are checked on the whole page,
    then the page is processed and the pagination fields are set. *)
Definition handle_records (last_datetime data : value)
    (transformed_data : list value) (st : page_state) : M page_state :=
  lift (check_records transformed_data (key_properties cfg)) ;;;
  '(max_bookmark_value, record_count) <-
    process_records transformed_data bookmark_field
                    (ps_max_bookmark_value st) last_datetime ;;
  let total_records :=
    if page st =? 0 then
      match data with
      | VDict d => dict_get_default d "total" (VInt record_count)
      | _ => VInt record_count
      end
    else total_records st in
  let session_id :=
    match data with
    | VDict d => dict_get_default d "session_id" VNone
    | _ => session_id st
    end in
  (* to_rec > total_records, evaluated when the stream paginates *)
  (if pagination cfg
   then lift (result_bind (as_number total_records) (fun _ => Ok tt))
   else ret tt) ;;;
  ret (mk_page_state (page st) (offset st) total_records session_id
                     max_bookmark_value (ps_endpoint_total st)).

(** Lines 261-271: the response of a date-dictionary stream. *)
Definition standardize (data : value) : result value :=
  if date_dictionary cfg then
    result_bind (py_in (data_key cfg) data) (fun present =>
      if present : bool then
        match data_key cfg with
        | Some k => normalize_date_dictionary k data
        | None => Err TypeError
        end
      else Ok data)
  else Ok data.

(** Lines 275-279: the record list, from the root or below the data key. *)
Definition transformed (data : value) (parent_record : option value)
    : result (list value) :=
  match transform_json env data parent_record with
  | Some records => Ok records
  | None => Err TransformError
  end.

Definition select_records (data parent_record : value) : result (list value) :=
  match data_key cfg with
  | None => transformed data None
  | Some k =>
      if String.eqb k "." then transformed data None
      else
        result_bind (py_in (Some k) data) (fun present =>
          if present : bool then
            result_bind (py_index data k) (fun inner =>
              transformed inner (Some parent_record))
          else Ok [])
  end.

(** Lines 223-225: the pagination parameters of a page after the first. *)
Definition page_params (st : page_state) : M unit :=
  when (pagination cfg && negb (page st =? 0))
       (set_param "session_id" (session_id st) ;;;
        set_param "page" (VInt (page st))).

(** Lines 250-330: what is done with the response of a page. *)
Definition page_data (last_datetime parent_record data : value)
    (st : page_state) : M page_state :=
  if negb (truthy data) then ret st
  else
    data <- lift (standardize data) ;;
    transformed_data <- lift (select_records data parent_record) ;;
    match transformed_data with
    | [] => ret st
    | _ => handle_records last_datetime data transformed_data st
    end.

(** One iteration of the page loop. *)
Definition page_body (last_datetime parent_record parent_id : value)
    (st : page_state) : M page_state :=
  page_params st ;;;
  data <- request_stream parent_id ;;
  st <- page_data last_datetime parent_record data st ;;
  total <- lift (as_number (total_records st)) ;;
  ret (mk_page_state (page st + 1) (offset st + limit) (total_records st)
                     (session_id st) (ps_max_bookmark_value st)
                     (ps_endpoint_total st + total)).

(** [while offset <= total_records and session_id is not None] *)
Fixpoint page_loop (fuel : nat) (last_datetime parent_record parent_id : value)
    (st : page_state) : M page_state :=
  match fuel with
  | O => starve
  | S fuel' =>
      continue <- lift (page_guard st) ;;
      if continue : bool then
        st <- page_body last_datetime parent_record parent_id st ;;
        page_loop fuel' last_datetime parent_record parent_id st
      else ret st
  end.

(** [for parent_record in parent_data] *)
Fixpoint parent_loop (fuel : nat) (last_datetime : value)
    (parent_id_field : option string) (parent_data : list value)
    (max_bookmark_value : value) (endpoint_total : Z) : M (value * Z) :=
  match parent_data with
  | [] => ret (max_bookmark_value, endpoint_total)
  | parent_record :: rest =>
      parent_id <- lift (py_get parent_record parent_id_field) ;;
      when (pagination cfg) (set_param "page_size" (VInt limit)) ;;;
      st <- page_loop fuel last_datetime parent_record parent_id
              (first_page max_bookmark_value endpoint_total) ;;
      parent_loop fuel last_datetime parent_id_field rest
                  (ps_max_bookmark_value st) (ps_endpoint_total st)
  end.

(** ** Parent resolver ([sync_endpoint], lines 193-207) *)

Definition resolve_parents (parent_id_field : option string)
    : M (value * option string) :=
  match parent_path cfg with
  | Some path =>
      if name_set (parent_path cfg) && name_set parent_id_field then
        parent_data <- request_data (ParentRequest path) ;;
        ret (parent_data, parent_id_field)
      else ret (VList [VDict [("id", VStr "none")]], Some "id")
  | None => ret (VList [VDict [("id", VStr "none")]], Some "id")
  end.

(** ** The date-window loop ([sync_endpoint], lines 176-353) *)

(** [bookmark_query_field_from and bookmark_query_field_to] *)
Definition ranged : bool :=
  name_set (bookmark_query_field_from cfg)
  && name_set (bookmark_query_field_to cfg).

(** Lines 179-190: the cursor-range parameters of the window. *)
Definition set_range (start_window end_window : Z) : M unit :=
  match bookmark_query_field_from cfg, bookmark_query_field_to cfg with
  | Some field_from, Some field_to =>
      when ranged
        (set_param field_from (VStr (window_date env start_window)) ;;;
         set_param field_to (VStr (window_date env end_window)))
  | _, _ => ret tt
  end.

(** Lines 209-351: the parent loop over [parent_data], then the next
    window and the bookmark. *)
Definition window_parents (fuel : nat) (last_datetime : value)
    (now_datetime days_interval : Z) (st : window_state)
    (parent_id_field : option string) (parent_data : list value)
    : M window_state :=
  '(max_bookmark_value, endpoint_total) <-
    parent_loop fuel last_datetime parent_id_field parent_data
                (ws_max_bookmark_value st) (ws_endpoint_total st) ;;
  '(start_window, end_window) <-
    lift (next_window now_datetime days_interval (ws_end st)) ;;
  when (name_set bookmark_field)
       (write_bookmark env stream_name max_bookmark_value) ;;;
  ret (mk_window_state start_window end_window parent_id_field
                       max_bookmark_value endpoint_total).

(** One iteration of the date-window loop. *)
Definition window_body (fuel : nat) (last_datetime : value)
    (now_datetime days_interval : Z) (st : window_state) : M window_state :=
  (* params = static_params: the same object, nothing to do *)
  set_range (ws_start st) (ws_end st) ;;;
  '(parent_data, parent_id_field) <- resolve_parents (ws_parent_id_field st) ;;
  parent_data <- lift (py_iter parent_data) ;;
  window_parents fuel last_datetime now_datetime days_interval st
                 parent_id_field parent_data.

(** [while start_window < now_datetime] *)
Fixpoint window_loop (fuel_left fuel : nat) (last_datetime : value)
    (now_datetime days_interval : Z) (st : window_state) : M window_state :=
  match fuel_left with
  | O => starve
  | S fuel_left' =>
      if ws_start st <? now_datetime then
        st <- window_body fuel last_datetime now_datetime days_interval st ;;
        window_loop fuel_left' fuel last_datetime now_datetime days_interval st
      else ret st
  end.

(** [sync_endpoint]: [now_datetime] is the reading of [utils.now()] at
    line 142, [project_timezone] is what line 143 hands to
    [pytz.timezone], [fuel] bounds the iterations of each [while] loop;
    the result is [endpoint_total]. *)
Definition sync_endpoint (project_timezone : value) (fuel : nat)
    (start_date : value) (now_datetime days_interval attribution_window : Z)
    : M Z :=
  state <- get_state ;;
  last_datetime <- lift (get_bookmark state stream_name start_date) ;;
  let max_bookmark_value := last_datetime in
  write_schema ;;;
  when (negb (pytz_timezone env project_timezone)) (raise TimezoneError) ;;;
  last_dttm <- lift_option ParseError (strptime_to_utc env last_datetime) ;;
  p <- lift (plan_windows ranged now_datetime last_dttm
               days_interval attribution_window) ;;
  st <- window_loop fuel fuel last_datetime now_datetime (pw_days_interval p)
          (mk_window_state (pw_start p) (pw_end p) (parent_id_field cfg)
                           max_bookmark_value 0) ;;
  ret (ws_endpoint_total st).

(** [page_run entered st w st' w']: from [st] and [w] the page loop's
    condition held and its body returned once for each state of
    [entered], in order, leaving [st'] and [w']. *)
Inductive page_run (last_datetime parent_record parent_id : value)
    : list page_state -> page_state -> world -> page_state -> world -> Prop :=
| page_run_stop st w :
    page_run last_datetime parent_record parent_id [] st w st w
| page_run_step entered st w st1 w1 st' w' :
    page_guard st = Ok true ->
    page_body last_datetime parent_record parent_id st w = Done st1 w1 ->
    page_run last_datetime parent_record parent_id entered st1 w1 st' w' ->
    page_run last_datetime parent_record parent_id (st :: entered) st w st' w'.

(** [window_run ws st w st' w']: from [st] and [w] the window loop's
    body returned once for each window of [ws], in order, leaving [st']
    and [w']. *)
Inductive window_run (fuel : nat) (last_datetime : value)
    (now_datetime days_interval : Z)
    : list (Z * Z) -> window_state -> world -> window_state -> world -> Prop :=
| window_run_stop st w :
    window_run fuel last_datetime now_datetime days_interval [] st w st w
| window_run_step ws st w st1 w1 st' w' :
    window_body fuel last_datetime now_datetime days_interval st w
    = Done st1 w1 ->
    window_run fuel last_datetime now_datetime days_interval ws st1 w1 st' w' ->
    window_run fuel last_datetime now_datetime days_interval
               ((ws_start st, ws_end st) :: ws) st w st' w'.

End Engine.

(** An outcome that did not run out of fuel. *)
Definition settled {A} (o : outcome A) : Prop :=
  match o with
  | Starved _ => False
  | _ => True
  end.

(** [m] changes the world along [R] only, whatever its outcome. *)
Definition preserves {A} (R : world -> world -> Prop) (m : M A) : Prop :=
  forall w, R w (world_of (m w)).


(** ** Vocabulary of the properties *)

(** The messages written between [w] and a later [w']. *)
Definition emitted_since (w w' : world) : list message :=
  skipn (List.length (w_sink w)) (w_sink w').

Section Vocabulary.

Variable env : collaborators.

(** [a <= b] between two results of [transform_datetime]: both are
    datetimes and [a] is not after [b]. *)
Definition dt_leb (a b : option string) : bool :=
  match a, b with
  | Some x, Some y => String.leb x y
  | _, _ => false
  end.

(** The record's cursor value, compared as a datetime, is at least the
    checkpoint. *)
Definition cursor_reaches (bookmark_field : option string)
    (last_datetime : value) (transformed_record : dict) : bool :=
  dt_leb (transform_datetime env last_datetime)
         (transform_datetime env (record_get transformed_record bookmark_field)).

(** The emission rule: a record that carries the configured cursor field
    is emitted when its cursor reaches the checkpoint, any other record
    unconditionally. *)
Definition should_emit (bookmark_field : option string)
    (last_datetime : value) (transformed_record : dict) : bool :=
  if name_set bookmark_field && record_has transformed_record bookmark_field
  then cursor_reaches bookmark_field last_datetime transformed_record
  else true.

(** [trs] are the transformed records of a prefix of [records]. *)
Definition transformed_prefix (records : list value) (trs : list dict) : Prop :=
  exists n,
    Forall2 (fun r tr => singer_transform env r = Some tr) (firstn n records) trs.

(** [a] is not after [b], as accumulator values: they are equal, or [a]
    is [None], or both are datetimes in that order. *)
Definition dt_le (a b : value) : Prop :=
  a = b \/ a = VNone
  \/ (b <> VNone
      /\ exists x y, transform_datetime env a = Some x
                   /\ transform_datetime env b = Some y
                   /\ String.leb x y = true).

(** A cursor value as the schema transform leaves it: null or empty, or
    a datetime string in the normalised form, which [transform_datetime]
    returns unchanged. *)
Definition normalised (v : value) : Prop :=
  (truthy v = true -> exists s, v = VStr s /\ transform_datetime env v = Some s)
  /\ (truthy v = false -> transform_datetime env v = None).

(** A cursor value that lines 87-96 can compare: a non-empty string that
    [transform_datetime] reads as a datetime. *)
Definition readable (v : value) : Prop :=
  exists s c, v = VStr s /\ s <> "" /\ transform_datetime env v = Some c.

(** An accumulator that line 89 can compare a cursor value with: [None],
    or a value that [transform_datetime] reads as a datetime. *)
Definition comparable (v : value) : Prop :=
  v = VNone \/ exists m, transform_datetime env v = Some m.

End Vocabulary.

(** The record has no value, or a false or empty one (None, [''], 0,
    False, an empty list or dict), for the field [key]. *)
Definition missing_or_empty (record : value) (key : string) : bool :=
  match py_get record (Some key) with
  | Ok val => negb (truthy val)
  | Err _ => false
  end.

(** The keys that [sync_endpoint] assigns in the parameter dict. *)
Definition written_keys (cfg : endpoint_config) : list string :=
  (match bookmark_query_field_from cfg with Some k => [k] | None => [] end
   ++ match bookmark_query_field_to cfg with Some k => [k] | None => [] end
   ++ ["page_size"; "session_id"; "page"])%list.

(** The keys that a window assigns before its first page request: the
    two cursor-range fields and [page_size]. *)
Definition window_keys (cfg : endpoint_config) : list string :=
  (match bookmark_query_field_from cfg with Some k => [k] | None => [] end
   ++ match bookmark_query_field_to cfg with Some k => [k] | None => [] end
   ++ ["page_size"])%list.

(** [kept ks d1 d2]: every key of [d1] is a key of [d2], with the value
    it has in [d1] unless it is one of [ks]. *)
Definition kept (ks : list string) (d1 d2 : dict) : Prop :=
  forall k,
    dict_has d1 k = true ->
    dict_has d2 k = true /\ (~ In k ks -> dict_get d2 k = dict_get d1 k).

(** The parameter dicts of the page requests among [calls], in order. *)
Definition stream_params (calls : list request) : list dict :=
  flat_map (fun r => match r with
                     | StreamRequest ps _ => [ps]
                     | ParentRequest _ => []
                     end) calls.

(** From [w] to [w'] the parameter dict only gained keys and kept the
    values of those the engine does not assign; every page request issued
    in between was squashed from a dict between the two, and from one
    that kept what the requests before it had. *)
Definition params_grow (ks : list string) (w w' : world) : Prop :=
  exists new,
    w_calls w' = (w_calls w ++ new)%list
    /\ kept ks (w_params w) (w_params w')
    /\ Forall (fun ps => kept ks (w_params w) ps /\ kept ks ps (w_params w'))
              (stream_params new)
    /\ ForallOrdPairs (kept ks) (stream_params new).

(** A key of a date dictionary other than the summary. *)
Definition is_date_key (kv : string * value) : bool :=
  negb (String.eqb (fst kv) "$overall").

(** What [date_records] appends for one date key. *)
Definition is_dated (kv : string * value) (record : value) : Prop :=
  py_get record (Some "date") = Ok (VStr (fst kv))
  /\ py_get record (Some "datetime") = Ok (VStr (fst kv ++ "T00:00:00Z"))
  /\ forall field, field <> "date" -> field <> "datetime" ->
       py_get record (Some field) = py_get (snd kv) (Some field).

(** ** Sample data *)

(** 2023-11-14T22:13:20Z, in microseconds since the epoch. *)
Definition now0 : Z := 1700000000000000.

Definition sample_record (id cursor : string) : value :=
  VDict [("id", VStr id); ("time", VStr cursor)].

(** Collaborators for concrete runs: the client is given; [transform_json]
    passes a list of records on; the schema transform accepts any dict;
    a non-empty string is its own normalised datetime; every bookmark
    parses to 40 days before [now0]; the window dates are those of 40 and
    10 days before [now0] and of [now0]; the output takes every message,
    the catalog has every stream, every time zone is known and the
    record counter is never ready to log. *)
Definition sample_env (client : list request -> request -> option value)
    : collaborators :=
  mk_collaborators
    client
    (fun data _ => match data with VList l => Some l | _ => Some [] end)
    (fun record => match record with VDict d => Some d | _ => None end)
    (fun v => match v with
              | VStr s => if String.eqb s "" then None else Some s
              | _ => None
              end)
    (fun _ => Some (now0 - timedelta 40))
    (fun dt => if dt =? now0 - timedelta 40 then "2023-10-05"
               else if dt =? now0 - timedelta 10 then "2023-11-04"
               else "2023-11-14")
    (fun _ _ => true)
    (fun _ => true)
    (fun _ => true)
    (fun _ => false).

(** [sample_env] with another output and another clock of the record
    counter. *)
Definition sample_env_with (client : list request -> request -> option value)
    (write : list message -> message -> bool) (ready : list message -> bool)
    : collaborators :=
  mk_collaborators
    client
    (transform_json (sample_env client))
    (singer_transform (sample_env client))
    (singer_transform_datetime (sample_env client))
    (strptime_to_utc (sample_env client))
    (window_date (sample_env client))
    write
    (catalog_get_stream (sample_env client))
    (pytz_timezone (sample_env client))
    ready.

(** Collaborators as [sample_env], with a [transform_datetime] that
    writes out the fraction of a second that a datetime string leaves
    out. *)
Definition raw_env : collaborators :=
  mk_collaborators
    (fun _ _ => None)
    (fun data _ => match data with VList l => Some l | _ => Some [] end)
    (fun record => match record with VDict d => Some d | _ => None end)
    (fun v => match v with
              | VStr s =>
                  if String.eqb s "" then None
                  else if Nat.eqb (String.length s) 20
                       then Some (substring 0 19 s ++ ".000000Z")
                       else Some s
              | _ => None
              end)
    (fun _ => Some (now0 - timedelta 40))
    (fun _ => "2023-11-14")
    (fun _ _ => true)
    (fun _ => true)
    (fun _ => true)
    (fun _ => false).

(** A paginated endpoint that returns four records per page, reports
    [total] records and supplies a session id on every page. *)
Definition paging_client (total : Z) : list request -> request -> option value :=
  fun _ _ =>
    Some (VDict [("results", VList [sample_record "r1" "2024-01-01T00:00:00.000000Z";
                                    sample_record "r2" "2024-01-02T00:00:00.000000Z";
                                    sample_record "r3" "2024-01-03T00:00:00.000000Z";
                                    sample_record "r4" "2024-01-04T00:00:00.000000Z"]);
                 ("total", VInt total);
                 ("session_id", VStr "s1")]).

(** A response of the [revenue] kind. *)
Definition revenue_response : value :=
  VDict [("results",
          VDict [("2024-01-01", VDict [("amount", VInt 5); ("count", VInt 2)]);
                 ("$overall", VDict [("amount", VInt 5); ("count", VInt 2)])])].

(** A client whose page holds two records, the second without [id]. *)
Definition missing_id_client : list request -> request -> option value :=
  fun _ _ =>
    Some (VDict [("results",
                  VList [sample_record "r1" "2024-01-01T00:00:00.000000Z";
                         VDict [("time", VStr "2024-01-02T00:00:00.000000Z")]])]).

(** A client whose parent listing is empty. *)
Definition empty_listing_client : list request -> request -> option value :=
  fun _ r =>
    match r with
    | ParentRequest _ => Some (VList [])
    | StreamRequest _ _ => Some (VDict [("results", VList [])])
    end.

(** A client that never answers. *)
Definition no_client : list request -> request -> option value :=
  fun _ _ => None.

(** A stream of the [export] kind: one cursor-range query, no parent,
    no pagination, records below [results], identified by [id]. *)
Definition flat_config : endpoint_config :=
  mk_config (Some "results") None None (Some "from_date") (Some "to_date")
            (Some ["id"]) false false.

(** A paginated stream without a cursor range. *)
Definition paged_config : endpoint_config :=
  mk_config (Some "results") None None None None (Some ["id"]) false true.

(** A paginated stream with a cursor range. *)
Definition paged_ranged_config : endpoint_config :=
  mk_config (Some "results") None None (Some "from_date") (Some "to_date")
            (Some ["id"]) false true.

(** A date-dictionary stream. *)
Definition revenue_config : endpoint_config :=
  mk_config (Some "results") None None (Some "from_date") (Some "to_date")
            (Some ["date"]) true false.

(** A stream under a parent listing. *)
Definition child_config : endpoint_config :=
  mk_config (Some "results") (Some "funnels/list") (Some "funnel_id")
            None None (Some ["id"]) false false.

Definition empty_world : world := mk_world [] [] [] [].

(** ** Vocabulary of the run-level properties *)

(** The keys that the page loop assigns in the parameter dict
    (lines 220, 224 and 225). *)
Definition pagination_keys : list string := ["page_size"; "session_id"; "page"].

(** The state carried by the last state message of [msgs]; [state] when
    there is none. *)
Definition last_state (msgs : list message) (state : dict) : dict :=
  fold_left (fun st m => match m with StateMessage s => s | _ => st end)
            msgs state.

(** What [sync_endpoint] writes for a stream once its schema is out:
    records of that stream and, when the stream has a replication key,
    state messages. *)
Definition stream_output (stream_name : string)
    (bookmark_field : option string) (m : message) : Prop :=
  match m with
  | SchemaMessage _ => False
  | RecordMessage s _ => s = stream_name
  | StateMessage _ => name_set bookmark_field = true
  end.

(** From [w] to [w'] the sink has grown by messages of the stream, the
    state of a stream without a replication key is as it was, and only
    the [bookmarks] entry of the state may differ. *)
Definition run_trace (stream_name : string) (bookmark_field : option string)
    (w w' : world) : Prop :=
  exists msgs,
    w_sink w' = (w_sink w ++ msgs)%list
    /\ Forall (stream_output stream_name bookmark_field) msgs
    /\ (name_set bookmark_field = false -> w_state w' = w_state w)
    /\ forall k, k <> "bookmarks" ->
         dict_get (w_state w') k = dict_get (w_state w) k.

(** From [w] to [w'] the sink has grown, and every record written since
    is a record of the stream that the emission rule keeps, the
    checkpoint being [last_datetime]. *)
Definition records_filtered (env : collaborators) (stream_name : string)
    (bookmark_field : option string) (last_datetime : value)
    (w w' : world) : Prop :=
  exists msgs,
    w_sink w' = (w_sink w ++ msgs)%list
    /\ Forall (fun m => match m with
                        | RecordMessage s tr =>
                            s = stream_name
                            /\ should_emit env bookmark_field last_datetime tr
                               = true
                        | _ => True
                        end) msgs.

(** From [w] to [w'] the sink has grown, and the state in memory is the
    one of the last state message written since ([w]'s own when there is
    none). *)
Definition written_through (w w' : world) : Prop :=
  exists msgs,
    w_sink w' = (w_sink w ++ msgs)%list
    /\ w_state w' = last_state msgs (w_state w).

(** The output, as it stands in [w], does not take the state in memory. *)
Definition state_refused (env : collaborators) (w : world) : Prop :=
  singer_write env (w_sink w) (StateMessage (w_state w)) = false.

(** [m] keeps the output in step with the state: whatever its outcome
    the state in memory is the last one written, unless [m] stopped with
    [OSError] on a state that the output did not take. *)
Definition in_step {A : Type} (env : collaborators) (m : M A) : Prop :=
  forall w,
    written_through w (world_of (m w))
    \/ exists w', m w = Raised OSError w' /\ state_refused env w'.

(** The parameter dict [ps] has [from_date] and [to_date] under the two
    cursor-range fields. *)
Definition carries (field_from field_to : string) (from_date to_date : string)
    (ps : dict) : Prop :=
  dict_get ps field_from = Some (VStr from_date)
  /\ dict_get ps field_to = Some (VStr to_date).

(** From [w] to [w'] the values under [k1] and [k2] of the parameter dict
    stayed, and every page request issued in between was squashed from a
    dict that has them. *)
Definition params_fixed (k1 k2 : string) (w w' : world) : Prop :=
  dict_get (w_params w') k1 = dict_get (w_params w) k1
  /\ dict_get (w_params w') k2 = dict_get (w_params w) k2
  /\ exists new,
       w_calls w' = (w_calls w ++ new)%list
       /\ Forall (fun ps => dict_get ps k1 = dict_get (w_params w) k1
                            /\ dict_get ps k2 = dict_get (w_params w) k2)
                 (stream_params new).

(** The record is a dict with a true, non-empty value under [key]. *)
Definition has_id (record : value) (key : string) : bool :=
  match py_get record (Some key) with
  | Ok val => truthy val
  | Err _ => false
  end.

(** The schemas written among [msgs], in order. *)
Definition schemas_of (msgs : list message) : list string :=
  flat_map (fun m => match m with SchemaMessage s => [s] | _ => [] end) msgs.

(** ** Stream orchestrator ([update_currently_syncing], [sync]) *)

(** [del d[k]], for a key that [d] has. *)
Definition dict_del (d : dict) (k : string) : dict :=
  filter (fun kv => negb (String.eqb (fst kv) k)) d.

(** A stream name or [None], as a value. *)
Definition name_value (stream_name : option string) : value :=
  match stream_name with
  | Some s => VStr s
  | None => VNone
  end.

(** What the orchestrator calls and [sync.py] does not define. [None]
    stands for a raised exception. *)
Record runtime : Type := mk_runtime {
  (* singer.set_currently_syncing(state, stream_name): the state dict as
     the call leaves it *)
  set_currently_syncing : dict -> value -> dict;
  (* [stream.stream for stream in catalog.get_selected_streams(state)] *)
  get_selected_streams : dict -> list string;
  (* int(v) *)
  py_int : value -> option Z;
  (* utils.now(), as the k-th call of sync_endpoint reads it at line 142 *)
  now_at : nat -> Z
}.

(** [singer.bookmarks.set_currently_syncing], the lines that the comment
    above [update_currently_syncing] points to:
    [state['currently_syncing'] = tap_stream_id]. *)
Definition singer_set_currently_syncing (state : dict) (tap_stream_id : value)
    : dict :=
  dict_set state "currently_syncing" tap_stream_id.

(** [STREAMS[stream_name]], as [sync] and [sync_endpoint] read it; the
    [params] entry, when the definition has one, is the dict object that
    [sync_endpoint] binds to [static_params]. The [path] entry only names
    the URL of the requests. *)
Record stream_definition : Type := mk_stream {
  sd_config : endpoint_config;
  sd_replication_keys : option (list string);
  sd_params : option dict
}.

Definition stream_table : Type := list (string * stream_definition).

(** [STREAMS[stream_name]] *)
Fixpoint find_stream (STREAMS : stream_table) (stream_name : string)
    : option stream_definition :=
  match STREAMS with
  | [] => None
  | (name, endpoint_config) :: rest =>
      if String.eqb name stream_name then Some endpoint_config
      else find_stream rest stream_name
  end.

(** [endpoint_config.get('params', {})] *)
Definition static_params (endpoint_config : stream_definition) : dict :=
  match sd_params endpoint_config with
  | Some params => params
  | None => []
  end.

(** The table once [sync_endpoint] has run for [stream_name]: the
    [params] object of its definition is as the run left it; a
    definition without [params] was given a new dict, which is dropped. *)
Fixpoint store_params (STREAMS : stream_table) (stream_name : string)
    (params : dict) : stream_table :=
  match STREAMS with
  | [] => []
  | (name, endpoint_config) :: rest =>
      if String.eqb name stream_name then
        (name,
         match sd_params endpoint_config with
         | Some _ => mk_stream (sd_config endpoint_config)
                               (sd_replication_keys endpoint_config)
                               (Some params)
         | None => endpoint_config
         end) :: rest
      else (name, endpoint_config) :: store_params rest stream_name params
  end.

(** [next(iter(endpoint_config.get('replication_keys', [])), None)] *)
Definition first_replication_key (endpoint_config : stream_definition)
    : option string :=
  match sd_replication_keys endpoint_config with
  | Some (key :: _) => Some key
  | _ => None
  end.

(** The stream table with its parameter dicts, and the world; between
    two streams [w_params] is the dict the last stream was run on. *)
Record run_world : Type := mk_run_world {
  rw_streams : stream_table;
  rw_world : world
}.

Inductive run_error : Type :=
| StreamError (e : exn)   (* raised by STREAMS[stream_name] or in sync_endpoint *)
| IntError.               (* raised by int(...) on a configuration value *)

Inductive run_outcome : Type :=
| Finished (rw : run_world)
| Aborted (e : run_error) (rw : run_world)
| Stalled (rw : run_world).

Definition run_world_of (o : run_outcome) : run_world :=
  match o with
  | Finished rw => rw
  | Aborted _ rw => rw
  | Stalled rw => rw
  end.

Section Orchestrator.

Variable env : collaborators.
Variable rt : runtime.

Definition update_currently_syncing (stream_name : option string) : M unit :=
  state <- get_state ;;
  let state :=
    if is_none (name_value stream_name) && dict_has state "currently_syncing"
    then dict_del state "currently_syncing"
    else set_currently_syncing rt state (name_value stream_name) in
  put_state state ;;;
  emit env (StateMessage state).

(** One turn of [for stream_name in selected_streams], the [k]-th. *)
Definition sync_stream (fuel : nat) (config : dict) (start_date : value)
    (k : nat) (stream_name : string) (rw : run_world) : run_outcome :=
  let STREAMS := rw_streams rw in
  match update_currently_syncing (Some stream_name) (rw_world rw) with
  | Done _ w =>
      match find_stream STREAMS stream_name with
      | None => Aborted (StreamError KeyError) (mk_run_world STREAMS w)
      | Some endpoint_config =>
          let bookmark_field := first_replication_key endpoint_config in
          match py_int rt (dict_get_default config "date_window_size" (VStr "30")) with
          | None => Aborted IntError (mk_run_world STREAMS w)
          | Some days_interval =>
              match py_int rt (dict_get_default config "attribution_window" (VStr "5")) with
              | None => Aborted IntError (mk_run_world STREAMS w)
              | Some attribution_window =>
                  let project_timezone :=
                    dict_get_default config "project_timezone" (VStr "UTC") in
                  let o :=
                    (sync_endpoint env stream_name (sd_config endpoint_config)
                                   bookmark_field project_timezone fuel
                                   start_date (now_at rt k)
                                   days_interval attribution_window ;;;
                     update_currently_syncing None)
                      (with_params w (static_params endpoint_config)) in
                  let STREAMS :=
                    store_params STREAMS stream_name (w_params (world_of o)) in
                  match o with
                  | Done _ w => Finished (mk_run_world STREAMS w)
                  | Raised e w => Aborted (StreamError e) (mk_run_world STREAMS w)
                  | Starved w => Stalled (mk_run_world STREAMS w)
                  end
              end
          end
      end
  | Raised e w => Aborted (StreamError e) (mk_run_world (rw_streams rw) w)
  | Starved w => Stalled (mk_run_world (rw_streams rw) w)
  end.

(** [for stream_name in selected_streams], from the [k]-th stream on. *)
Fixpoint sync_streams (fuel : nat) (config : dict) (start_date : value)
    (k : nat) (selected_streams : list string) (rw : run_world) : run_outcome :=
  match selected_streams with
  | [] => Finished rw
  | stream_name :: rest =>
      match sync_stream fuel config start_date k stream_name rw with
      | Finished rw => sync_streams fuel config start_date (S k) rest rw
      | o => o
      end
  end.

(** [sync]; the result of [singer.get_currently_syncing] is only
    logged. *)
Definition sync (fuel : nat) (config : dict) (start_date : value)
    (rw : run_world) : run_outcome :=
  let selected_streams := get_selected_streams rt (w_state (rw_world rw)) in
  match selected_streams with
  | [] => Finished rw
  | _ => sync_streams fuel config start_date 0 selected_streams rw
  end.

End Orchestrator.

(** The state that [update_currently_syncing] leaves and writes out. *)
Definition marked (rt : runtime) (stream_name : option string) (state : dict)
    : dict :=
  if is_none (name_value stream_name) && dict_has state "currently_syncing"
  then dict_del state "currently_syncing"
  else set_currently_syncing rt state (name_value stream_name).

(** ** Entry point ([main], [tap_mixpanel/__init__.py]) *)

Definition REQUIRED_CONFIG_KEYS : list string :=
  ["project_timezone"; "date_window_size"; "attribution_window";
   "start_date"; "user_agent"].

(** What [singer.utils.parse_args] returns, as [main] reads it. *)
Record parsed_args : Type := mk_parsed_args {
  pa_config : dict;     (* parsed_args.config *)
  pa_state : value;     (* parsed_args.state *)
  pa_discover : bool;   (* parsed_args.discover *)
  pa_catalog : bool     (* parsed_args.catalog is a Catalog, not None *)
}.

Inductive main_exn : Type :=
| ConfigKeyError (key : string)   (* parsed_args.config[key] *)
| ProjectIdRequired               (* "project_id is required for Service User/Password ..." *)
| NoCredentials.                  (* "No API secret OR Username/Password provided." *)

Inductive main_result (A : Type) : Type :=
| Returned (a : A)
| Failed (e : main_exn).
Arguments Returned {A} a.
Arguments Failed {A} e.

Definition main_bind {A B} (r : main_result A) (f : A -> main_result B)
    : main_result B :=
  match r with
  | Returned a => f a
  | Failed e => Failed e
  end.

(** The arguments [MixpanelClient] is constructed from (lines 51-56). *)
Record client_arguments : Type := mk_client_arguments {
  ca_api_secret : value;
  ca_username : value;
  ca_password : value;
  ca_project_id : value;
  ca_user_agent : value;
  ca_server : value
}.

(** What [main] runs with the client (lines 67-74). *)
Inductive command : Type :=
| Discover (properties_flag denest_properties_flag : value)
| Sync (config : dict) (state start_date : value)
| NoCommand.

(** The keys that lines 41-49 assign. *)
Definition credential_keys : list string :=
  ["api_secret"; "username"; "password"; "project_id"].

(** [config[key]] *)
Definition config_item (config : dict) (key : string) : main_result value :=
  match dict_get config key with
  | Some v => Returned v
  | None => Failed (ConfigKeyError key)
  end.

(** Lines 41-49: [params] is the configuration dict itself, updated in
    place. *)
Definition credentials (params : dict) : main_result dict :=
  if truthy (record_get params (Some "username"))
     && truthy (record_get params (Some "password")) then
    if is_none (record_get params (Some "project_id"))
    then Failed ProjectIdRequired
    else Returned (dict_set params "api_secret" VNone)
  else if truthy (record_get params (Some "api_secret")) then
    Returned (dict_set (dict_set (dict_set params "username" VNone)
                                 "password" VNone)
                       "project_id" VNone)
  else Failed NoCredentials.

(** [main], up to the calls it makes: the arguments it constructs the
    client from and the command it runs with it. *)
Definition main (args : parsed_args) : main_result (client_arguments * command) :=
  main_bind (config_item (pa_config args) "start_date") (fun start_date =>
  main_bind (credentials (pa_config args)) (fun config =>
  main_bind (config_item config "api_secret") (fun api_secret =>
  main_bind (config_item config "username") (fun username =>
  main_bind (config_item config "password") (fun password =>
  main_bind (config_item config "project_id") (fun project_id =>
  main_bind (config_item config "user_agent") (fun user_agent =>
  let server := record_get config (Some "server") in
  let state := if truthy (pa_state args) then pa_state args else VDict [] in
  let properties_flag := record_get config (Some "select_properties_by_default") in
  let denest_properties_flag :=
    dict_get_default config "denest_properties" (VStr "true") in
  Returned
    (mk_client_arguments api_secret username password project_id
                         user_agent server,
     if pa_discover args then Discover properties_flag denest_properties_flag
     else if pa_catalog args then Sync config state start_date
     else NoCommand)))))))).

(** ** Sample data of the orchestrator and of the entry point *)

(** [int] on the integers and on the strings of the default
    configuration. *)
Definition sample_int (v : value) : option Z :=
  match v with
  | VInt z => Some z
  | VStr s =>
      if String.eqb s "30" then Some 30
      else if String.eqb s "5" then Some 5
      else None
  | _ => None
  end.

(** A runtime that selects the streams [selected] and reads [now0] at
    every call. *)
Definition sample_runtime (selected : list string) : runtime :=
  mk_runtime singer_set_currently_syncing (fun _ => selected) sample_int
             (fun _ => now0).

Definition sample_streams : stream_table :=
  [ ("export", mk_stream flat_config (Some ["time"]) None);
    ("engage", mk_stream paged_config None (Some [("where", VStr "x")])) ].

(** A client with one page of two records, 20 and 5 days before [now0]. *)
Definition two_record_client : list request -> request -> option value :=
  fun _ _ =>
    Some (VDict [("results",
                  VList [sample_record "r1" "2023-10-25T22:13:20.000000Z";
                         sample_record "r2" "2023-11-09T22:13:20.000000Z"])]).

(** A client with one page of two records of 2023-11-04, the day on
    which the first window of the sample runs ends and the second
    starts. *)
Definition boundary_day_client : list request -> request -> option value :=
  fun _ _ =>
    Some (VDict [("results",
                  VList [sample_record "a" "2023-11-04T08:00:00.000000Z";
                         sample_record "b" "2023-11-04T20:00:00.000000Z"])]).

(** Collaborators as [sample_env], with a schema transform that lets a
    record through only when its [time] is null or a string. *)
Definition strict_env (client : list request -> request -> option value)
    : collaborators :=
  mk_collaborators
    client
    (transform_json (sample_env client))
    (fun record =>
       match record with
       | VDict d =>
           match record_get d (Some "time") with
           | VNone | VStr _ => Some d
           | _ => None
           end
       | _ => None
       end)
    (singer_transform_datetime (sample_env client))
    (strptime_to_utc (sample_env client))
    (window_date (sample_env client))
    (singer_write (sample_env client))
    (catalog_get_stream (sample_env client))
    (pytz_timezone (sample_env client))
    (counter_ready_to_log (sample_env client)).

(** A configuration with both kinds of credentials. *)
Definition sample_config : dict :=
  [ ("project_timezone", VStr "UTC"); ("date_window_size", VStr "30");
    ("attribution_window", VStr "5"); ("start_date", VStr "2023-10-05T22:13:20Z");
    ("user_agent", VStr "tap"); ("api_secret", VStr "secret");
    ("username", VStr "user"); ("password", VStr "pass");
    ("project_id", VInt 7) ].

(** * Properties *)

(** ** Window planner *)

Lemma us_per_day_eq : us_per_day = 86400000000.
Proof. reflexivity. Qed.

Lemma timedelta_eq (d : Z) : timedelta d = d * 86400000000.
Proof. unfold timedelta. now rewrite us_per_day_eq. Qed.

Lemma td_days_bounds (td : Z) :
  timedelta (td_days td) <= td < timedelta (td_days td + 1).
Proof.
  rewrite !timedelta_eq. unfold td_days. rewrite us_per_day_eq.
  pose proof (Z.div_mod td 86400000000 ltac:(lia)) as E.
  pose proof (Z.mod_pos_bound td 86400000000 ltac:(lia)) as B.
  lia.
Qed.

(** With a lower bound that does not exceed 365, the two branches of
    lines 152-157 are the clamp. *)
Lemma delta_days_is_clamp (delta_days attribution_window : Z) :
  attribution_window <= 365 ->
  (if delta_days <=? attribution_window then attribution_window
   else if 365 <=? delta_days then 365 else delta_days)
  = clamp delta_days attribution_window 365.
Proof.
  intros Haw. unfold clamp.
  destruct (delta_days <=? attribution_window) eqn:E1.
  - apply Z.leb_le in E1.
    destruct (365 <=? attribution_window) eqn:E2; [apply Z.leb_le in E2; lia | reflexivity].
  - reflexivity.
Qed.

Lemma last_cons_default {A} (l : list A) (x d : A) :
  last (x :: l) d = last l x.
Proof.
  revert x d. induction l as [|y l IH]; intros x d; [reflexivity|].
  change (last (x :: y :: l) d) with (last (y :: l) d).
  rewrite (IH y d). symmetry. apply IH.
Qed.

Lemma final_start_cons (s e start : Z) (ws : list (Z * Z)) :
  final_start start ((s, e) :: ws) = final_start e ws.
Proof. unfold final_start. cbn [map snd]. apply last_cons_default. Qed.

(** *** The bounds of datetime arithmetic *)

Lemma py_timedelta_ok (d : Z) :
  Z.abs d <= 999999999 -> py_timedelta d = Ok (timedelta d).
Proof. intros H. unfold py_timedelta. apply Z.leb_le in H. now rewrite H. Qed.

Lemma py_timedelta_inv (d td : Z) :
  py_timedelta d = Ok td -> td = timedelta d /\ Z.abs d <= 999999999.
Proof.
  unfold py_timedelta. destruct (Z.abs d <=? 999999999) eqn:E; [|discriminate].
  intros H. inversion H. split; [reflexivity | now apply Z.leb_le].
Qed.

Lemma py_timedelta_err (d : Z) (e : exn) :
  py_timedelta d = Err e -> e = OverflowError /\ 999999999 < Z.abs d.
Proof.
  unfold py_timedelta. destruct (Z.abs d <=? 999999999) eqn:E; [discriminate|].
  intros H. inversion H. split; [reflexivity | now apply Z.leb_gt].
Qed.

Lemma datetime_add_ok (dt td : Z) :
  datetime_min <= dt + td <= datetime_max -> datetime_add dt td = Ok (dt + td).
Proof.
  intros [H1 H2]. unfold datetime_add.
  apply Z.leb_le in H1, H2. now rewrite H1, H2.
Qed.

Lemma datetime_add_inv (dt td r : Z) :
  datetime_add dt td = Ok r ->
  r = dt + td /\ datetime_min <= dt + td <= datetime_max.
Proof.
  unfold datetime_add.
  destruct (datetime_min <=? dt + td) eqn:E1;
    destruct (dt + td <=? datetime_max) eqn:E2; cbn [andb]; try discriminate.
  intros H. inversion H. apply Z.leb_le in E1, E2. auto.
Qed.

Lemma datetime_add_err (dt td : Z) (e : exn) :
  datetime_add dt td = Err e ->
  e = OverflowError /\ (dt + td < datetime_min \/ datetime_max < dt + td).
Proof.
  unfold datetime_add.
  destruct (datetime_min <=? dt + td) eqn:E1;
    destruct (dt + td <=? datetime_max) eqn:E2; cbn [andb]; try discriminate;
    intros H; inversion H; (split; [reflexivity|]);
    try (apply Z.leb_gt in E1; now left);
    apply Z.leb_gt in E2; now right.
Qed.

(** No more days than the years 1 to 9999 hold separate two datetimes. *)
Lemma datetime_span (a b d : Z) :
  datetime_min <= a <= datetime_max ->
  datetime_min <= b <= datetime_max ->
  b = a + timedelta d ->
  Z.abs d <= 999999999.
Proof.
  unfold datetime_min, datetime_max. rewrite timedelta_eq. intros Ha Hb ->. lia.
Qed.

(** *** The next window *)

Lemma next_window_inv (now di e : Z) (p : Z * Z) :
  next_window now di e = Ok p ->
  p = (e, capped now (e + timedelta di))
  /\ Z.abs di <= 999999999
  /\ datetime_min <= e + timedelta di <= datetime_max.
Proof.
  unfold next_window, capped.
  destruct (py_timedelta di) as [step|] eqn:Et; [|discriminate].
  cbn [result_bind]. apply py_timedelta_inv in Et. destruct Et as [-> Hd].
  destruct (datetime_add e (timedelta di)) as [n|] eqn:Ea; [|discriminate].
  cbn [result_bind]. apply datetime_add_inv in Ea. destruct Ea as [-> Hr].
  destruct (now <? e + timedelta di); intros H; inversion H; auto.
Qed.

Lemma next_window_ok (now di e : Z) :
  Z.abs di <= 999999999 ->
  datetime_min <= e + timedelta di <= datetime_max ->
  next_window now di e = Ok (e, capped now (e + timedelta di)).
Proof.
  intros Hd Hr. unfold next_window, capped.
  rewrite (py_timedelta_ok _ Hd). cbn [result_bind].
  rewrite (datetime_add_ok _ _ Hr). cbn [result_bind].
  now destruct (now <? e + timedelta di).
Qed.

Lemma next_window_err (now di e : Z) (ex : exn) :
  next_window now di e = Err ex -> ex = OverflowError.
Proof.
  unfold next_window.
  destruct (py_timedelta di) as [step|e1] eqn:Et; cbn [result_bind].
  - destruct (datetime_add e step) as [n|e2] eqn:Ea; cbn [result_bind].
    + destruct (now <? n); discriminate.
    + intros H. inversion H. subst. now apply datetime_add_err in Ea.
  - intros H. inversion H. subst. now apply py_timedelta_err in Et.
Qed.

Lemma windows_S (fuel : nat) (now di s e : Z) :
  windows (S fuel) now di s e
  = if s <? now then
      match next_window now di e with
      | Ok (s', e') =>
          match windows fuel now di s' e' with
          | Some (Ok ws) => Some (Ok ((s, e) :: ws))
          | Some (Err ex) => Some (Err ex)
          | None => None
          end
      | Err ex => Some (Err ex)
      end
    else Some (Ok []).
Proof. reflexivity. Qed.

(** What a completed loop has gone through. *)
Lemma windows_inv (fuel : nat) (now di s e : Z) (ws : list (Z * Z)) :
  windows fuel now di s e = Some (Ok ws) ->
  (now <= s /\ ws = [])
  \/ (s < now
      /\ exists fuel' ws',
           fuel = S fuel' /\ ws = (s, e) :: ws'
           /\ next_window now di e = Ok (e, capped now (e + timedelta di))
           /\ windows fuel' now di e (capped now (e + timedelta di))
              = Some (Ok ws')).
Proof.
  destruct fuel as [|fuel]; [discriminate|]. rewrite windows_S.
  destruct (s <? now) eqn:E.
  - apply Z.ltb_lt in E.
    destruct (next_window now di e) as [[s' e']|ex] eqn:En; [|discriminate].
    pose proof (next_window_inv _ _ _ _ En) as (Hp & _).
    inversion Hp; subst s' e'.
    destruct (windows fuel now di e (capped now (e + timedelta di)))
      as [[ws'|ex]|] eqn:Ew; try discriminate.
    intros H. inversion H. right. split; [exact E|].
    now exists fuel, ws'.
  - apply Z.ltb_ge in E. intros H. inversion H. now left.
Qed.

(** More fuel does not change what the loop does. *)
Lemma windows_fuel_mono (fuel : nat) :
  forall now di s e r,
    windows fuel now di s e = Some r ->
    forall fuel', (fuel <= fuel')%nat -> windows fuel' now di s e = Some r.
Proof.
  induction fuel as [|fuel IH]; intros now di s e r H fuel' Hle; [discriminate|].
  destruct fuel' as [|fuel']; [lia|].
  rewrite windows_S in *.
  destruct (s <? now); [|exact H].
  destruct (next_window now di e) as [[s' e']|ex]; [|exact H].
  destruct (windows fuel now di s' e') as [r'|] eqn:E; [|discriminate].
  rewrite (IH _ _ _ _ _ E fuel' ltac:(lia)). exact H.
Qed.

(** A non-empty run starts with the window it was entered with. *)
Lemma windows_head (fuel : nat) (now di s e : Z) (w : Z * Z) (ws : list (Z * Z)) :
  windows fuel now di s e = Some (Ok (w :: ws)) -> w = (s, e) /\ s < now.
Proof.
  intros H. apply windows_inv in H.
  destruct H as [[_ H]|(Hs & fuel' & ws' & _ & H & _)]; [discriminate|].
  inversion H. now split.
Qed.

(** With a positive step that the last increment can take without
    leaving the years of a datetime, the loop started at most [n] days
    before [now] returns within [n + 1] tests of its condition, and its
    windows tile the interval up to [now]. *)
Lemma windows_tile (n : nat) :
  forall now di s,
    0 < di -> s <= now -> now - s <= timedelta (Z.of_nat n) ->
    datetime_min <= s -> now + timedelta di <= datetime_max ->
    exists ws,
      windows (S n) now di s (capped now (s + timedelta di)) = Some (Ok ws)
      /\ tiles s now ws
      /\ Forall (fun w => fst w < now) ws
      /\ final_start s ws = now.
Proof.
  induction n as [|n IH]; intros now di s Hdi Hs Hn Hmin Hmax.
  - rewrite timedelta_eq in Hn. exists []. rewrite windows_S.
    assert (s = now) as -> by lia. rewrite Z.ltb_irrefl.
    repeat split; constructor.
  - rewrite windows_S. destruct (s <? now) eqn:E.
    + apply Z.ltb_lt in E.
      set (e := capped now (s + timedelta di)).
      assert (He : s < e /\ e <= now /\ now - e <= timedelta (Z.of_nat n)).
      { subst e. unfold capped. rewrite !timedelta_eq in *.
        destruct (now <? s + di * 86400000000) eqn:E2;
          [apply Z.ltb_lt in E2 | apply Z.ltb_ge in E2]; lia. }
      destruct He as (He1 & He2 & He3).
      rewrite next_window_ok.
      * destruct (IH now di e Hdi He2 He3 ltac:(lia) Hmax)
          as (ws & Hw & Ht & Hf & Hl).
        rewrite Hw. exists ((s, e) :: ws). split; [reflexivity|].
        split; [cbn [tiles]; auto|].
        split; [constructor; [exact E | exact Hf]|].
        rewrite final_start_cons. exact Hl.
      * unfold datetime_min, datetime_max in *. rewrite timedelta_eq in *. lia.
      * unfold datetime_min, datetime_max in *. rewrite timedelta_eq in *. lia.
    + apply Z.ltb_ge in E. assert (s = now) as -> by lia.
      exists []. repeat split; constructor.
Qed.

(** With a negative step the loop never returns: it uses up every amount
    of fuel, or a window leaves the years of a datetime. *)
Lemma windows_negative_step (fuel : nat) :
  forall now di s e ws,
    di < 0 -> s < now -> e < now -> windows fuel now di s e <> Some (Ok ws).
Proof.
  induction fuel as [|fuel IH]; intros now di s e ws Hdi Hs He H;
    [discriminate H|].
  apply windows_inv in H.
  destruct H as [[H _]|(_ & fuel' & ws' & Hf & _ & _ & H)]; [lia|].
  inversion Hf; subst fuel'. revert H. apply IH; [exact Hdi | exact He |].
  unfold capped. rewrite timedelta_eq.
  destruct (now <? e + di * 86400000000) eqn:E; [apply Z.ltb_lt in E|]; lia.
Qed.

(** With ordered bounds the clamp is the usual one, whichever bound is
    applied first. *)
Lemma clamp_ordered_bounds (x lo hi : Z) :
  lo <= hi -> clamp x lo hi = Z.max lo (Z.min x hi).
Proof.
  intros H. unfold clamp.
  destruct (x <=? lo) eqn:E1; [apply Z.leb_le in E1 | apply Z.leb_gt in E1].
  - destruct (hi <=? lo) eqn:E2; [apply Z.leb_le in E2 | apply Z.leb_gt in E2]; lia.
  - destruct (hi <=? x) eqn:E2; [apply Z.leb_le in E2 | apply Z.leb_gt in E2]; lia.
Qed.

Lemma clamp_nonneg (x lo : Z) : 0 <= x -> lo <= 365 -> 0 <= clamp x lo 365.
Proof.
  intros Hx Hlo. unfold clamp.
  destruct (x <=? lo) eqn:E1; [apply Z.leb_le in E1 | apply Z.leb_gt in E1].
  - destruct (365 <=? lo); lia.
  - destruct (365 <=? x); lia.
Qed.

Lemma clamp_upper (x lo : Z) : clamp x lo 365 <= 365 \/ clamp x lo 365 = lo.
Proof.
  unfold clamp. destruct (x <=? lo).
  - destruct (365 <=? lo) eqn:E; [left; lia | now right].
  - destruct (365 <=? x) eqn:E; [left; lia | apply Z.leb_gt in E; left; lia].
Qed.

(** *** The plan of lines 145-169 *)

(** A plan that was made, for a stream with a cursor range. *)
Lemma plan_ranged_inv (now checkpoint di aw : Z) (p : window_plan) :
  plan_windows true now checkpoint di aw = Ok p ->
  pw_start p = now - timedelta (days_back now checkpoint aw)
  /\ pw_days_interval p = (if di =? 0 then 30 else di)
  /\ pw_end p = capped now (pw_start p + timedelta (pw_days_interval p))
  /\ datetime_min <= pw_start p <= datetime_max
  /\ datetime_min <= pw_start p + timedelta (pw_days_interval p) <= datetime_max.
Proof.
  unfold plan_windows. cbv zeta. fold (days_back now checkpoint aw).
  destruct (py_timedelta (days_back now checkpoint aw)) as [delta|] eqn:E1;
    [|discriminate].
  cbn [result_bind]. apply py_timedelta_inv in E1. destruct E1 as [-> _].
  destruct (datetime_add now (- timedelta (days_back now checkpoint aw)))
    as [start|] eqn:E2; [|discriminate].
  cbn [result_bind]. apply datetime_add_inv in E2. destruct E2 as [-> Hs].
  rewrite Z.add_opp_r in *.
  destruct (py_timedelta (if di =? 0 then 30 else di)) as [step|] eqn:E3;
    [|discriminate].
  cbn [result_bind]. apply py_timedelta_inv in E3. destruct E3 as [-> _].
  destruct (datetime_add _ _) as [stop|] eqn:E4; [|discriminate].
  cbn [result_bind]. apply datetime_add_inv in E4. destruct E4 as [-> He].
  intros H. inversion H. cbn [pw_start pw_end pw_days_interval].
  unfold capped. repeat split; tauto.
Qed.

(** The plan is made when the two dates that lines 161 and 162 compute
    are in the years of a datetime. *)
Lemma plan_ranged_ok (now checkpoint di aw : Z) :
  let start := now - timedelta (days_back now checkpoint aw) in
  let step := if di =? 0 then 30 else di in
  datetime_min <= now <= datetime_max ->
  datetime_min <= start <= datetime_max ->
  datetime_min <= start + timedelta step <= datetime_max ->
  plan_windows true now checkpoint di aw
  = Ok (mk_plan start (capped now (start + timedelta step)) step).
Proof.
  intros start step Hnow Hs He. unfold plan_windows. cbv zeta.
  fold (days_back now checkpoint aw). fold step.
  rewrite py_timedelta_ok.
  2:{ apply (datetime_span start now); [exact Hs | exact Hnow |].
      subst start. lia. }
  cbn [result_bind]. rewrite datetime_add_ok by (rewrite Z.add_opp_r; exact Hs).
  cbn [result_bind]. rewrite Z.add_opp_r. fold start.
  rewrite py_timedelta_ok.
  2:{ apply (datetime_span start (start + timedelta step)); auto. }
  cbn [result_bind]. rewrite datetime_add_ok by exact He.
  reflexivity.
Qed.

Lemma days_back_clamp (now checkpoint aw : Z) :
  aw <= 365 ->
  days_back now checkpoint aw = clamp (td_days (now - checkpoint)) aw 365.
Proof. intros H. unfold days_back. now apply delta_days_is_clamp. Qed.

Lemma plan_ranged_start (now checkpoint di aw : Z) (p : window_plan) :
  aw <= 365 ->
  plan_windows true now checkpoint di aw = Ok p ->
  pw_start p = effective_start now checkpoint aw.
Proof.
  intros Haw H. apply plan_ranged_inv in H. destruct H as (H & _).
  rewrite H. unfold effective_start. now rewrite days_back_clamp.
Qed.

(** C1 (as amended): for a checkpoint not after now, an attribution window
    of at most 365 days, a non-negative window size and dates in the
    years of a datetime (the effective start not before year 1, now plus
    one window size not after year 9999), the window loop returns, and
    the windows it visited tile [effective_start, now): each starts where
    the previous one ends, none is empty, none ends after now, the
    condition [start < now] held at each of them and [start >= now] when
    the loop is left. *)
Theorem window_coverage (now checkpoint days_interval attribution_window : Z) :
  checkpoint <= now ->
  attribution_window <= 365 ->
  0 <= days_interval ->
  datetime_min <= effective_start now checkpoint attribution_window ->
  now + timedelta (if days_interval =? 0 then 30 else days_interval)
  <= datetime_max ->
  exists fuel ws,
    (forall fuel', (fuel <= fuel')%nat ->
       planned_windows fuel' true now checkpoint
                       days_interval attribution_window = Some (Ok ws))
    /\ tiles (effective_start now checkpoint attribution_window) now ws
    /\ Forall (fun w => fst w < now) ws
    /\ now <= final_start (effective_start now checkpoint attribution_window) ws.
Proof.
  intros Hcp Haw Hdi Hmin Hmax.
  set (delta := clamp (td_days (now - checkpoint)) attribution_window 365).
  assert (Hdelta : 0 <= delta).
  { apply clamp_nonneg; [|exact Haw].
    pose proof (td_days_bounds (now - checkpoint)) as B.
    rewrite !timedelta_eq in B. lia. }
  set (step := if days_interval =? 0 then 30 else days_interval) in *.
  assert (Hstep : 0 < step).
  { subst step. destruct (days_interval =? 0) eqn:E;
      [lia | apply Z.eqb_neq in E; lia]. }
  set (start := effective_start now checkpoint attribution_window) in *.
  assert (Hstart : start = now - timedelta delta) by reflexivity.
  assert (Hplan : plan_windows true now checkpoint days_interval
                               attribution_window
                  = Ok (mk_plan start (capped now (start + timedelta step)) step)).
  { pose proof (plan_ranged_ok now checkpoint days_interval attribution_window)
      as P. cbv zeta in P.
    rewrite (days_back_clamp _ _ _ Haw) in P. fold delta step in P.
    rewrite <- Hstart in P. apply P;
      unfold datetime_min, datetime_max in *; rewrite ?timedelta_eq in *; lia. }
  destruct (windows_tile (Z.to_nat delta) now step start)
    as (ws & Hw & Ht & Hf & Hl).
  - exact Hstep.
  - rewrite Hstart, timedelta_eq. lia.
  - rewrite Hstart, Z2Nat.id by exact Hdelta. lia.
  - exact Hmin.
  - exact Hmax.
  - exists (S (Z.to_nat delta)), ws.
    split; [|split; [exact Ht | split; [exact Hf | lia]]].
    intros fuel' Hle. unfold planned_windows. rewrite Hplan.
    cbn [pw_days_interval pw_start pw_end].
    eapply windows_fuel_mono; eauto.
Qed.

Lemma window_coverage_witness :
  exists fuel ws,
    (forall fuel', (fuel <= fuel')%nat ->
       planned_windows fuel' true now0 (now0 - timedelta 70) 30 5
       = Some (Ok ws))
    /\ tiles (effective_start now0 (now0 - timedelta 70) 5) now0 ws
    /\ Forall (fun w => fst w < now0) ws
    /\ now0 <= final_start (effective_start now0 (now0 - timedelta 70) 5) ws.
Proof.
  apply (window_coverage now0 (now0 - timedelta 70) 30 5).
  - rewrite timedelta_eq. unfold now0. lia.
  - lia.
  - lia.
  - vm_compute. discriminate.
  - vm_compute. discriminate.
Defined.

(** The run of the witness: 70 days in windows of 30 days. *)
Example planned_windows_70_days :
  planned_windows 4 true now0 (now0 - timedelta 70) 30 5
  = Some (Ok [ (now0 - timedelta 70, now0 - timedelta 40);
               (now0 - timedelta 40, now0 - timedelta 10);
               (now0 - timedelta 10, now0) ]).
Proof. vm_compute. reflexivity. Qed.

(** C1 fails as stated. With an attribution window of 400 days and a
    checkpoint 380 days old the first window starts 400 days back, not at
    the effective start (365 days back); were the clamp read the other
    way round, upper bound first ([max lo (min x hi)], here 400 for every
    checkpoint), a checkpoint 500 days old would fail instead, its first
    window starting 365 days back; with a window size of -1 day the loop
    never returns; and with a window size of 4000000 days line 162 raises
    [OverflowError] before the loop is entered. *)
Lemma window_coverage_counterexample :
  (now0 - timedelta 380 <= now0
   /\ ~ (exists fuel ws,
           planned_windows fuel true now0 (now0 - timedelta 380) 30 400
           = Some (Ok ws)
           /\ tiles (effective_start now0 (now0 - timedelta 380) 400) now0 ws))
  /\ (now0 - timedelta 500 <= now0
      /\ ~ (exists fuel ws,
              planned_windows fuel true now0 (now0 - timedelta 500) 30 400
              = Some (Ok ws)
              /\ tiles (now0 - timedelta
                                 (Z.max 400 (Z.min (td_days (now0 - (now0 - timedelta 500)))
                                                   365)))
                       now0 ws))
  /\ (now0 - timedelta 10 <= now0
      /\ ~ (exists fuel ws,
              planned_windows fuel true now0 (now0 - timedelta 10) (-1) 5
              = Some (Ok ws)))
  /\ (now0 - timedelta 10 <= now0
      /\ forall fuel,
           planned_windows fuel true now0 (now0 - timedelta 10) 4000000 5
           = Some (Err OverflowError)).
Proof.
  assert (Hfirst : forall cp aw p start,
            plan_windows true now0 cp 30 aw = Ok p ->
            pw_start p < now0 ->
            pw_start p <> start ->
            ~ (exists fuel ws,
                 planned_windows fuel true now0 cp 30 aw = Some (Ok ws)
                 /\ tiles start now0 ws)).
  { intros cp aw p start Hp Hlt Hne (fuel & ws & H & T).
    unfold planned_windows in H. rewrite Hp in H. destruct ws as [|[s e] ws].
    - apply windows_inv in H. destruct H as [[H _]|(_ & ? & ? & _ & H & _)];
        [lia | discriminate H].
    - apply windows_head in H. destruct H as [H _]. cbn [tiles] in T.
      destruct T as [T _]. apply (f_equal fst) in H. cbn [fst] in H.
      apply Hne. rewrite <- T. symmetry. exact H. }
  split; [|split; [|split]]; split.
  - rewrite timedelta_eq. unfold now0. lia.
  - eapply Hfirst; [vm_compute; reflexivity | vm_compute; reflexivity
                    | vm_compute; discriminate].
  - rewrite timedelta_eq. unfold now0. lia.
  - eapply Hfirst; [vm_compute; reflexivity | vm_compute; reflexivity
                    | vm_compute; discriminate].
  - rewrite timedelta_eq. unfold now0. lia.
  - intros (fuel & ws & H). unfold planned_windows in H.
    destruct (plan_windows true now0 (now0 - timedelta 10) (-1) 5)
      as [p|] eqn:Hp; [|discriminate H].
    vm_compute in Hp. inversion Hp; subst p.
    cbn [pw_days_interval pw_start pw_end] in H.
    revert H. apply windows_negative_step; vm_compute; reflexivity.
  - rewrite timedelta_eq. unfold now0. lia.
  - intros fuel. unfold planned_windows.
    assert (Hp : plan_windows true now0 (now0 - timedelta 10) 4000000 5
                 = Err OverflowError) by (vm_compute; reflexivity).
    now rewrite Hp.
Qed.

(** C3 (as amended): for an attribution window of at most 365 days, the
    planner's first [start_window] of a cursor-range stream is now minus
    the clamped number of whole days since the checkpoint; it is now minus
    the attribution window when the checkpoint is closer than that, now
    minus 365 days when the checkpoint is more than 365 days old, and it is
    the start of the first window the loop visits. The plan is made when
    that start and the end that line 162 computes from it are dates of
    the years 1 to 9999. *)
Theorem first_window_start (now checkpoint days_interval attribution_window : Z) :
  attribution_window <= 365 ->
  let start :=
    now - timedelta (clamp (td_days (now - checkpoint)) attribution_window 365) in
  let step := if days_interval =? 0 then 30 else days_interval in
  (forall p,
     plan_windows true now checkpoint days_interval attribution_window = Ok p ->
     pw_start p = start)
  /\ (now - checkpoint < timedelta attribution_window ->
      start = now - timedelta attribution_window)
  /\ (timedelta 365 < now - checkpoint -> start = now - timedelta 365)
  /\ (forall fuel w ws,
        planned_windows fuel true now checkpoint
                        days_interval attribution_window
        = Some (Ok (w :: ws)) ->
        fst w = start)
  /\ (datetime_min <= now <= datetime_max ->
      datetime_min <= start <= datetime_max ->
      datetime_min <= start + timedelta step <= datetime_max ->
      exists p,
        plan_windows true now checkpoint days_interval attribution_window
        = Ok p).
Proof.
  intros Haw start step.
  pose proof (td_days_bounds (now - checkpoint)) as B.
  rewrite !timedelta_eq in B.
  assert (Hp : forall p,
            plan_windows true now checkpoint days_interval attribution_window
            = Ok p -> pw_start p = start).
  { intros p H.
    now apply (plan_ranged_start now checkpoint days_interval attribution_window). }
  split; [exact Hp|]. split; [|split; [|split]].
  - intros Hnear. subst start. f_equal. f_equal. rewrite timedelta_eq in Hnear.
    unfold clamp.
    destruct (td_days (now - checkpoint) <=? attribution_window) eqn:E1.
    + destruct (365 <=? attribution_window) eqn:E2;
        [apply Z.leb_le in E2; lia | reflexivity].
    + apply Z.leb_gt in E1. lia.
  - intros Hold. subst start. f_equal. f_equal. rewrite timedelta_eq in Hold.
    unfold clamp.
    destruct (td_days (now - checkpoint) <=? attribution_window) eqn:E1.
    + apply Z.leb_le in E1.
      destruct (365 <=? attribution_window) eqn:E2;
        [reflexivity | apply Z.leb_gt in E2; lia].
    + destruct (365 <=? td_days (now - checkpoint)) eqn:E2;
        [reflexivity | apply Z.leb_gt in E2; lia].
  - intros fuel w ws H. unfold planned_windows in H.
    destruct (plan_windows true now checkpoint days_interval attribution_window)
      as [p|] eqn:E; [|discriminate H].
    apply windows_head in H. destruct H as [-> _]. cbn [fst]. now apply Hp.
  - intros Hnow Hs He.
    pose proof (plan_ranged_ok now checkpoint days_interval attribution_window)
      as P. cbv zeta in P.
    rewrite (days_back_clamp _ _ _ Haw) in P. fold start step in P.
    eexists. now apply P.
Qed.

Lemma first_window_start_witness :
  let start := now0 - timedelta (clamp (td_days (now0 - (now0 - timedelta 2))) 5 365) in
  let step := if 30 =? 0 then 30 else 30 in
  (forall p,
     plan_windows true now0 (now0 - timedelta 2) 30 5 = Ok p -> pw_start p = start)
  /\ (now0 - (now0 - timedelta 2) < timedelta 5 -> start = now0 - timedelta 5)
  /\ (timedelta 365 < now0 - (now0 - timedelta 2) -> start = now0 - timedelta 365)
  /\ (forall fuel w ws,
        planned_windows fuel true now0 (now0 - timedelta 2) 30 5
        = Some (Ok (w :: ws)) ->
        fst w = start)
  /\ (datetime_min <= now0 <= datetime_max ->
      datetime_min <= start <= datetime_max ->
      datetime_min <= start + timedelta step <= datetime_max ->
      exists p, plan_windows true now0 (now0 - timedelta 2) 30 5 = Ok p).
Proof.
  apply (first_window_start now0 (now0 - timedelta 2) 30 5). lia.
Defined.

(** The plan of the witness: the checkpoint is 2 days old, the first
    window starts 5 days back. *)
Example first_window_start_run :
  plan_windows true now0 (now0 - timedelta 2) 30 5
  = Ok (mk_plan (now0 - timedelta 5) now0 30).
Proof. vm_compute. reflexivity. Qed.

(** C3 fails as stated: with an attribution window of 400 days and a
    checkpoint 380 days old (more than 365), the first window starts 400
    days back, neither 365 days back nor at the clamped distance. *)
Lemma first_window_start_counterexample :
  timedelta 365 < now0 - (now0 - timedelta 380)
  /\ exists p,
       plan_windows true now0 (now0 - timedelta 380) 30 400 = Ok p
       /\ pw_start p = now0 - timedelta 400
       /\ pw_start p <> now0 - timedelta 365
       /\ pw_start p
          <> now0 - timedelta (clamp (td_days (now0 - (now0 - timedelta 380)))
                                     400 365).
Proof.
  split; [vm_compute; reflexivity|].
  eexists. split; [vm_compute; reflexivity|].
  split; [vm_compute; reflexivity|].
  split; vm_compute; discriminate.
Qed.

(** *** Streams without a cursor-range query *)

Lemma unranged_plan (now checkpoint days_interval attribution_window : Z) :
  plan_windows false now checkpoint days_interval attribution_window
  = Ok (mk_plan checkpoint now
          (ceil_div (td_seconds (now - checkpoint)) (3600 * 24))).
Proof. reflexivity. Qed.

(** The step is computed from the seconds component of the elapsed time
    alone: it is 0 or 1, however many days have passed. *)
Lemma unranged_days_interval_range (now checkpoint : Z) :
  0 <= ceil_div (td_seconds (now - checkpoint)) (3600 * 24) <= 1.
Proof.
  unfold ceil_div, td_seconds.
  change (3600 * 24) with 86400.
  pose proof (Z.mod_pos_bound (now - checkpoint) us_per_day ltac:(reflexivity)) as B.
  set (r := (now - checkpoint) mod us_per_day) in *.
  rewrite us_per_day_eq in B. unfold us_per_second.
  assert (0 <= r / 1000000 < 86400) as Hs.
  { split; [apply Z.div_pos; lia | apply Z.div_lt_upper_bound; lia]. }
  set (q := r / 1000000) in *.
  assert (-1 <= (- q) / 86400 <= 0).
  { split; [apply Z.div_le_lower_bound; lia | apply Z.div_le_upper_bound; lia]. }
  lia.
Qed.

(** The loop of such a stream visits the single window
    [checkpoint, now), whatever step it was given, unless now is the
    last day of year 9999. *)
Lemma unranged_single_window (fuel : nat) (now checkpoint di aw : Z) :
  checkpoint < now ->
  datetime_min <= now ->
  now + timedelta 1 <= datetime_max ->
  planned_windows (S (S fuel)) false now checkpoint di aw
  = Some (Ok [(checkpoint, now)]).
Proof.
  intros H Hmin Hmax. unfold planned_windows. rewrite unranged_plan.
  cbn [pw_start pw_end pw_days_interval].
  pose proof (unranged_days_interval_range now checkpoint) as R.
  set (step := ceil_div (td_seconds (now - checkpoint)) (3600 * 24)) in *.
  rewrite windows_S. apply Z.ltb_lt in H. rewrite H.
  rewrite next_window_ok;
    [| lia
     | unfold datetime_min, datetime_max in *; rewrite timedelta_eq in *; lia].
  assert (Hc : capped now (now + timedelta step) = now).
  { unfold capped. rewrite timedelta_eq.
    destruct (now <? now + step * 86400000000) eqn:E; [reflexivity|].
    apply Z.ltb_ge in E. lia. }
  rewrite Hc, windows_S, Z.ltb_irrefl. reflexivity.
Qed.

(** C8, at a checkpoint 10 days and 1 hour old (and at one exactly 10
    days old): the loop visits the single window [checkpoint, now), but
    the step is 1 day (resp. 0 days), where the elapsed seconds rounded up
    to whole days are 11 (resp. 10). *)
Theorem unranged_days_interval_drops_whole_days :
  let checkpoint := now0 - timedelta 10 - 3600 * us_per_second in
  planned_windows 2 false now0 checkpoint 30 5 = Some (Ok [(checkpoint, now0)])
  /\ plan_windows false now0 checkpoint 30 5 = Ok (mk_plan checkpoint now0 1)
  /\ ceil_div (td_total_seconds (now0 - checkpoint)) (3600 * 24) = 11
  /\ plan_windows false now0 (now0 - timedelta 10) 30 5
     = Ok (mk_plan (now0 - timedelta 10) now0 0)
  /\ ceil_div (td_total_seconds (now0 - (now0 - timedelta 10))) (3600 * 24) = 10.
Proof.
  cbv zeta. split.
  - apply (unranged_single_window 0); vm_compute; try reflexivity; discriminate.
  - repeat split; vm_compute; reflexivity.
Qed.

(** ** Record processor *)

Lemma str_leb_refl (s : string) : String.leb s s = true.
Proof.
  unfold String.leb. destruct (String.compare s s) eqn:E; try reflexivity.
  pose proof (String.compare_antisym s s) as A. rewrite E in A. discriminate A.
Qed.

Lemma str_leb_trans (a b c : string) :
  String.leb a b = true -> String.leb b c = true -> String.leb a c = true.
Proof.
  unfold String.leb. intros Hab Hbc.
  destruct (String.compare a b) eqn:Eab; try discriminate Hab;
    destruct (String.compare b c) eqn:Ebc; try discriminate Hbc.
  - apply String.compare_eq_iff in Eab. subst b. now rewrite Ebc.
  - apply String.compare_eq_iff in Eab. subst b. now rewrite Ebc.
  - apply String.compare_eq_iff in Ebc. subst c. now rewrite Eab.
  - assert (L : String.compare a c = Lt).
    { apply String_as_OT.cmp_lt. eapply String_as_OT.lt_trans;
        apply String_as_OT.cmp_lt; eassumption. }
    now rewrite L.
Qed.

Lemma str_ltb_leb (a b : string) :
  String.ltb a b = true -> String.leb a b = true.
Proof.
  unfold String.ltb, String.leb. now destruct (String.compare a b).
Qed.

Lemma str_ltb_false (a b : string) :
  String.ltb a b = false -> String.leb b a = true.
Proof.
  unfold String.ltb, String.leb. rewrite (String.compare_antisym b a).
  now destruct (String.compare a b).
Qed.

Lemma skipn_app_exact {A} (l1 l2 : list A) :
  skipn (List.length l1) (l1 ++ l2) = l2.
Proof. induction l1 as [|x l1 IH]; [reflexivity | exact IH]. Qed.

Section RecordProcessor.

Variable env : collaborators.
Variable stream_name : string.
Variable bookmark_field : option string.
Variable last_datetime : value.

#[local] Abbreviation T := (transform_datetime env).
#[local] Abbreviation cursor tr := (record_get tr bookmark_field).
#[local] Abbreviation rule := (should_emit env bookmark_field last_datetime).

(** One turn of the [for record in records] loop. *)
Lemma process_records_from_cons (record : value) (rest : list value)
    (max_bookmark_value : value) (counter : Z) (w : world) :
  process_records_from env stream_name (record :: rest) bookmark_field
                       max_bookmark_value last_datetime counter w
  = match singer_transform env record with
    | None => Raised TransformError w
    | Some tr =>
        match reset_max env bookmark_field tr max_bookmark_value with
        | Err e => Raised e w
        | Ok max1 =>
            match keep_record env bookmark_field tr last_datetime with
            | Err e => Raised e w
            | Ok true =>
                if singer_write env (w_sink w) (RecordMessage stream_name tr)
                then
                  let w1 := written w (RecordMessage stream_name tr) in
                  process_records_from env stream_name rest bookmark_field max1
                    last_datetime
                    (if counter_ready_to_log env (w_sink w1) then 0
                     else counter + 1)
                    w1
                else Raised OSError w
            | Ok false =>
                process_records_from env stream_name rest bookmark_field max1
                  last_datetime counter w
            end
        end
    end.
Proof.
  cbn [process_records_from]. unfold bind, lift_option, lift, ret, raise.
  destruct (singer_transform env record) as [tr|]; [|reflexivity].
  destruct (reset_max env bookmark_field tr max_bookmark_value); [|reflexivity].
  destruct (keep_record env bookmark_field tr last_datetime) as [[|]|];
    try reflexivity.
  unfold write_record, emit, counter_increment, bind, get_sink, ret.
  now destruct (singer_write env (w_sink w) (RecordMessage stream_name tr)).
Qed.

(** Lines 65-67: without the stream in the catalog nothing is processed. *)
Lemma process_records_eq (records : list value) (max_bookmark_value : value)
    (w : world) :
  process_records env stream_name records bookmark_field
                  max_bookmark_value last_datetime w
  = if catalog_get_stream env stream_name
    then process_records_from env stream_name records bookmark_field
           max_bookmark_value last_datetime 0 w
    else Raised AttributeError w.
Proof.
  unfold process_records, bind, get_stream.
  now destruct (catalog_get_stream env stream_name).
Qed.

(** When the test of lines 92-96 returns, it is the emission rule. *)
Lemma keep_record_ok (tr : dict) (b : bool) :
  keep_record env bookmark_field tr last_datetime = Ok b ->
  b = rule tr.
Proof.
  unfold keep_record, should_emit, cursor_reaches.
  destruct (name_set bookmark_field && record_has tr bookmark_field).
  - unfold py_ge_dt, dt_leb.
    destruct (T (cursor tr)), (T last_datetime); intros H;
      now inversion H.
  - intros H. now inversion H.
Qed.

(** Whatever the outcome, the sink has grown by the records of a prefix
    of the batch that the emission rule keeps, and nothing else of the
    world has changed; a normal return has processed the whole batch,
    and the counter has not gained more than was written: exactly that
    when it was never ready to log. *)
Lemma process_records_from_sink (records : list value) :
  forall max_bookmark_value counter w,
    let o := process_records_from env stream_name records bookmark_field
               max_bookmark_value last_datetime counter w in
    exists trs,
      transformed_prefix env records trs
      /\ w_sink (world_of o)
         = (w_sink w ++ map (RecordMessage stream_name) (filter rule trs))%list
      /\ w_params (world_of o) = w_params w
      /\ w_state (world_of o) = w_state w
      /\ w_calls (world_of o) = w_calls w
      /\ (forall r w', o = Done r w' ->
            Forall2 (fun r tr => singer_transform env r = Some tr) records trs
            /\ (0 <= counter ->
                0 <= snd r
                <= counter + Z.of_nat (List.length (filter rule trs)))
            /\ ((forall sink, counter_ready_to_log env sink = false) ->
                snd r = counter + Z.of_nat (List.length (filter rule trs)))).
Proof.
  induction records as [|record rest IH]; intros max0 counter w o.
  - exists []. subst o. cbn. rewrite app_nil_r.
    split; [exists 0%nat; constructor|]. repeat split; try reflexivity;
      inversion H; subst; cbn; try constructor; lia.
  - subst o. rewrite process_records_from_cons.
    assert (Hnone : forall e,
      exists trs : list dict,
        transformed_prefix env (record :: rest) trs
        /\ w_sink (world_of (@Raised (value * Z) e w))
           = (w_sink w ++ map (RecordMessage stream_name) (filter rule trs))%list
        /\ w_params (world_of (@Raised (value * Z) e w)) = w_params w
        /\ w_state (world_of (@Raised (value * Z) e w)) = w_state w
        /\ w_calls (world_of (@Raised (value * Z) e w)) = w_calls w
        /\ (forall r w', @Raised (value * Z) e w = Done r w' ->
              Forall2 (fun r tr => singer_transform env r = Some tr)
                      (record :: rest) trs
              /\ (0 <= counter ->
                  0 <= snd r
                  <= counter + Z.of_nat (List.length (filter rule trs)))
              /\ ((forall sink, counter_ready_to_log env sink = false) ->
                  snd r = counter + Z.of_nat (List.length (filter rule trs))))).
    { intros e. exists []. cbn. rewrite app_nil_r.
      split; [exists 0%nat; constructor|]. repeat split; discriminate. }
    destruct (singer_transform env record) as [tr|] eqn:Etr; [|apply Hnone].
    destruct (reset_max env bookmark_field tr max0) as [max1|e]; [|apply Hnone].
    destruct (keep_record env bookmark_field tr last_datetime) as [keep|e] eqn:Ek;
      [|apply Hnone].
    apply keep_record_ok in Ek.
    destruct keep.
    + destruct (singer_write env (w_sink w) (RecordMessage stream_name tr));
        [|apply Hnone].
      cbv zeta.
      set (counter' := if counter_ready_to_log env
                            (w_sink (written w (RecordMessage stream_name tr)))
                       then 0 else counter + 1).
      destruct (IH max1 counter' (written w (RecordMessage stream_name tr)))
        as (trs & (n & Hp) & Hs & Hpa & Hst & Hc & Hd).
      exists (tr :: trs). cbn [filter]. rewrite <- Ek. cbn [map].
      split; [exists (S n); cbn [firstn]; constructor; assumption|].
      split; [rewrite Hs; cbn [written w_sink]; now rewrite <- app_assoc|].
      split; [exact Hpa|]. split; [exact Hst|]. split; [exact Hc|].
      intros r w' Hr. destruct (Hd r w' Hr) as (H1 & H2 & H3).
      split; [constructor; assumption|]. cbn [List.length]. split.
      * intros H0.
        assert (0 <= counter' <= counter + 1)
          by (subst counter'; destruct (counter_ready_to_log env _); lia).
        specialize (H2 ltac:(lia)). lia.
      * intros Hq. rewrite (H3 Hq). subst counter'. rewrite Hq. lia.
    + destruct (IH max1 counter w) as (trs & (n & Hp) & Hs & Hpa & Hst & Hc & Hd).
      exists (tr :: trs). cbn [filter]. rewrite <- Ek.
      split; [exists (S n); cbn [firstn]; constructor; assumption|].
      split; [exact Hs|]. split; [exact Hpa|]. split; [exact Hst|].
      split; [exact Hc|].
      intros r w' Hr. destruct (Hd r w' Hr) as (H1 & H2 & H3).
      split; [constructor; assumption|]. split; assumption.
Qed.

(** The same of [process_records]: the count starts at 0. *)
Lemma process_records_sink (records : list value) (max_bookmark_value : value)
    (w : world) :
  let o := process_records env stream_name records bookmark_field
             max_bookmark_value last_datetime w in
  exists trs,
    transformed_prefix env records trs
    /\ w_sink (world_of o)
       = (w_sink w ++ map (RecordMessage stream_name) (filter rule trs))%list
    /\ w_params (world_of o) = w_params w
    /\ w_state (world_of o) = w_state w
    /\ w_calls (world_of o) = w_calls w
    /\ (forall r w', o = Done r w' ->
          catalog_get_stream env stream_name = true
          /\ Forall2 (fun r tr => singer_transform env r = Some tr) records trs
          /\ 0 <= snd r <= Z.of_nat (List.length (filter rule trs))
          /\ ((forall sink, counter_ready_to_log env sink = false) ->
              snd r = Z.of_nat (List.length (filter rule trs)))).
Proof.
  cbv zeta. rewrite process_records_eq.
  destruct (catalog_get_stream env stream_name).
  - destruct (process_records_from_sink records max_bookmark_value 0 w)
      as (trs & Hp & Hs & Hpa & Hst & Hc & Hd).
    exists trs. repeat (split; [assumption|]).
    intros r w' Hr. destruct (Hd r w' Hr) as (H1 & H2 & H3).
    split; [reflexivity|]. split; [exact H1|].
    split; [specialize (H2 ltac:(lia)); lia | exact H3].
  - exists []. cbn. rewrite app_nil_r.
    split; [exists 0%nat; constructor|]. repeat split; discriminate.
Qed.

Lemma record_get_absent (tr : dict) :
  record_has tr bookmark_field = false -> cursor tr = VNone.
Proof.
  unfold record_has, record_get, dict_has.
  destruct bookmark_field as [k|]; [|reflexivity].
  now destruct (dict_get tr k).
Qed.

(** Lines 87-90 on a record whose cursor can be read: the new
    accumulator can be compared with. *)
Lemma reset_max_returns (tr : dict) (max0 : value) :
  record_has tr bookmark_field = false \/ readable env (cursor tr) ->
  comparable env max0 ->
  exists max1,
    reset_max env bookmark_field tr max0 = Ok max1 /\ comparable env max1.
Proof.
  intros [Habs|(s & c & Hv & Hs & Hc)] Hmax; unfold reset_max.
  - rewrite (record_get_absent tr Habs). cbn [truthy]. now exists max0.
  - destruct (truthy (cursor tr)); [|now exists max0].
    destruct (is_none max0) eqn:En.
    + exists (cursor tr). split; [reflexivity|]. right. now exists c.
    + destruct Hmax as [->|(m & Hm)]; [discriminate En|].
      rewrite Hm, Hv. cbn [py_gt_str result_bind].
      destruct (String.ltb m s).
      * exists (VStr s). split; [reflexivity|]. right. exists c.
        now rewrite <- Hv.
      * exists max0. split; [reflexivity|]. right. now exists m.
Qed.

Lemma keep_record_returns (tr : dict) :
  record_has tr bookmark_field = false \/ readable env (cursor tr) ->
  (exists l, T last_datetime = Some l) ->
  keep_record env bookmark_field tr last_datetime = Ok (rule tr).
Proof.
  intros Hc (l & Hl). unfold keep_record, should_emit, cursor_reaches, dt_leb.
  destruct (name_set bookmark_field && record_has tr bookmark_field) eqn:E;
    [|reflexivity].
  destruct Hc as [Habs|(s & c & _ & _ & Hc)].
  - rewrite Habs, andb_false_r in E. discriminate E.
  - now rewrite Hc, Hl.
Qed.

(** A batch whose records all pass the schema transform and whose cursor
    values can be read is processed to the end when the output takes
    every record; the records written are those that the rule keeps. *)
Lemma process_records_from_returns (records : list value) (trs : list dict) :
  Forall2 (fun r tr => singer_transform env r = Some tr) records trs ->
  Forall (fun tr => record_has tr bookmark_field = false
                    \/ readable env (cursor tr)) trs ->
  (exists l, T last_datetime = Some l) ->
  (forall sink m, singer_write env sink m = true) ->
  forall max0 counter w,
    comparable env max0 ->
    exists max' n w',
      process_records_from env stream_name records bookmark_field max0
                           last_datetime counter w
      = Done (max', n) w'
      /\ w_sink w'
         = (w_sink w ++ map (RecordMessage stream_name) (filter rule trs))%list.
Proof.
  intros Htr Hread Hlast Hsink.
  induction Htr as [|record tr rest trs Hr Htr IH]; intros max0 counter w Hmax.
  - exists max0, counter, w. cbn. now rewrite app_nil_r.
  - inversion Hread as [|? ? Hc Hrest]; subst.
    rewrite process_records_from_cons, Hr.
    destruct (reset_max_returns tr max0 Hc Hmax) as (max1 & -> & Hmax1).
    rewrite (keep_record_returns tr Hc Hlast). cbn [filter].
    destruct (rule tr).
    + rewrite Hsink. cbv zeta.
      destruct (IH Hrest max1
                  (if counter_ready_to_log env
                        (w_sink (written w (RecordMessage stream_name tr)))
                   then 0 else counter + 1)
                  (written w (RecordMessage stream_name tr)) Hmax1)
        as (max' & n & w' & -> & Hs).
      exists max', n, w'. split; [reflexivity|].
      rewrite Hs. cbn [written w_sink map]. now rewrite <- app_assoc.
    + apply IH; assumption.
Qed.

(** A checkpoint at noon and three records, before, at and after it:
    the last two are written. *)
Example cutoff_filter_run :
  let o := process_records (sample_env no_client) "export"
             [ sample_record "a" "2024-01-01T11:59:59.000000Z";
               sample_record "b" "2024-01-01T12:00:00.000000Z";
               sample_record "c" "2024-01-01T12:00:01.000000Z" ]
             (Some "time") (VStr "2024-01-01T12:00:00.000000Z")
             (VStr "2024-01-01T12:00:00.000000Z") empty_world in
  o = Done (VStr "2024-01-01T12:00:01.000000Z", 2)
           (mk_world [] []
              [ RecordMessage "export"
                  [("id", VStr "b"); ("time", VStr "2024-01-01T12:00:00.000000Z")];
                RecordMessage "export"
                  [("id", VStr "c"); ("time", VStr "2024-01-01T12:00:01.000000Z")] ]
              []).
Proof. vm_compute. reflexivity. Qed.

(** *** The running maximum *)

Lemma dt_le_refl (a : value) : dt_le env a a.
Proof. now left. Qed.

Lemma dt_le_trans (a b c : value) :
  dt_le env a b -> dt_le env b c -> dt_le env a c.
Proof.
  intros [->|[->|(Hb & x & y & Ha & Hy & Hxy)]] Hbc;
    [exact Hbc | right; now left |].
  destruct Hbc as [<-|[->|(Hc & y' & z & Hy' & Hz & Hyz)]].
  - right; right. split; [exact Hb|]. now exists x, y.
  - contradiction.
  - right; right. split; [exact Hc|]. exists x, z.
    rewrite Hy in Hy'. injection Hy' as <-.
    repeat split; try assumption. eapply str_leb_trans; eassumption.
Qed.

Lemma truthy_not_none (v : value) : truthy v = true -> v <> VNone.
Proof. intros H ->. discriminate H. Qed.

(** Lines 87-90 on a normalised cursor value: the accumulator does not
    go back, and ends at or after the record's cursor. *)
Lemma reset_max_ok (tr : dict) (max0 max1 : value) :
  normalised env (cursor tr) ->
  reset_max env bookmark_field tr max0 = Ok max1 ->
  dt_le env max0 max1
  /\ (truthy (cursor tr) = true -> dt_le env (cursor tr) max1).
Proof.
  intros [Hn _]. unfold reset_max.
  destruct (truthy (cursor tr)) eqn:Et.
  - destruct (Hn eq_refl) as (s & Hv & Hs).
    destruct (is_none max0) eqn:En.
    + intros H. injection H as <-. split; [|intros _; apply dt_le_refl].
      destruct max0; try discriminate En. right. now left.
    + unfold py_gt_str. rewrite Hv.
      destruct (T max0) as [m|] eqn:Em; [|discriminate].
      cbn [result_bind].
      destruct (String.ltb m s) eqn:El; intros H; injection H as <-.
      * split; [|intros _; apply dt_le_refl].
        right; right. split; [discriminate|]. exists m, s.
        rewrite <- Hv. repeat split; try assumption.
        now apply str_ltb_leb.
      * split; [apply dt_le_refl|]. intros _.
        right; right. split; [intros ->; discriminate En|].
        exists s, m. rewrite <- Hv. repeat split; try assumption.
        now apply str_ltb_false.
  - intros H. injection H as <-. split; [apply dt_le_refl | discriminate].
Qed.

Lemma process_records_from_max (records : list value) :
  forall max0 counter w max' n w',
    (forall r tr, In r records -> singer_transform env r = Some tr ->
                  normalised env (cursor tr)) ->
    process_records_from env stream_name records bookmark_field max0
                         last_datetime counter w = Done (max', n) w' ->
    dt_le env max0 max'
    /\ forall r tr, In r records -> singer_transform env r = Some tr ->
         truthy (cursor tr) = true -> dt_le env (cursor tr) max'.
Proof.
  induction records as [|record rest IH]; intros max0 counter w max' n w' Hn H.
  - cbn in H. injection H as <- _ _. split; [apply dt_le_refl|]. intros r tr [].
  - rewrite process_records_from_cons in H.
    destruct (singer_transform env record) as [tr|] eqn:Etr; [|discriminate].
    destruct (reset_max env bookmark_field tr max0) as [max1|] eqn:Er;
      [|discriminate].
    apply reset_max_ok in Er; [|apply (Hn record tr); [now left | exact Etr]].
    destruct Er as [Hmax Hcur].
    assert (Hrest : forall r tr0, In r rest -> singer_transform env r = Some tr0 ->
                      normalised env (cursor tr0))
      by (intros r tr0 Hin; apply Hn; now right).
    assert (IH' : dt_le env max1 max'
                  /\ forall r tr0, In r rest -> singer_transform env r = Some tr0 ->
                       truthy (cursor tr0) = true -> dt_le env (cursor tr0) max').
    { destruct (keep_record env bookmark_field tr last_datetime) as [[|]|];
        [|eapply IH; eassumption | discriminate].
      destruct (singer_write env (w_sink w) (RecordMessage stream_name tr));
        [eapply IH; eassumption | discriminate]. }
    destruct IH' as [Hm' Hall]. split; [eapply dt_le_trans; eassumption|].
    intros r tr0 [<-|Hin] Hr Ht.
    + rewrite Etr in Hr. injection Hr as <-.
      eapply dt_le_trans; [apply Hcur; exact Ht | exact Hm'].
    + eapply Hall; eassumption.
Qed.

(** C5 (as amended): when [process_records] returns on a batch whose
    cursor values are in the normalised form, the accumulator it returns
    is not before the one it was given, nor before the cursor value of
    any record it wrote (the comparisons being those of datetimes). *)
Theorem max_cursor_monotone (records : list value)
    (max_bookmark_value max' : value) (n : Z) (w w' : world) :
  (forall r tr, In r records -> singer_transform env r = Some tr ->
                normalised env (cursor tr)) ->
  process_records env stream_name records bookmark_field
                  max_bookmark_value last_datetime w = Done (max', n) w' ->
  dt_le env max_bookmark_value max'
  /\ forall tr,
       In (RecordMessage stream_name tr) (emitted_since w w') ->
       truthy (cursor tr) = true ->
       dt_le env (cursor tr) max'.
Proof.
  intros Hn H.
  pose proof (process_records_sink records max_bookmark_value w) as S.
  cbv zeta in S. rewrite H in S. cbn [world_of] in S.
  destruct S as (trs & _ & Hs & _ & _ & _ & Hd).
  destruct (Hd _ _ eq_refl) as (Hcat & Hf & _).
  rewrite process_records_eq, Hcat in H.
  destruct (process_records_from_max records max_bookmark_value 0 w max' n w' Hn H)
    as [Hmax Hall].
  split; [exact Hmax|]. intros tr Hin Ht.
  unfold emitted_since in Hin. rewrite Hs, skipn_app_exact in Hin.
  apply in_map_iff in Hin. destruct Hin as (tr' & Heq & Hin).
  injection Heq as ->. apply filter_In in Hin. destruct Hin as [Hin _].
  clear - Hf Hin Hall Ht.
  induction Hf as [|r tr0 rs trs0 Hr Hf IH]; [contradiction|].
  destruct Hin as [->|Hin].
  - apply (Hall r tr); [now left | exact Hr | exact Ht].
  - apply IH; [|exact Hin]. intros r' tr' Hin'. apply Hall. now right.
Qed.

End RecordProcessor.

Lemma max_cursor_monotone_witness :
  let env := sample_env no_client in
  let records := [ sample_record "a" "2024-01-01T11:59:59.000000Z";
                   sample_record "b" "2024-01-01T12:00:00.000000Z";
                   sample_record "c" "2024-01-01T12:00:01.000000Z" ] in
  let max' := VStr "2024-01-01T12:00:01.000000Z" in
  let w' := world_of (process_records env "export" records (Some "time")
                        (VStr "2024-01-01T12:00:00.000000Z")
                        (VStr "2024-01-01T12:00:00.000000Z") empty_world) in
  dt_le env (VStr "2024-01-01T12:00:00.000000Z") max'
  /\ forall tr,
       In (RecordMessage "export" tr) (emitted_since empty_world w') ->
       truthy (record_get tr (Some "time")) = true ->
       dt_le env (record_get tr (Some "time")) max'.
Proof.
  cbv zeta.
  apply (max_cursor_monotone (sample_env no_client) "export" (Some "time")
           (VStr "2024-01-01T12:00:00.000000Z")
           [ sample_record "a" "2024-01-01T11:59:59.000000Z";
             sample_record "b" "2024-01-01T12:00:00.000000Z";
             sample_record "c" "2024-01-01T12:00:01.000000Z" ]
           (VStr "2024-01-01T12:00:00.000000Z")
           (VStr "2024-01-01T12:00:01.000000Z") 2 empty_world).
  - intros r tr [<-|[<-|[<-|[]]]] Htr; injection Htr as <-;
      (split; [intros _; eexists; split; reflexivity | discriminate]).
  - vm_compute. reflexivity.
Defined.

(** C5 fails as stated. Line 89 compares the cursor value of the record
    as it is with the accumulator read as a datetime: with a schema
    transform that leaves the cursor as the source sent it, a record at
    noon, written without a fraction of a second, takes the place of an
    accumulator half a second after noon, and is written. *)
Lemma max_cursor_monotone_counterexample :
  let max0 := VStr "2024-01-01T12:00:00.500000Z" in
  let o := process_records raw_env "export"
             [sample_record "a" "2024-01-01T12:00:00Z"] (Some "time") max0
             (VStr "2024-01-01T00:00:00.000000Z") empty_world in
  o = Done (VStr "2024-01-01T12:00:00Z", 1)
           (mk_world [] []
              [RecordMessage "export"
                 [("id", VStr "a"); ("time", VStr "2024-01-01T12:00:00Z")]]
              [])
  /\ transform_datetime raw_env (VStr "2024-01-01T12:00:00Z")
     = Some "2024-01-01T12:00:00.000000Z"
  /\ transform_datetime raw_env max0 = Some "2024-01-01T12:00:00.500000Z"
  /\ ~ dt_le raw_env max0 (VStr "2024-01-01T12:00:00Z").
Proof.
  cbv zeta. split; [vm_compute; reflexivity|].
  split; [reflexivity|]. split; [reflexivity|].
  intros [H|[H|(_ & x & y & Hx & Hy & Hxy)]]; try discriminate H.
  cbn in Hx, Hy. injection Hx as <-. injection Hy as <-.
  vm_compute in Hxy. discriminate Hxy.
Qed.

(** ** Date-dictionary normalisation *)

Lemma dict_get_set_same (d : dict) (k : string) (v : value) :
  dict_get (dict_set d k v) k = Some v.
Proof.
  induction d as [|[k' v'] d IH]; cbn.
  - now rewrite String.eqb_refl.
  - destruct (String.eqb k' k) eqn:E; cbn; rewrite E; [reflexivity | exact IH].
Qed.

Lemma dict_get_set_other (d : dict) (k k' : string) (v : value) :
  k' <> k -> dict_get (dict_set d k v) k' = dict_get d k'.
Proof.
  intros Hne. induction d as [|[k0 v0] d IH]; cbn.
  - destruct (String.eqb k k') eqn:E; [|reflexivity].
    apply String.eqb_eq in E. congruence.
  - destruct (String.eqb k0 k) eqn:E; cbn.
    + apply String.eqb_eq in E. subst k0.
      destruct (String.eqb k k') eqn:E'; [|reflexivity].
      apply String.eqb_eq in E'. congruence.
    + destruct (String.eqb k0 k'); [reflexivity | exact IH].
Qed.

Lemma date_records_ok (items : dict) :
  Forall (fun kv => is_dict (snd kv) = true) (filter is_date_key items) ->
  exists results,
    date_records items = Ok results
    /\ Forall2 is_dated (filter is_date_key items) results.
Proof.
  induction items as [|[key val] items IH]; intros Hd.
  - exists []. split; [reflexivity | constructor].
  - cbn [date_records filter] in *. unfold is_date_key at 1 in Hd.
    unfold is_date_key at 1. cbn [fst] in *.
    destruct (negb (String.eqb key "$overall")).
    + inversion Hd as [|? ? Hval Hrest]; subst.
      destruct (IH Hrest) as (results & Hr & Hall).
      cbn [snd] in Hval. destruct val; try discriminate Hval.
      rewrite Hr. cbn [result_bind]. eexists. split; [reflexivity|].
      constructor; [|exact Hall].
      unfold is_dated. cbn [py_get fst snd].
      rewrite dict_get_set_other by discriminate.
      rewrite !dict_get_set_same. repeat split.
      intros field H1 H2. now rewrite !dict_get_set_other by congruence.
    + apply IH. exact Hd.
Qed.

(** C7: for a date-dictionary stream whose response holds, under the data
    key, a dictionary of records keyed by date, the normalised response
    holds under the same key the list of one record per key other than
    [$overall], in order, each with [date] set to its key, [datetime] to
    the key followed by [T00:00:00Z], and its other fields unchanged. *)
Theorem date_dictionary_normalisation (cfg : endpoint_config)
    (k : string) (d items : dict) :
  date_dictionary cfg = true ->
  data_key cfg = Some k ->
  dict_get d k = Some (VDict items) ->
  Forall (fun kv => is_dict (snd kv) = true) (filter is_date_key items) ->
  exists results,
    standardize cfg (VDict d) = Ok (VDict [(k, VList results)])
    /\ Forall2 is_dated (filter is_date_key items) results
    /\ List.length results = List.length (filter is_date_key items).
Proof.
  intros Hdd Hk Hget Hitems.
  destruct (date_records_ok items Hitems) as (results & Hr & Hall).
  exists results. split; [|split; [exact Hall|]].
  - unfold standardize. rewrite Hdd, Hk. cbn [py_in record_has].
    unfold dict_has. rewrite Hget. cbn [result_bind].
    unfold normalize_date_dictionary. cbn [py_index]. rewrite Hget.
    cbn [result_bind]. rewrite Hr. reflexivity.
  - symmetry. eapply Forall2_length. exact Hall.
Qed.

Lemma date_dictionary_normalisation_witness :
  exists results,
    standardize revenue_config revenue_response
    = Ok (VDict [("results", VList results)])
    /\ Forall2 is_dated
         (filter is_date_key
            [("2024-01-01", VDict [("amount", VInt 5); ("count", VInt 2)]);
             ("$overall", VDict [("amount", VInt 5); ("count", VInt 2)])])
         results
    /\ List.length results
       = List.length
           (filter is_date_key
              [("2024-01-01", VDict [("amount", VInt 5); ("count", VInt 2)]);
               ("$overall", VDict [("amount", VInt 5); ("count", VInt 2)])]).
Proof.
  apply (date_dictionary_normalisation revenue_config "results"
           [("results",
             VDict [("2024-01-01", VDict [("amount", VInt 5); ("count", VInt 2)]);
                    ("$overall", VDict [("amount", VInt 5); ("count", VInt 2)])])]).
  - reflexivity.
  - reflexivity.
  - reflexivity.
  - repeat constructor.
Defined.

(** The response of the specification's example yields exactly one
    record. *)
Example date_dictionary_run :
  standardize revenue_config revenue_response
  = Ok (VDict [("results",
                VList [VDict [("amount", VInt 5); ("count", VInt 2);
                              ("date", VStr "2024-01-01");
                              ("datetime", VStr "2024-01-01T00:00:00Z")]])]).
Proof. vm_compute. reflexivity. Qed.

(** ** The monad *)

Lemma bind_done {A B} (m : M A) (f : A -> M B) (w : world) (b : B) (w' : world) :
  bind m f w = Done b w' ->
  exists a w1, m w = Done a w1 /\ f a w1 = Done b w'.
Proof.
  unfold bind. destruct (m w) as [a w1| |]; try discriminate.
  intros H. now exists a, w1.
Qed.

Lemma lift_done {A} (r : result A) (w : world) (a : A) (w' : world) :
  lift r w = Done a w' -> r = Ok a /\ w' = w.
Proof.
  destruct r; cbn; unfold ret, raise; intros H; inversion H; now subst.
Qed.

Lemma ret_done {A} (a b : A) (w w' : world) :
  ret a w = Done b w' -> b = a /\ w' = w.
Proof. unfold ret. intros H. inversion H. now subst. Qed.

Section Preservation.

Variable R : world -> world -> Prop.
Hypothesis R_refl : forall w, R w w.
Hypothesis R_trans : forall w1 w2 w3, R w1 w2 -> R w2 w3 -> R w1 w3.

Lemma preserves_ret {A} (a : A) : preserves R (ret a).
Proof. intros w. apply R_refl. Qed.

Lemma preserves_raise {A} (e : exn) : preserves R (@raise A e).
Proof. intros w. apply R_refl. Qed.

Lemma preserves_starve {A} : preserves R (@starve A).
Proof. intros w. apply R_refl. Qed.

Lemma preserves_lift {A} (r : result A) : preserves R (lift r).
Proof. destruct r; [apply preserves_ret | apply preserves_raise]. Qed.

Lemma preserves_lift_option {A} (e : exn) (o : option A) :
  preserves R (lift_option e o).
Proof. destruct o; [apply preserves_ret | apply preserves_raise]. Qed.

Lemma preserves_bind {A B} (m : M A) (f : A -> M B) :
  preserves R m -> (forall a, preserves R (f a)) -> preserves R (bind m f).
Proof.
  intros Hm Hf w. unfold bind. specialize (Hm w).
  destruct (m w) as [a w1|e w1|w1]; cbn [world_of] in *; try exact Hm.
  eapply R_trans; [exact Hm | apply Hf].
Qed.

Lemma preserves_when (b : bool) (m : M unit) :
  preserves R m -> preserves R (when b m).
Proof. intros H. destruct b; [exact H | apply preserves_ret]. Qed.

Lemma preserves_get_params : preserves R get_params.
Proof. intros w. apply R_refl. Qed.

Lemma preserves_get_state : preserves R get_state.
Proof. intros w. apply R_refl. Qed.

Lemma preserves_get_sink : preserves R get_sink.
Proof. intros w. apply R_refl. Qed.

End Preservation.

(** ** Pagination driver *)

Section Pagination.

Variable env : collaborators.
Variable stream_name : string.
Variable cfg : endpoint_config.
Variable bookmark_field : option string.
Variable last_datetime : value.

(** [process_records] touches the sink only and has no [while] loop. *)
Lemma process_records_frame (records : list value) (max0 : value) (w : world) :
  let o := process_records env stream_name records bookmark_field
             max0 last_datetime w in
  w_params (world_of o) = w_params w
  /\ w_state (world_of o) = w_state w
  /\ w_calls (world_of o) = w_calls w.
Proof.
  intros o.
  destruct (process_records_sink env stream_name bookmark_field
              last_datetime records max0 w)
    as (trs & _ & _ & Hp & Hs & Hc & _).
  repeat split; assumption.
Qed.

Lemma process_records_from_settled (records : list value) :
  forall max0 counter w,
    settled (process_records_from env stream_name records bookmark_field
               max0 last_datetime counter w).
Proof.
  induction records as [|record rest IH]; intros max0 counter w; [exact I|].
  rewrite process_records_from_cons.
  destruct (singer_transform env record) as [tr|]; [|exact I].
  destruct (reset_max env bookmark_field tr max0); [|exact I].
  destruct (keep_record env bookmark_field tr last_datetime) as [[|]|];
    [|apply IH | exact I].
  destruct (singer_write env (w_sink w) (RecordMessage stream_name tr));
    [apply IH | exact I].
Qed.

Lemma process_records_settled (records : list value) (max0 : value) (w : world) :
  settled (process_records env stream_name records bookmark_field
             max0 last_datetime w).
Proof.
  rewrite process_records_eq.
  destruct (catalog_get_stream env stream_name);
    [apply process_records_from_settled | exact I].
Qed.

(** What [handle_records] leaves: only the sink of the world may have
    changed; on a normal return the page, the offset and the running total
    are as before, and so is [total_records] on a page after the first. *)
Lemma handle_records_outcome (data : value) (td : list value)
    (st : page_state) (w : world) :
  let o := handle_records env stream_name cfg bookmark_field
             last_datetime data td st w in
  settled o
  /\ w_params (world_of o) = w_params w
  /\ w_state (world_of o) = w_state w
  /\ w_calls (world_of o) = w_calls w
  /\ forall st' w', o = Done st' w' ->
       page st' = page st
       /\ offset st' = offset st
       /\ ps_endpoint_total st' = ps_endpoint_total st
       /\ (page st <> 0 -> total_records st' = total_records st).
Proof.
  intros o. subst o. unfold handle_records, bind.
  destruct (check_records td (key_properties cfg)) as [[]|e]; cbn [lift];
    unfold ret, raise; [|repeat split; try exact I; discriminate].
  pose proof (process_records_frame td (ps_max_bookmark_value st) w) as F.
  pose proof (process_records_settled td (ps_max_bookmark_value st) w) as S.
  cbv zeta in F.
  destruct (process_records env stream_name td bookmark_field
              (ps_max_bookmark_value st) last_datetime w)
    as [[max' n] w1|e w1|w1]; cbn [world_of] in F;
    destruct F as (F1 & F2 & F3);
    [|repeat split; try assumption; try exact I; discriminate
     |contradiction].
  destruct (pagination cfg).
  - destruct (as_number
                (if page st =? 0
                 then match data with
                      | VDict d => dict_get_default d "total" (VInt n)
                      | _ => VInt n
                      end
                 else total_records st)) as [t|e]; cbn [result_bind lift];
      unfold ret, raise; cbn [world_of];
      [|repeat split; try assumption; try exact I; discriminate].
    repeat split; try assumption; try exact I;
      inversion H; subst; try reflexivity.
    cbn [total_records]. intros Hp. apply Z.eqb_neq in Hp. now rewrite Hp.
  - cbn [world_of]. repeat split; try assumption; try exact I;
      inversion H; subst; try reflexivity.
    cbn [total_records]. intros Hp. apply Z.eqb_neq in Hp. now rewrite Hp.
Qed.

Lemma page_data_outcome (parent_record data : value)
    (st : page_state) (w : world) :
  let o := page_data env stream_name cfg bookmark_field
             last_datetime parent_record data st w in
  settled o
  /\ w_params (world_of o) = w_params w
  /\ w_state (world_of o) = w_state w
  /\ w_calls (world_of o) = w_calls w
  /\ forall st' w', o = Done st' w' ->
       page st' = page st
       /\ offset st' = offset st
       /\ ps_endpoint_total st' = ps_endpoint_total st
       /\ (page st <> 0 -> total_records st' = total_records st).
Proof.
  intros o. subst o. unfold page_data.
  assert (Hret : forall w0,
    settled (ret (A:=page_state) st w0)
    /\ w_params (world_of (ret st w0)) = w_params w0
    /\ w_state (world_of (ret st w0)) = w_state w0
    /\ w_calls (world_of (ret st w0)) = w_calls w0
    /\ forall st' w', ret st w0 = Done st' w' ->
         page st' = page st /\ offset st' = offset st
         /\ ps_endpoint_total st' = ps_endpoint_total st
         /\ (page st <> 0 -> total_records st' = total_records st)).
  { intros w0. unfold ret. cbn [world_of settled].
    repeat split; inversion H; subst; reflexivity. }
  destruct (negb (truthy data)); [apply Hret|].
  unfold bind.
  destruct (standardize cfg data) as [data'|e]; cbn [lift]; unfold ret, raise;
    [|repeat split; try exact I; discriminate].
  destruct (select_records env cfg data' parent_record) as [td|e]; cbn [lift];
    unfold ret, raise; [|repeat split; try exact I; discriminate].
  destruct td as [|r td]; [apply Hret|].
  apply handle_records_outcome.
Qed.

Variable parent_record parent_id : value.

#[local] Abbreviation body :=
  (page_body env stream_name cfg bookmark_field last_datetime
             parent_record parent_id).
#[local] Abbreviation loop fuel :=
  (page_loop env stream_name cfg bookmark_field fuel last_datetime
             parent_record parent_id).
#[local] Abbreviation run :=
  (page_run env stream_name cfg bookmark_field last_datetime
            parent_record parent_id).

Lemma page_params_done (st : page_state) (w : world) :
  page_params cfg st w = Done tt (world_of (page_params cfg st w))
  /\ w_state (world_of (page_params cfg st w)) = w_state w
  /\ w_sink (world_of (page_params cfg st w)) = w_sink w
  /\ w_calls (world_of (page_params cfg st w)) = w_calls w.
Proof.
  unfold page_params, when.
  destruct (pagination cfg && negb (page st =? 0)); repeat split.
Qed.

(** On a page after the first of a paginated stream, the request is
    squashed from a dict that holds the session id and the page. *)
Lemma page_params_written (st : page_state) (w : world) :
  pagination cfg = true -> page st <> 0 ->
  dict_get (w_params (world_of (page_params cfg st w))) "session_id"
  = Some (session_id st)
  /\ dict_get (w_params (world_of (page_params cfg st w))) "page"
     = Some (VInt (page st)).
Proof.
  intros Hp Hpage. unfold page_params, when. rewrite Hp.
  apply Z.eqb_neq in Hpage. rewrite Hpage. cbn [andb negb].
  unfold bind, set_param. cbn [world_of with_params w_params]. split.
  - rewrite dict_get_set_other by discriminate. apply dict_get_set_same.
  - apply dict_get_set_same.
Qed.

(** The page body, step by step. *)
Lemma page_body_eq (st : page_state) (w : world) :
  let w1 := world_of (page_params cfg st w) in
  let r := StreamRequest (w_params w1) parent_id in
  body st w
  = match client_request env (w_calls w1) r with
    | None => Raised ClientError (called w1 r)
    | Some data =>
        match page_data env stream_name cfg bookmark_field last_datetime
                        parent_record data st (called w1 r) with
        | Done st2 w2 =>
            match as_number (total_records st2) with
            | Ok total =>
                Done (mk_page_state (page st2 + 1) (offset st2 + limit)
                        (total_records st2) (session_id st2)
                        (ps_max_bookmark_value st2)
                        (ps_endpoint_total st2 + total)) w2
            | Err e => Raised e w2
            end
        | Raised e w2 => Raised e w2
        | Starved w2 => Starved w2
        end
    end.
Proof.
  intros w1 r. unfold page_body, bind.
  destruct (page_params_done st w) as (Hp & _). fold w1 in Hp. rewrite Hp.
  unfold request_stream, bind, get_params, request_data. fold r.
  destruct (client_request env (w_calls w1) r) as [data|]; [|reflexivity].
  destruct (page_data env stream_name cfg bookmark_field last_datetime
              parent_record data st (called w1 r)) as [st2 w2| |];
    try reflexivity.
  now destruct (as_number (total_records st2)).
Qed.

(** One turn of the page loop: one request, squashed from the parameters
    as [page_params] left them; on a normal return the page has advanced
    by one and the offset by [limit], [total_records] is a number, and it
    is the one of before on a page after the first. *)
Lemma page_body_outcome (st : page_state) (w : world) :
  let w1 := world_of (page_params cfg st w) in
  let o := body st w in
  settled o
  /\ w_calls (world_of o)
     = (w_calls w ++ [StreamRequest (w_params w1) parent_id])%list
  /\ w_params (world_of o) = w_params w1
  /\ w_state (world_of o) = w_state w
  /\ forall st' w', o = Done st' w' ->
       page st' = page st + 1
       /\ offset st' = offset st + limit
       /\ (page st <> 0 -> total_records st' = total_records st)
       /\ exists total, as_number (total_records st') = Ok total.
Proof.
  intros w1 o. subst o.
  pose proof (page_body_eq st w) as E. cbv zeta in E. fold w1 in E. rewrite E.
  clear E.
  destruct (page_params_done st w) as (_ & Hst & _ & Hc). fold w1 in Hst, Hc.
  destruct (client_request env (w_calls w1) (StreamRequest (w_params w1) parent_id))
    as [data|].
  - pose proof (page_data_outcome parent_record data st
                  (called w1 (StreamRequest (w_params w1) parent_id))) as D.
    cbv zeta in D. destruct D as (D0 & D1 & D2 & D3 & D4).
    destruct (page_data env stream_name cfg bookmark_field last_datetime
                parent_record data st
                (called w1 (StreamRequest (w_params w1) parent_id)))
      as [st2 w2|e w2|w2]; cbn [world_of called w_params w_state w_calls] in *.
    + destruct (D4 st2 w2 eq_refl) as (E1 & E2 & E3 & E4).
      destruct (as_number (total_records st2)) as [total|e] eqn:En;
        cbn [world_of settled]; rewrite D1, D2, D3, Hst, Hc.
      * repeat split.
        -- inversion H; subst. cbn [page]. now rewrite E1.
        -- inversion H; subst. cbn [offset]. now rewrite E2.
        -- inversion H; subst. cbn [total_records]. exact E4.
        -- inversion H; subst. cbn [total_records]. now exists total.
      * repeat split; discriminate.
    + rewrite D1, D2, D3, Hst, Hc. repeat split; discriminate.
    + contradiction.
  - cbn [world_of settled called w_calls w_params w_state].
    rewrite Hst, Hc. repeat split; discriminate.
Qed.

Lemma page_loop_S (fuel : nat) (st : page_state) (w : world) :
  loop (S fuel) st w
  = match page_guard st with
    | Err e => Raised e w
    | Ok true =>
        match body st w with
        | Done st1 w1 => loop fuel st1 w1
        | Raised e w1 => Raised e w1
        | Starved w1 => Starved w1
        end
    | Ok false => Done st w
    end.
Proof.
  cbn [page_loop]. unfold bind at 1.
  destruct (page_guard st) as [[|]|]; reflexivity.
Qed.

(** The loop returns exactly after a run of turns, each entered with the
    condition true, that ends in a state where the condition is false. *)
Lemma page_loop_done (fuel : nat) :
  forall st w st' w',
    loop fuel st w = Done st' w' ->
    exists entered,
      (List.length entered < fuel)%nat
      /\ run entered st w st' w' /\ page_guard st' = Ok false.
Proof.
  induction fuel as [|fuel IH]; intros st w st' w' H; [discriminate|].
  rewrite page_loop_S in H.
  destruct (page_guard st) as [[|]|] eqn:G; [| |discriminate].
  - destruct (body st w) as [st1 w1| |] eqn:B; try discriminate.
    destruct (IH _ _ _ _ H) as (entered & Hn & Hr & Hg).
    exists (st :: entered). split; [cbn; lia|]. split; [|exact Hg].
    econstructor; eassumption.
  - inversion H; subst. exists []. split; [cbn; lia|].
    split; [constructor | exact G].
Qed.

Lemma page_run_loop (entered : list page_state) :
  forall st w st' w',
    run entered st w st' w' -> page_guard st' = Ok false ->
    forall fuel, (List.length entered < fuel)%nat ->
                 loop fuel st w = Done st' w'.
Proof.
  induction entered as [|st0 entered IH]; intros st w st' w' Hr Hg fuel Hf;
    (destruct fuel as [|fuel]; [cbn in Hf; lia|]); rewrite page_loop_S;
    inversion Hr as [|e0 s0 w0 s1 w1 s2 w2 Hg0 Hb Hr']; subst.
  - now rewrite Hg.
  - rewrite Hg0, Hb. apply IH; [assumption | assumption | cbn in Hf; lia].
Qed.

(** The turns of a run are entered at consecutive pages and at offsets
    [limit] apart; each issues one request, for this parent. *)
Lemma page_run_counts (entered : list page_state) :
  forall st w st' w',
    run entered st w st' w' ->
    let n := List.length entered in
    map page entered = map (fun i => page st + Z.of_nat i) (seq 0 n)
    /\ map offset entered
       = map (fun i => offset st + limit * Z.of_nat i) (seq 0 n)
    /\ page st' = page st + Z.of_nat n
    /\ offset st' = offset st + limit * Z.of_nat n
    /\ exists reqs,
         w_calls w' = (w_calls w ++ reqs)%list
         /\ List.length reqs = n
         /\ Forall (fun r => exists ps, r = StreamRequest ps parent_id) reqs.
Proof.
  induction entered as [|st0 entered IH]; intros st w st' w' Hr;
    inversion Hr as [|e0 s0 w0 s1 w1 s2 w2 Hg0 Hb Hr']; subst; cbn zeta.
  - cbn. split; [reflexivity|]. split; [reflexivity|].
    split; [lia|]. split; [lia|]. exists []. rewrite app_nil_r.
    repeat split. constructor.
  - destruct (IH _ _ _ _ Hr') as (Hpages & Hoffsets & Hp & Ho & reqs & Hc & Hl & Hall).
    pose proof (page_body_outcome st w) as B. cbv zeta in B.
    destruct B as (_ & Bc & _ & _ & Bd). rewrite Hb in Bc, Bd.
    cbn [world_of] in Bc. destruct (Bd _ _ eq_refl) as (P1 & O1 & _).
    cbn [List.length seq map].
    rewrite <- seq_shift, !map_map. rewrite Hpages, Hoffsets.
    split; [f_equal; [lia|]; apply map_ext; intros i; lia|].
    split; [f_equal; [lia|]; apply map_ext; intros i; lia|].
    split; [lia|]. split; [lia|].
    eexists (_ :: reqs). rewrite Hc, Bc, <- app_assoc. cbn [app].
    split; [reflexivity|]. split; [cbn; now rewrite Hl|].
    constructor; [eexists; reflexivity | exact Hall].
Qed.

(** More fuel does not change an outcome that did not run out of it. *)
Lemma page_loop_fuel_mono (fuel : nat) :
  forall st w,
    settled (loop fuel st w) ->
    forall fuel', (fuel <= fuel')%nat -> loop fuel' st w = loop fuel st w.
Proof.
  induction fuel as [|fuel IH]; intros st w Hs fuel' Hle; [contradiction|].
  destruct fuel' as [|fuel']; [lia|].
  rewrite !page_loop_S in *.
  destruct (page_guard st) as [[|]|]; try reflexivity.
  destruct (body st w) as [st1 w1| |]; try reflexivity.
  apply IH; [exact Hs | lia].
Qed.

(** After the first page [total_records] is fixed and the offset grows by
    [limit] at every turn: the loop is left within [n + 1] tests when
    fewer than [n * limit] records remain. *)
Lemma page_loop_settles_late (n : nat) :
  forall st w,
    1 <= page st ->
    (forall total, as_number (total_records st) = Ok total ->
                   total - offset st < limit * Z.of_nat n) ->
    settled (loop (S n) st w).
Proof.
  induction n as [|n IH]; intros st w Hp Hn; rewrite page_loop_S;
    unfold page_guard; destruct (as_number (total_records st)) as [total|]
      eqn:Et; cbn [result_bind]; try exact I;
    specialize (Hn total eq_refl);
    destruct ((offset st <=? total) && negb (is_none (session_id st))) eqn:G;
    try exact I; apply andb_prop in G; destruct G as [G _];
    apply Z.leb_le in G.
  - unfold limit in Hn. lia.
  - pose proof (page_body_outcome st w) as B. cbv zeta in B.
    destruct B as (B0 & _ & _ & _ & Bd).
    destruct (body st w) as [st1 w1| |]; [|exact I|contradiction].
    destruct (Bd _ _ eq_refl) as (P1 & O1 & T1 & _).
    apply IH; [lia|]. intros total1 Ht1.
    rewrite T1 in Ht1 by lia. rewrite Et in Ht1. injection Ht1 as <-.
    rewrite O1. unfold limit in *. lia.
Qed.

Lemma first_page_guard (max_bookmark_value : value) (endpoint_total : Z) :
  page_guard (first_page max_bookmark_value endpoint_total) = Ok true.
Proof. reflexivity. Qed.

(** C4 (as amended): entered as lines 214-218 leave it, the page loop
    stops for some amount of fuel and any larger one; when it returns, it
    has made [n >= 1] turns, each entered with
    [offset <= total_records and session_id is not None] true, the i-th
    at page [i] and offset [i * 250] ([limit = 250]), one request per
    turn, and the condition is false in the state it ends in, which is at
    page [n] and offset [n * 250]. *)
Theorem page_loop_iterates (max_bookmark_value : value) (endpoint_total : Z)
    (w : world) :
  let st0 := first_page max_bookmark_value endpoint_total in
  exists fuel,
    settled (loop fuel st0 w)
    /\ (forall fuel', (fuel <= fuel')%nat -> loop fuel' st0 w = loop fuel st0 w)
    /\ (forall st' w',
          loop fuel st0 w = Done st' w' ->
          exists entered,
            let n := List.length entered in
            run entered st0 w st' w'
            /\ Forall (fun st => page_guard st = Ok true) entered
            /\ page_guard st' = Ok false
            /\ (1 <= n)%nat
            /\ map page entered = map Z.of_nat (seq 0 n)
            /\ map offset entered = map (fun i => 250 * Z.of_nat i) (seq 0 n)
            /\ page st' = Z.of_nat n
            /\ offset st' = 250 * Z.of_nat n
            /\ exists reqs,
                 w_calls w' = (w_calls w ++ reqs)%list
                 /\ List.length reqs = n
                 /\ Forall (fun r => exists ps, r = StreamRequest ps parent_id)
                           reqs).
Proof.
  cbv zeta.
  assert (Hfuel : exists fuel,
            settled (loop fuel (first_page max_bookmark_value endpoint_total) w)).
  { pose proof (page_body_outcome
                  (first_page max_bookmark_value endpoint_total) w) as B.
    cbv zeta in B. destruct B as (B0 & _ & _ & _ & Bd).
    destruct (body (first_page max_bookmark_value endpoint_total) w)
      as [st1 w1|e w1|w1] eqn:Eb.
    - destruct (Bd _ _ eq_refl) as (P1 & O1 & _ & total & Ht).
      exists (S (S (Z.to_nat (Z.max 0 total)))).
      rewrite page_loop_S, first_page_guard, Eb.
      apply page_loop_settles_late.
      + rewrite P1. cbn. lia.
      + intros total' Ht'. rewrite Ht in Ht'. injection Ht' as <-.
        rewrite O1. cbn [offset first_page]. unfold limit. lia.
    - exists 1%nat. rewrite page_loop_S, first_page_guard, Eb. exact I.
    - contradiction. }
  destruct Hfuel as (fuel & Hs). exists fuel.
  split; [exact Hs|]. split; [now apply page_loop_fuel_mono|].
  intros st' w' Hd.
  destruct (page_loop_done fuel _ _ _ _ Hd) as (entered & _ & Hr & Hg).
  exists entered. split; [exact Hr|].
  split; [clear - Hr; induction Hr; constructor; assumption|].
  split; [exact Hg|].
  pose proof (page_run_counts entered _ _ _ _ Hr) as C. cbv zeta in C.
  destruct C as (Hpages & Hoffsets & Hp & Ho & Hreqs).
  split.
  - destruct entered as [|st1 entered]; [|cbn; lia].
    inversion Hr; subst. rewrite first_page_guard in Hg. discriminate Hg.
  - split; [rewrite Hpages; apply map_ext; intros i; cbn; lia|].
    split; [rewrite Hoffsets; apply map_ext; intros i; cbn; unfold limit; lia|].
    split; [rewrite Hp; cbn; lia|].
    split; [rewrite Ho; cbn; unfold limit; lia | exact Hreqs].
Qed.

End Pagination.

(** A paginated endpoint that reports 600 records and supplies a session
    id on every page is asked three times, at offsets 0, 250 and 500. *)
Example pagination_600 :
  exists w',
    sync_endpoint (sample_env (paging_client 600)) "engage" paged_config None
                  (VStr "UTC") 10 (VStr "2023-10-05T22:13:20Z") now0 30 5 empty_world
    = Done 1800 w'
    /\ w_calls w'
       = [ StreamRequest [("page_size", VInt 250)] (VStr "none");
           StreamRequest [("page_size", VInt 250); ("session_id", VStr "s1");
                          ("page", VInt 1)] (VStr "none");
           StreamRequest [("page_size", VInt 250); ("session_id", VStr "s1");
                          ("page", VInt 2)] (VStr "none") ].
Proof. eexists. split; vm_compute; reflexivity. Qed.

(** C4 fails as stated: the page size is not 4 but the constant 250, sent
    as [page_size]; a paginated endpoint that returns four records per
    page, reports 10 records and supplies a session id on every page is
    asked once, not three times. *)
Lemma pagination_total_10_counterexample :
  limit <> 4
  /\ w_calls (world_of
        (sync_endpoint (sample_env (paging_client 10)) "engage" paged_config
                       None (VStr "UTC") 10 (VStr "2023-10-05T22:13:20Z") now0 30 5
                       empty_world))
     = [ StreamRequest [("page_size", VInt 250)] (VStr "none") ]
  /\ List.length (w_calls (world_of
        (sync_endpoint (sample_env (paging_client 10)) "engage" paged_config
                       None (VStr "UTC") 10 (VStr "2023-10-05T22:13:20Z") now0 30 5
                       empty_world))) <> 3%nat.
Proof.
  split; [discriminate|]. split; [vm_compute; reflexivity|].
  vm_compute. discriminate.
Qed.

(** ** The running maximum over a run *)

Section RunningMaximum.

Variable env : collaborators.
Variable stream_name : string.
Variable cfg : endpoint_config.
Variable bookmark_field : option string.
Variable last_datetime : value.

(** The schema transform leaves cursor values in the normalised form. *)
Hypothesis cursors_normalised :
  forall r tr, singer_transform env r = Some tr ->
               normalised env (record_get tr bookmark_field).

Lemma handle_records_max (data : value) (td : list value)
    (st : page_state) (w : world) (st' : page_state) (w' : world) :
  handle_records env stream_name cfg bookmark_field last_datetime data td st w
  = Done st' w' ->
  dt_le env (ps_max_bookmark_value st) (ps_max_bookmark_value st').
Proof.
  unfold handle_records. intros H.
  apply bind_done in H. destruct H as ([] & w1 & _ & H).
  apply bind_done in H. destruct H as ([max' n] & w2 & Hp & H).
  apply bind_done in H. destruct H as ([] & w3 & _ & H).
  apply ret_done in H. destruct H as [-> _]. cbn [ps_max_bookmark_value].
  rewrite process_records_eq in Hp.
  destruct (catalog_get_stream env stream_name); [|discriminate Hp].
  eapply process_records_from_max in Hp; [exact (proj1 Hp)|].
  intros r tr _. apply cursors_normalised.
Qed.

Lemma page_data_max (parent_record data : value)
    (st : page_state) (w : world) (st' : page_state) (w' : world) :
  page_data env stream_name cfg bookmark_field last_datetime
            parent_record data st w = Done st' w' ->
  dt_le env (ps_max_bookmark_value st) (ps_max_bookmark_value st').
Proof.
  unfold page_data. destruct (negb (truthy data)).
  - intros H. apply ret_done in H. destruct H as [-> _]. apply dt_le_refl.
  - intros H. apply bind_done in H. destruct H as (data' & w1 & _ & H).
    apply bind_done in H. destruct H as (td & w2 & _ & H).
    destruct td as [|r td].
    + apply ret_done in H. destruct H as [-> _]. apply dt_le_refl.
    + eapply handle_records_max. exact H.
Qed.

Lemma page_body_max (parent_record parent_id : value)
    (st : page_state) (w : world) (st' : page_state) (w' : world) :
  page_body env stream_name cfg bookmark_field last_datetime
            parent_record parent_id st w = Done st' w' ->
  dt_le env (ps_max_bookmark_value st) (ps_max_bookmark_value st').
Proof.
  unfold page_body. intros H.
  apply bind_done in H. destruct H as ([] & w1 & _ & H).
  apply bind_done in H. destruct H as (data & w2 & _ & H).
  apply bind_done in H. destruct H as (st2 & w3 & Hd & H).
  apply bind_done in H. destruct H as (total & w4 & _ & H).
  apply ret_done in H. destruct H as [-> _]. cbn [ps_max_bookmark_value].
  eapply page_data_max. exact Hd.
Qed.

Lemma page_loop_max (fuel : nat) :
  forall parent_record parent_id st w st' w',
    page_loop env stream_name cfg bookmark_field fuel last_datetime
              parent_record parent_id st w = Done st' w' ->
    dt_le env (ps_max_bookmark_value st) (ps_max_bookmark_value st').
Proof.
  induction fuel as [|fuel IH]; intros parent_record parent_id st w st' w' H;
    [discriminate|].
  rewrite page_loop_S in H.
  destruct (page_guard st) as [[|]|]; [| |discriminate].
  - destruct (page_body env stream_name cfg bookmark_field last_datetime
                parent_record parent_id st w) as [st1 w1| |] eqn:B;
      try discriminate.
    eapply dt_le_trans; [eapply page_body_max; exact B | eapply IH; exact H].
  - injection H as <- _. apply dt_le_refl.
Qed.

Lemma parent_loop_max (fuel : nat) (parent_id_field : option string)
    (parent_data : list value) :
  forall max0 total w max' total' w',
    parent_loop env stream_name cfg bookmark_field fuel last_datetime
                parent_id_field parent_data max0 total w
    = Done (max', total') w' ->
    dt_le env max0 max'.
Proof.
  induction parent_data as [|parent_record rest IH];
    intros max0 total w max' total' w' H; cbn [parent_loop] in H.
  - apply ret_done in H. destruct H as [H _]. injection H as <- _.
    apply dt_le_refl.
  - apply bind_done in H. destruct H as (parent_id & w1 & _ & H).
    apply bind_done in H. destruct H as ([] & w2 & _ & H).
    apply bind_done in H. destruct H as (st & w3 & Hl & H).
    apply page_loop_max in Hl. cbn [ps_max_bookmark_value first_page] in Hl.
    eapply dt_le_trans; [exact Hl | eapply IH; exact H].
Qed.

(** The accumulator does not go back over a window: the value a window
    ends with, which is the bookmark it writes, is not before the one it
    started with. *)
Lemma window_body_max (fuel : nat) (now_datetime days_interval : Z)
    (st : window_state) (w : world) (st' : window_state) (w' : world) :
  window_body env stream_name cfg bookmark_field fuel last_datetime
              now_datetime days_interval st w = Done st' w' ->
  dt_le env (ws_max_bookmark_value st) (ws_max_bookmark_value st').
Proof.
  unfold window_body. intros H.
  apply bind_done in H. destruct H as ([] & w1 & _ & H).
  apply bind_done in H. destruct H as ([parent_data pif] & w2 & _ & H).
  apply bind_done in H. destruct H as (parents & w3 & _ & H).
  unfold window_parents in H.
  apply bind_done in H. destruct H as ([max' total] & w4 & Hp & H).
  apply bind_done in H. destruct H as ([s e] & w5 & _ & H).
  apply bind_done in H. destruct H as ([] & w6 & _ & H).
  apply ret_done in H. destruct H as [-> _]. cbn [ws_max_bookmark_value].
  eapply parent_loop_max. exact Hp.
Qed.

(** Nor over a run of windows. *)
Lemma window_run_max (fuel : nat) (now_datetime days_interval : Z)
    (ws : list (Z * Z)) (st : window_state) (w : world)
    (st' : window_state) (w' : world) :
  window_run env stream_name cfg bookmark_field fuel last_datetime
             now_datetime days_interval ws st w st' w' ->
  dt_le env (ws_max_bookmark_value st) (ws_max_bookmark_value st').
Proof.
  induction 1 as [|ws st w st1 w1 st' w' Hb Hr IH]; [apply dt_le_refl|].
  eapply dt_le_trans; [eapply window_body_max; exact Hb | exact IH].
Qed.

End RunningMaximum.

(** ** Identifying fields *)

Lemma check_id_fields_err_kind (record : value) (keys : list string) (e : exn) :
  check_id_fields record keys = Err e -> e = MissingKey \/ e = AttributeError.
Proof.
  induction keys as [|k keys IH]; [discriminate|]. cbn [check_id_fields].
  destruct (py_get record (Some k)) as [val|e'] eqn:Eg; cbn [result_bind].
  - destruct (is_empty_str val || negb (truthy val)); [|exact IH].
    intros H. injection H as <-. now left.
  - intros H. injection H as <-. right.
    destruct record; cbn in Eg; try (now injection Eg as <-).
    destruct (dict_get d k); discriminate Eg.
Qed.

Lemma check_id_fields_missing (record : value) (keys : list string) (key : string) :
  In key keys -> missing_or_empty record key = true ->
  check_id_fields record keys = Err MissingKey.
Proof.
  intros Hin Hm. unfold missing_or_empty in Hm.
  destruct record as [| | | | |d]; try discriminate Hm.
  induction keys as [|k keys IH]; [contradiction|]. cbn [check_id_fields].
  destruct (py_get (VDict d) (Some k)) as [val|] eqn:Eg;
    [|cbn in Eg; destruct (dict_get d k); discriminate Eg].
  cbn [result_bind].
  destruct (is_empty_str val || negb (truthy val)) eqn:Ev; [reflexivity|].
  destruct Hin as [->|Hin]; [|exact (IH Hin)].
  rewrite Eg in Hm. apply orb_false_elim in Ev. destruct Ev as [_ Ev].
  rewrite Hm in Ev. discriminate Ev.
Qed.

Lemma check_records_missing (td : list value) (keys : list string)
    (record : value) (key : string) :
  In record td -> In key keys -> missing_or_empty record key = true ->
  exists e, check_records td (Some keys) = Err e
            /\ (e = MissingKey \/ e = AttributeError).
Proof.
  intros Hr Hk Hm. induction td as [|r td IH]; [contradiction|].
  cbn [check_records].
  destruct (check_id_fields r keys) as [[]|e] eqn:Ec; cbn [result_bind].
  - destruct Hr as [->|Hr]; [|exact (IH Hr)].
    rewrite (check_id_fields_missing record keys key Hk Hm) in Ec.
    discriminate Ec.
  - exists e. split; [reflexivity|].
    eapply check_id_fields_err_kind; exact Ec.
Qed.

Section IdentifyingFields.

Variable env : collaborators.
Variable stream_name : string.
Variable cfg : endpoint_config.
Variable bookmark_field : option string.
Variable last_datetime : value.

(** C6: when a record of the page has a missing or empty value for a
    configured identifying field, processing the response raises with
    the world as the request left it: nothing of the page is written, no
    bookmark is written, and the exception leaves the page body and the
    page loop. *)
Theorem missing_id_aborts (parent_record parent_id data data' : value)
    (td : list value) (keys : list string) (record : value) (key : string)
    (st : page_state) (w : world) :
  let w1 := world_of (page_params cfg st w) in
  let r := StreamRequest (w_params w1) parent_id in
  client_request env (w_calls w1) r = Some data ->
  truthy data = true ->
  standardize cfg data = Ok data' ->
  select_records env cfg data' parent_record = Ok td ->
  key_properties cfg = Some keys ->
  In record td ->
  In key keys ->
  missing_or_empty record key = true ->
  exists e,
    (e = MissingKey \/ e = AttributeError)
    /\ page_data env stream_name cfg bookmark_field last_datetime
                 parent_record data st (called w1 r)
       = Raised e (called w1 r)
    /\ page_body env stream_name cfg bookmark_field last_datetime
                 parent_record parent_id st w
       = Raised e (called w1 r)
    /\ w_sink (called w1 r) = w_sink w
    /\ w_state (called w1 r) = w_state w
    /\ (page_guard st = Ok true ->
        forall fuel,
          page_loop env stream_name cfg bookmark_field (S fuel) last_datetime
                    parent_record parent_id st w
          = Raised e (called w1 r)).
Proof.
  intros w1 r Hc Hd Hs Hsel Hk Hr Hkey Hm.
  destruct (check_records_missing td keys record key Hr Hkey Hm)
    as (e & Hcheck & He).
  exists e. split; [exact He|].
  assert (Hdata : page_data env stream_name cfg bookmark_field last_datetime
                    parent_record data st (called w1 r)
                  = Raised e (called w1 r)).
  { unfold page_data. rewrite Hd. cbn [negb]. unfold bind.
    rewrite Hs. cbn [lift]. unfold ret. rewrite Hsel. cbn [lift]. unfold ret.
    destruct td as [|r0 td0]; [contradiction|].
    unfold handle_records, bind. rewrite Hk, Hcheck. reflexivity. }
  assert (Hbody : page_body env stream_name cfg bookmark_field last_datetime
                    parent_record parent_id st w
                  = Raised e (called w1 r)).
  { pose proof (page_body_eq env stream_name cfg bookmark_field last_datetime
                  parent_record parent_id st w) as E.
    cbv zeta in E. fold w1 in E. fold r in E. rewrite E, Hc, Hdata.
    reflexivity. }
  split; [exact Hdata|]. split; [exact Hbody|].
  destruct (page_params_done cfg st w) as (_ & Hst & Hsink & _).
  fold w1 in Hst, Hsink.
  split; [exact Hsink|]. split; [exact Hst|].
  intros Hg fuel. rewrite page_loop_S, Hg, Hbody. reflexivity.
Qed.

End IdentifyingFields.

Lemma missing_id_aborts_witness :
  exists e,
    (e = MissingKey \/ e = AttributeError)
    /\ page_data (sample_env missing_id_client) "export" flat_config
                 (Some "time") (VStr "2023-12-01T00:00:00.000000Z")
                 (VDict [("id", VStr "none")])
                 (VDict [("results",
                    VList [sample_record "r1" "2024-01-01T00:00:00.000000Z";
                           VDict [("time", VStr "2024-01-02T00:00:00.000000Z")]])])
                 (first_page VNone 0)
                 (called empty_world (StreamRequest [] (VStr "none")))
       = Raised e (called empty_world (StreamRequest [] (VStr "none")))
    /\ page_body (sample_env missing_id_client) "export" flat_config
                 (Some "time") (VStr "2023-12-01T00:00:00.000000Z")
                 (VDict [("id", VStr "none")]) (VStr "none")
                 (first_page VNone 0) empty_world
       = Raised e (called empty_world (StreamRequest [] (VStr "none")))
    /\ w_sink (called empty_world (StreamRequest [] (VStr "none")))
       = w_sink empty_world
    /\ w_state (called empty_world (StreamRequest [] (VStr "none")))
       = w_state empty_world
    /\ (page_guard (first_page VNone 0) = Ok true ->
        forall fuel,
          page_loop (sample_env missing_id_client) "export" flat_config
                    (Some "time") (S fuel) (VStr "2023-12-01T00:00:00.000000Z")
                    (VDict [("id", VStr "none")]) (VStr "none")
                    (first_page VNone 0) empty_world
          = Raised e (called empty_world (StreamRequest [] (VStr "none")))).
Proof.
  apply (missing_id_aborts (sample_env missing_id_client) "export" flat_config
           (Some "time") (VStr "2023-12-01T00:00:00.000000Z")
           (VDict [("id", VStr "none")]) (VStr "none")
           (VDict [("results",
              VList [sample_record "r1" "2024-01-01T00:00:00.000000Z";
                     VDict [("time", VStr "2024-01-02T00:00:00.000000Z")]])])
           (VDict [("results",
              VList [sample_record "r1" "2024-01-01T00:00:00.000000Z";
                     VDict [("time", VStr "2024-01-02T00:00:00.000000Z")]])])
           [sample_record "r1" "2024-01-01T00:00:00.000000Z";
            VDict [("time", VStr "2024-01-02T00:00:00.000000Z")]]
           ["id"]
           (VDict [("time", VStr "2024-01-02T00:00:00.000000Z")])
           "id" (first_page VNone 0) empty_world).
  - reflexivity.
  - reflexivity.
  - reflexivity.
  - reflexivity.
  - reflexivity.
  - right. left. reflexivity.
  - left. reflexivity.
  - reflexivity.
Defined.

(** The whole run on that page: the exception escapes [sync_endpoint];
    the sink holds the schema and no record, the state no bookmark. *)
Example missing_id_run :
  sync_endpoint (sample_env missing_id_client) "export" flat_config
                (Some "time") (VStr "UTC") 10 (VStr "2023-10-05T22:13:20Z") now0 30 5
                empty_world
  = Raised MissingKey
      (mk_world [("from_date", VStr "2023-10-05"); ("to_date", VStr "2023-11-04")]
                [] [SchemaMessage "export"]
                [StreamRequest [("from_date", VStr "2023-10-05");
                                ("to_date", VStr "2023-11-04")] (VStr "none")]).
Proof. vm_compute. reflexivity. Qed.

(** ** What the whole run preserves

    A relation between worlds that is a preorder and that each effect of
    the engine respects is respected by every part of [sync_endpoint]. *)

Section EnginePreserves.

Variable R : world -> world -> Prop.
Hypothesis R_refl : forall w, R w w.
Hypothesis R_trans : forall w1 w2 w3, R w1 w2 -> R w2 w3 -> R w1 w3.

Variable env : collaborators.
Variable stream_name : string.
Variable cfg : endpoint_config.
Variable bookmark_field : option string.

Hypothesis R_set_param :
  forall k v, In k (written_keys cfg) -> preserves R (set_param k v).
Hypothesis R_emit : forall m, preserves R (emit env m).
Hypothesis R_put_state : forall state, preserves R (put_state state).
Hypothesis R_request_stream :
  forall parent_id, preserves R (request_stream env parent_id).
Hypothesis R_request_parent :
  forall path, preserves R (request_data env (ParentRequest path)).

Ltac preserve_step :=
  lazymatch goal with
  | |- preserves _ (ret _) => apply (preserves_ret R R_refl)
  | |- preserves _ (raise _) => apply (preserves_raise R R_refl)
  | |- preserves _ starve => apply (preserves_starve R R_refl)
  | |- preserves _ (lift _) => apply (preserves_lift R R_refl)
  | |- preserves _ (lift_option _ _) => apply (preserves_lift_option R R_refl)
  | |- preserves _ get_params => apply (preserves_get_params R R_refl)
  | |- preserves _ get_state => apply (preserves_get_state R R_refl)
  | |- preserves _ get_sink => apply (preserves_get_sink R R_refl)
  | |- preserves _ (emit _ _) => apply R_emit
  | |- preserves _ (get_stream _ _) => unfold get_stream
  | |- preserves _ (write_schema _ _) => unfold write_schema
  | |- preserves _ (write_record _ _ _) => unfold write_record
  | |- preserves _ (counter_increment _ _) => unfold counter_increment
  | |- preserves _ (put_state _) => apply R_put_state
  | |- preserves _ (request_stream _ _) => apply R_request_stream
  | |- preserves _ (request_data _ (ParentRequest _)) => apply R_request_parent
  | |- preserves _ (when _ _) => apply (preserves_when R R_refl)
  | |- preserves _ (bind _ _) => apply (preserves_bind R R_trans); [|intros ?]
  | |- preserves _ (match ?x with (_, _) => _ end) => destruct x
  | |- preserves _ (if ?b then _ else _) => destruct b
  end.

Ltac preserve := repeat preserve_step.

Lemma process_records_from_preserves (records : list value) :
  forall max0 last_datetime counter,
    preserves R (process_records_from env stream_name records bookmark_field
                   max0 last_datetime counter).
Proof.
  induction records as [|record rest IH]; intros max0 last_datetime counter;
    cbn [process_records_from]; preserve.
  apply IH.
Qed.

Lemma handle_records_preserves (last_datetime data : value)
    (td : list value) (st : page_state) :
  preserves R (handle_records env stream_name cfg bookmark_field
                 last_datetime data td st).
Proof.
  unfold handle_records, process_records. preserve.
  apply process_records_from_preserves.
Qed.

Lemma page_data_preserves (last_datetime parent_record data : value)
    (st : page_state) :
  preserves R (page_data env stream_name cfg bookmark_field
                 last_datetime parent_record data st).
Proof.
  unfold page_data. preserve. apply handle_records_preserves.
Qed.

Lemma in_written_tail (k : string) :
  In k ["page_size"; "session_id"; "page"] -> In k (written_keys cfg).
Proof.
  intros H. unfold written_keys. apply in_or_app. right.
  apply in_or_app. now right.
Qed.

Lemma page_params_preserves (st : page_state) :
  preserves R (page_params cfg st).
Proof.
  unfold page_params. preserve;
    apply R_set_param, in_written_tail; cbn; auto.
Qed.

Lemma page_body_preserves (last_datetime parent_record parent_id : value)
    (st : page_state) :
  preserves R (page_body env stream_name cfg bookmark_field
                 last_datetime parent_record parent_id st).
Proof.
  unfold page_body. preserve.
  - apply page_params_preserves.
  - apply page_data_preserves.
Qed.

Lemma page_loop_preserves (fuel : nat) :
  forall last_datetime parent_record parent_id st,
    preserves R (page_loop env stream_name cfg bookmark_field fuel
                   last_datetime parent_record parent_id st).
Proof.
  induction fuel as [|fuel IH]; intros last_datetime parent_record parent_id st;
    cbn [page_loop]; preserve;
    [apply page_body_preserves | apply IH].
Qed.

Lemma parent_loop_preserves (fuel : nat) (last_datetime : value)
    (parent_id_field : option string) (parent_data : list value) :
  forall max0 total,
    preserves R (parent_loop env stream_name cfg bookmark_field fuel
                   last_datetime parent_id_field parent_data max0 total).
Proof.
  induction parent_data as [|parent_record rest IH]; intros max0 total;
    cbn [parent_loop]; preserve.
  - apply R_set_param, in_written_tail. cbn. auto.
  - apply page_loop_preserves.
  - apply IH.
Qed.

Lemma resolve_parents_preserves (parent_id_field : option string) :
  preserves R (resolve_parents env cfg parent_id_field).
Proof.
  unfold resolve_parents. destruct (parent_path cfg); preserve.
Qed.

Lemma set_range_preserves (start_window end_window : Z) :
  preserves R (set_range env cfg start_window end_window).
Proof.
  unfold set_range, written_keys in *.
  destruct (bookmark_query_field_from cfg) as [f|]; preserve.
  destruct (bookmark_query_field_to cfg) as [t|]; preserve;
    apply R_set_param; cbn; auto.
Qed.

Lemma write_bookmark_preserves (stream : string) (v : value) :
  preserves R (write_bookmark env stream v).
Proof.
  unfold write_bookmark. preserve.
  destruct (dict_get _ "bookmarks") as [[| | | | |b]|]; preserve.
Qed.

Lemma window_parents_preserves (fuel : nat) (last_datetime : value)
    (now_datetime days_interval : Z) (st : window_state)
    (parent_id_field : option string) (parent_data : list value) :
  preserves R (window_parents env stream_name cfg bookmark_field fuel
                 last_datetime now_datetime days_interval st
                 parent_id_field parent_data).
Proof.
  unfold window_parents. preserve.
  - apply parent_loop_preserves.
  - apply write_bookmark_preserves.
Qed.

Lemma window_body_preserves (fuel : nat) (last_datetime : value)
    (now_datetime days_interval : Z) (st : window_state) :
  preserves R (window_body env stream_name cfg bookmark_field fuel
                 last_datetime now_datetime days_interval st).
Proof.
  unfold window_body. preserve.
  - apply set_range_preserves.
  - apply resolve_parents_preserves.
  - apply window_parents_preserves.
Qed.

Lemma window_loop_preserves (fuel_left : nat) :
  forall fuel last_datetime now_datetime days_interval st,
    preserves R (window_loop env stream_name cfg bookmark_field fuel_left fuel
                   last_datetime now_datetime days_interval st).
Proof.
  induction fuel_left as [|fuel_left IH];
    intros fuel last_datetime now_datetime days_interval st;
    cbn [window_loop]; preserve;
    [apply window_body_preserves | apply IH].
Qed.

Lemma sync_endpoint_preserves (project_timezone : value) (fuel : nat) (start_date : value)
    (now_datetime days_interval attribution_window : Z) :
  preserves R (sync_endpoint env stream_name cfg bookmark_field project_timezone fuel
                 start_date now_datetime days_interval attribution_window).
Proof.
  unfold sync_endpoint, write_schema. preserve.
  apply window_loop_preserves.
Qed.

End EnginePreserves.

(** ** The shared parameter dict *)

Lemma dict_has_set (d : dict) (k k0 : string) (v : value) :
  dict_has d k0 = true -> dict_has (dict_set d k v) k0 = true.
Proof.
  unfold dict_has. intros H. destruct (String.eqb k0 k) eqn:E.
  - apply String.eqb_eq in E. subst k0. now rewrite dict_get_set_same.
  - apply String.eqb_neq in E. now rewrite dict_get_set_other.
Qed.

Lemma kept_refl (ks : list string) (d : dict) : kept ks d d.
Proof. intros k H. now split. Qed.

Lemma kept_trans (ks : list string) (d1 d2 d3 : dict) :
  kept ks d1 d2 -> kept ks d2 d3 -> kept ks d1 d3.
Proof.
  intros H12 H23 k H1. destruct (H12 k H1) as [H2 E12].
  destruct (H23 k H2) as [H3 E23]. split; [exact H3|].
  intros Hk. now rewrite E23, E12.
Qed.

Lemma kept_set (ks : list string) (d : dict) (k : string) (v : value) :
  In k ks -> kept ks d (dict_set d k v).
Proof.
  intros Hin k0 H0. split; [now apply dict_has_set|].
  intros Hk0. apply dict_get_set_other. intros ->. contradiction.
Qed.

Lemma stream_params_app (l1 l2 : list request) :
  stream_params (l1 ++ l2) = (stream_params l1 ++ stream_params l2)%list.
Proof. unfold stream_params. apply flat_map_app. Qed.

Lemma ForallOrdPairs_app {A} (P : A -> A -> Prop) (l1 l2 : list A) :
  ForallOrdPairs P l1 -> ForallOrdPairs P l2 ->
  (forall x y, In x l1 -> In y l2 -> P x y) ->
  ForallOrdPairs P (l1 ++ l2).
Proof.
  intros H1 H2 Hx. induction H1 as [|a l Ha Hl IH]; [exact H2|].
  cbn [app]. constructor.
  - apply Forall_app. split; [exact Ha|].
    apply Forall_forall. intros y Hy. apply Hx; [now left | exact Hy].
  - apply IH. intros x y Hin. apply Hx. now right.
Qed.

Lemma params_grow_refl (ks : list string) (w : world) : params_grow ks w w.
Proof.
  exists []. rewrite app_nil_r. split; [reflexivity|].
  split; [apply kept_refl|]. split; constructor.
Qed.

Lemma params_grow_trans (ks : list string) (w1 w2 w3 : world) :
  params_grow ks w1 w2 -> params_grow ks w2 w3 -> params_grow ks w1 w3.
Proof.
  intros (n1 & C1 & K1 & F1 & O1) (n2 & C2 & K2 & F2 & O2).
  exists (n1 ++ n2)%list. rewrite C2, C1, app_assoc. split; [reflexivity|].
  split; [eapply kept_trans; eassumption|].
  rewrite stream_params_app. rewrite Forall_forall in F1, F2. split.
  - apply Forall_app. split; apply Forall_forall; intros ps Hps.
    + destruct (F1 ps Hps) as [Ha Hb]. split; [exact Ha|].
      eapply kept_trans; eassumption.
    + destruct (F2 ps Hps) as [Ha Hb]. split; [|exact Hb].
      eapply kept_trans; eassumption.
  - apply ForallOrdPairs_app; [exact O1 | exact O2|].
    intros x y Hx Hy. destruct (F1 x Hx) as [_ Hb]. destruct (F2 y Hy) as [Ha _].
    eapply kept_trans; eassumption.
Qed.

(** A step that leaves the parameters and the calls alone. *)
Lemma params_grow_same (ks : list string) (w w' : world) :
  w_params w' = w_params w -> w_calls w' = w_calls w -> params_grow ks w w'.
Proof.
  intros Hp Hc. exists []. rewrite app_nil_r, Hp. split; [exact Hc|].
  split; [apply kept_refl|]. split; constructor.
Qed.

Section SharedParams.

Variable env : collaborators.
Variable stream_name : string.
Variable cfg : endpoint_config.
Variable bookmark_field : option string.

#[local] Abbreviation ks := (written_keys cfg).

Lemma set_param_grows (k : string) (v : value) :
  In k ks -> preserves (params_grow ks) (set_param k v).
Proof.
  intros Hin w. unfold set_param. cbn [world_of].
  exists []. cbn [with_params w_calls w_params]. rewrite app_nil_r.
  split; [reflexivity|]. split; [now apply kept_set|]. split; constructor.
Qed.

Lemma emit_grows (m : message) : preserves (params_grow ks) (emit env m).
Proof.
  intros w. unfold emit.
  destruct (singer_write env (w_sink w) m); now apply params_grow_same.
Qed.

Lemma put_state_grows (state : dict) : preserves (params_grow ks) (put_state state).
Proof. intros w. now apply params_grow_same. Qed.

Lemma request_stream_grows (parent_id : value) :
  preserves (params_grow ks) (request_stream env parent_id).
Proof.
  intros w. unfold request_stream, bind, get_params, request_data.
  assert (G : params_grow ks w (called w (StreamRequest (w_params w) parent_id))).
  { exists [StreamRequest (w_params w) parent_id].
    cbn [called w_calls w_params stream_params flat_map app].
    split; [reflexivity|]. split; [apply kept_refl|]. split.
    - constructor; [|constructor]. split; apply kept_refl.
    - constructor; constructor. }
  now destruct (client_request env (w_calls w) (StreamRequest (w_params w) parent_id)).
Qed.

Lemma request_parent_grows (path : string) :
  preserves (params_grow ks) (request_data env (ParentRequest path)).
Proof.
  intros w. unfold request_data.
  assert (G : params_grow ks w (called w (ParentRequest path))).
  { exists [ParentRequest path].
    cbn [called w_calls w_params stream_params flat_map app].
    split; [reflexivity|]. split; [apply kept_refl|]. split; constructor. }
  now destruct (client_request env (w_calls w) (ParentRequest path)).
Qed.

Ltac grows_by L :=
  apply L;
  first [ exact (params_grow_refl ks)
        | exact (params_grow_trans ks)
        | exact set_param_grows
        | exact emit_grows
        | exact put_state_grows
        | exact request_stream_grows
        | exact request_parent_grows ].

Lemma page_loop_grows (fuel : nat) (last_datetime parent_record parent_id : value)
    (st : page_state) :
  preserves (params_grow ks)
    (page_loop env stream_name cfg bookmark_field fuel last_datetime
               parent_record parent_id st).
Proof. grows_by page_loop_preserves. Qed.

Lemma parent_loop_grows (fuel : nat) (last_datetime : value)
    (parent_id_field : option string) (parent_data : list value)
    (max0 : value) (total : Z) :
  preserves (params_grow ks)
    (parent_loop env stream_name cfg bookmark_field fuel last_datetime
                 parent_id_field parent_data max0 total).
Proof. grows_by parent_loop_preserves. Qed.

Lemma write_bookmark_grows (stream : string) (v : value) :
  preserves (params_grow ks) (write_bookmark env stream v).
Proof. grows_by write_bookmark_preserves. Qed.

Lemma set_range_grows (start_window end_window : Z) :
  preserves (params_grow ks) (set_range env cfg start_window end_window).
Proof. grows_by set_range_preserves. Qed.

Lemma window_body_grows (fuel : nat) (last_datetime : value)
    (now_datetime days_interval : Z) (st : window_state) :
  preserves (params_grow ks)
    (window_body env stream_name cfg bookmark_field fuel last_datetime
                 now_datetime days_interval st).
Proof. grows_by window_body_preserves. Qed.

(** No key is lost over a run, whatever its outcome. *)
Lemma sync_endpoint_grows (project_timezone : value) (fuel : nat)
    (start_date : value) (now_datetime days_interval attribution_window : Z) :
  preserves (params_grow ks)
    (sync_endpoint env stream_name cfg bookmark_field project_timezone fuel
                   start_date now_datetime days_interval attribution_window).
Proof.
  intros w.
  apply (sync_endpoint_preserves (params_grow ks)
           (params_grow_refl ks) (params_grow_trans ks)
           env stream_name cfg bookmark_field).
  - exact set_param_grows.
  - exact emit_grows.
  - exact put_state_grows.
  - exact request_stream_grows.
  - exact request_parent_grows.
Qed.

End SharedParams.

(** Two windows of a paginated cursor-range stream, two pages each: the
    first request of the second window still carries the [session_id] and
    the [page] written for the last page of the first window, under the
    new window's dates; the stream definition is left with all five
    keys. *)
Example params_leak_into_next_window :
  let w' := world_of
    (sync_endpoint (sample_env (paging_client 300)) "engage"
                   paged_ranged_config None (VStr "UTC") 10 (VStr "2023-10-05T22:13:20Z")
                   now0 30 5 (mk_world [("where", VStr "x")] [] [] [])) in
  w_calls w'
  = [ StreamRequest [("where", VStr "x"); ("from_date", VStr "2023-10-05");
                     ("to_date", VStr "2023-11-04"); ("page_size", VInt 250)]
                    (VStr "none");
      StreamRequest [("where", VStr "x"); ("from_date", VStr "2023-10-05");
                     ("to_date", VStr "2023-11-04"); ("page_size", VInt 250);
                     ("session_id", VStr "s1"); ("page", VInt 1)]
                    (VStr "none");
      StreamRequest [("where", VStr "x"); ("from_date", VStr "2023-11-04");
                     ("to_date", VStr "2023-11-14"); ("page_size", VInt 250);
                     ("session_id", VStr "s1"); ("page", VInt 1)]
                    (VStr "none");
      StreamRequest [("where", VStr "x"); ("from_date", VStr "2023-11-04");
                     ("to_date", VStr "2023-11-14"); ("page_size", VInt 250);
                     ("session_id", VStr "s1"); ("page", VInt 1)]
                    (VStr "none") ]
  /\ w_params w'
     = [("where", VStr "x"); ("from_date", VStr "2023-11-04");
        ("to_date", VStr "2023-11-14"); ("page_size", VInt 250);
        ("session_id", VStr "s1"); ("page", VInt 1)].
Proof. split; vm_compute; reflexivity. Qed.

(** ** The date-window loop and the parent resolver *)

Lemma params_grow_calls (ks : list string) (w w' : world) :
  params_grow ks w w' -> exists new, w_calls w' = (w_calls w ++ new)%list.
Proof. intros (new & H & _). now exists new. Qed.

Section Windows.

Variable env : collaborators.
Variable stream_name : string.
Variable cfg : endpoint_config.
Variable bookmark_field : option string.

#[local] Abbreviation wbody fuel :=
  (window_body env stream_name cfg bookmark_field fuel).
#[local] Abbreviation wparents fuel :=
  (window_parents env stream_name cfg bookmark_field fuel).
#[local] Abbreviation wloop fuel_left fuel :=
  (window_loop env stream_name cfg bookmark_field fuel_left fuel).
#[local] Abbreviation wrun fuel :=
  (window_run env stream_name cfg bookmark_field fuel).

Lemma set_range_done (start_window end_window : Z) (w : world) :
  let w0 := world_of (set_range env cfg start_window end_window w) in
  set_range env cfg start_window end_window w = Done tt w0
  /\ w_calls w0 = w_calls w
  /\ w_sink w0 = w_sink w
  /\ w_state w0 = w_state w.
Proof.
  unfold set_range, when.
  destruct (bookmark_query_field_from cfg), (bookmark_query_field_to cfg);
    try destruct (ranged cfg); repeat split.
Qed.

(** The window a normal return of the body leaves is the next one. *)
Lemma window_parents_next (fuel : nat) (last_datetime : value)
    (now_datetime days_interval : Z) (st : window_state)
    (parent_id_field : option string) (parent_data : list value)
    (w : world) (st' : window_state) (w' : world) :
  wparents fuel last_datetime now_datetime days_interval st
           parent_id_field parent_data w = Done st' w' ->
  ws_start st' = ws_end st
  /\ ws_end st' = capped now_datetime (ws_end st + timedelta days_interval)
  /\ ws_parent_id_field st' = parent_id_field
  /\ next_window now_datetime days_interval (ws_end st)
     = Ok (ws_start st', ws_end st').
Proof.
  unfold window_parents. intros H.
  apply bind_done in H. destruct H as ([max' total] & w1 & _ & H).
  apply bind_done in H. destruct H as ([s e] & w2 & Hn & H).
  apply lift_done in Hn. destruct Hn as [Hn _].
  apply bind_done in H. destruct H as ([] & w3 & _ & H).
  apply ret_done in H. destruct H as [-> _].
  cbn [ws_start ws_end ws_parent_id_field].
  assert (Hp := proj1 (next_window_inv _ _ _ _ Hn)).
  inversion Hp; subst s e. repeat split. exact Hn.
Qed.

Lemma window_body_eq (fuel : nat) (last_datetime : value)
    (now_datetime days_interval : Z) (st : window_state) (w : world) :
  let w0 := world_of (set_range env cfg (ws_start st) (ws_end st) w) in
  wbody fuel last_datetime now_datetime days_interval st w
  = match resolve_parents env cfg (ws_parent_id_field st) w0 with
    | Done (parent_data, parent_id_field) w1 =>
        match py_iter parent_data with
        | Ok parents =>
            wparents fuel last_datetime now_datetime days_interval st
                     parent_id_field parents w1
        | Err e => Raised e w1
        end
    | Raised e w1 => Raised e w1
    | Starved w1 => Starved w1
    end.
Proof.
  intros w0. unfold window_body.
  destruct (set_range_done (ws_start st) (ws_end st) w) as (Hs & _).
  fold w0 in Hs. unfold bind at 1. rewrite Hs. unfold bind at 1.
  destruct (resolve_parents env cfg (ws_parent_id_field st) w0)
    as [[parent_data parent_id_field] w1| |]; try reflexivity.
  unfold bind. now destruct (py_iter parent_data).
Qed.

Lemma window_body_next (fuel : nat) (last_datetime : value)
    (now_datetime days_interval : Z) (st : window_state)
    (w : world) (st' : window_state) (w' : world) :
  wbody fuel last_datetime now_datetime days_interval st w = Done st' w' ->
  ws_start st' = ws_end st
  /\ ws_end st' = capped now_datetime (ws_end st + timedelta days_interval)
  /\ next_window now_datetime days_interval (ws_end st)
     = Ok (ws_start st', ws_end st').
Proof.
  pose proof (window_body_eq fuel last_datetime now_datetime days_interval st w)
    as E. cbv zeta in E. rewrite E. clear E.
  destruct (resolve_parents env cfg (ws_parent_id_field st) _)
    as [[parent_data parent_id_field] w1| |]; try discriminate.
  destruct (py_iter parent_data) as [parents|]; [|discriminate].
  intros H. apply window_parents_next in H. tauto.
Qed.

Lemma window_loop_S (fuel_left fuel : nat) (last_datetime : value)
    (now_datetime days_interval : Z) (st : window_state) (w : world) :
  wloop (S fuel_left) fuel last_datetime now_datetime days_interval st w
  = if ws_start st <? now_datetime then
      match wbody fuel last_datetime now_datetime days_interval st w with
      | Done st1 w1 =>
          wloop fuel_left fuel last_datetime now_datetime days_interval st1 w1
      | Raised e w1 => Raised e w1
      | Starved w1 => Starved w1
      end
    else Done st w.
Proof. cbn [window_loop]. now destruct (ws_start st <? now_datetime). Qed.

(** When the window loop returns, its body has run once on each window
    that [windows] lists, in order, and [start_window] has reached
    [now_datetime]. *)
Lemma window_loop_visits (fuel_left : nat) :
  forall fuel last_datetime now_datetime days_interval st w st' w',
    wloop fuel_left fuel last_datetime now_datetime days_interval st w
    = Done st' w' ->
    exists ws,
      windows fuel_left now_datetime days_interval (ws_start st) (ws_end st)
      = Some (Ok ws)
      /\ wrun fuel last_datetime now_datetime days_interval ws st w st' w'
      /\ now_datetime <= ws_start st'.
Proof.
  induction fuel_left as [|fuel_left IH];
    intros fuel last_datetime now_datetime days_interval st w st' w' H;
    [discriminate|].
  rewrite window_loop_S in H. rewrite windows_S.
  destruct (ws_start st <? now_datetime) eqn:E.
  - destruct (wbody fuel last_datetime now_datetime days_interval st w)
      as [st1 w1| |] eqn:B; try discriminate.
    destruct (window_body_next _ _ _ _ _ _ _ _ B) as (_ & _ & Hnext).
    destruct (IH _ _ _ _ _ _ _ _ H) as (ws & Hw & Hr & Hn).
    rewrite Hnext, Hw.
    exists ((ws_start st, ws_end st) :: ws).
    split; [reflexivity|]. split; [econstructor; eassumption | exact Hn].
  - injection H as <- <-. exists []. split; [reflexivity|].
    split; [constructor | now apply Z.ltb_ge].
Qed.

(** [sync_endpoint], step by step. *)
Lemma sync_endpoint_eq (project_timezone : value) (fuel : nat)
    (start_date : value) (now_datetime days_interval attribution_window : Z)
    (w : world) :
  sync_endpoint env stream_name cfg bookmark_field project_timezone fuel
                start_date now_datetime days_interval attribution_window w
  = match get_bookmark (w_state w) stream_name start_date with
    | Err e => Raised e w
    | Ok last_datetime =>
        if catalog_get_stream env stream_name then
          if singer_write env (w_sink w) (SchemaMessage stream_name) then
            let w1 := written w (SchemaMessage stream_name) in
            if pytz_timezone env project_timezone then
              match strptime_to_utc env last_datetime with
              | None => Raised ParseError w1
              | Some last_dttm =>
                  match plan_windows (ranged cfg) now_datetime last_dttm
                                     days_interval attribution_window with
                  | Err e => Raised e w1
                  | Ok p =>
                      match wloop fuel fuel last_datetime now_datetime
                              (pw_days_interval p)
                              (mk_window_state (pw_start p) (pw_end p)
                                 (parent_id_field cfg) last_datetime 0)
                              w1 with
                      | Done st w' => Done (ws_endpoint_total st) w'
                      | Raised e w' => Raised e w'
                      | Starved w' => Starved w'
                      end
                  end
              end
            else Raised TimezoneError w1
          else Raised OSError w
        else Raised AttributeError w
    end.
Proof.
  unfold sync_endpoint, bind, get_state, write_schema, get_stream, emit, when.
  destruct (get_bookmark (w_state w) stream_name start_date)
    as [last_datetime|e]; [|reflexivity].
  cbn [lift]. unfold ret, bind.
  destruct (catalog_get_stream env stream_name); [|reflexivity].
  unfold ret.
  destruct (singer_write env (w_sink w) (SchemaMessage stream_name));
    [|reflexivity].
  destruct (pytz_timezone env project_timezone); [|reflexivity].
  cbn [negb]. unfold ret.
  destruct (strptime_to_utc env last_datetime) as [last_dttm|]; [|reflexivity].
  cbn [lift_option]. unfold ret.
  destruct (plan_windows (ranged cfg) now_datetime last_dttm
              days_interval attribution_window) as [p|e]; [|reflexivity].
  cbn [lift]. unfold ret.
  now destruct (window_loop env stream_name cfg bookmark_field fuel fuel
                  last_datetime now_datetime _ _ _).
Qed.

(** What a run of [sync_endpoint] that returns has gone through: the
    stream is in the catalog, the schema was taken, the time zone is
    known, the bookmark was parsed, the plan was made, and the windows of
    the run are the planned ones. *)
Lemma sync_endpoint_windows (project_timezone : value) (fuel : nat)
    (start_date : value) (now_datetime days_interval attribution_window : Z)
    (w : world) (total : Z) (w' : world) :
  sync_endpoint env stream_name cfg bookmark_field project_timezone fuel
                start_date now_datetime days_interval attribution_window w
  = Done total w' ->
  exists last_datetime last_dttm p ws st',
    get_bookmark (w_state w) stream_name start_date = Ok last_datetime
    /\ catalog_get_stream env stream_name = true
    /\ singer_write env (w_sink w) (SchemaMessage stream_name) = true
    /\ pytz_timezone env project_timezone = true
    /\ strptime_to_utc env last_datetime = Some last_dttm
    /\ plan_windows (ranged cfg) now_datetime last_dttm
                    days_interval attribution_window = Ok p
    /\ planned_windows fuel (ranged cfg) now_datetime last_dttm
                       days_interval attribution_window = Some (Ok ws)
    /\ wrun fuel last_datetime now_datetime (pw_days_interval p) ws
            (mk_window_state (pw_start p) (pw_end p) (parent_id_field cfg)
                             last_datetime 0)
            (written w (SchemaMessage stream_name)) st' w'
    /\ total = ws_endpoint_total st'.
Proof.
  rewrite sync_endpoint_eq.
  destruct (get_bookmark (w_state w) stream_name start_date)
    as [last_datetime|]; [|discriminate].
  destruct (catalog_get_stream env stream_name); [|discriminate].
  destruct (singer_write env (w_sink w) (SchemaMessage stream_name));
    [|discriminate].
  cbv zeta.
  destruct (pytz_timezone env project_timezone); [|discriminate].
  destruct (strptime_to_utc env last_datetime) as [last_dttm|] eqn:Ed;
    [|discriminate].
  destruct (plan_windows (ranged cfg) now_datetime last_dttm
              days_interval attribution_window) as [p|] eqn:Ep; [|discriminate].
  destruct (wloop fuel fuel last_datetime now_datetime _ _ _)
    as [st' w1| |] eqn:El; try discriminate.
  intros H. inversion H; subst.
  apply window_loop_visits in El. destruct El as (ws & Hw & Hr & _).
  cbn [ws_start ws_end] in Hw.
  exists last_datetime, last_dttm, p, ws, st'.
  repeat (split; [reflexivity|]).
  split; [exact Ed|]. split; [exact Ep|].
  split; [unfold planned_windows; now rewrite Ep|].
  split; [exact Hr | reflexivity].
Qed.

End Windows.

Section ParentResolver.

Variable env : collaborators.
Variable stream_name : string.
Variable cfg : endpoint_config.
Variable bookmark_field : option string.

#[local] Abbreviation ks := (written_keys cfg).

(** With fuel for one turn, the parent loop asks for the first page of
    its first parent, whatever happens next. *)
Lemma parent_loop_first_request (fuel : nat) (last_datetime : value)
    (parent_id_field : option string) (parent_record : value)
    (rest : list value) (max0 : value) (total : Z) (w : world)
    (parent_id : value) :
  py_get parent_record parent_id_field = Ok parent_id ->
  exists ps more,
    w_calls (world_of
      (parent_loop env stream_name cfg bookmark_field (S fuel) last_datetime
                   parent_id_field (parent_record :: rest) max0 total w))
    = (w_calls w ++ StreamRequest ps parent_id :: more)%list.
Proof.
  intros Hget. cbn [parent_loop]. unfold bind at 1. rewrite Hget.
  cbn [lift]. unfold ret. unfold bind at 1.
  set (w1 := world_of (when (pagination cfg)
                         (set_param "page_size" (VInt limit)) w)).
  assert (Hw1 : when (pagination cfg) (set_param "page_size" (VInt limit)) w
                = Done tt w1 /\ w_calls w1 = w_calls w).
  { subst w1. unfold when. now destruct (pagination cfg). }
  destruct Hw1 as [Hw1 Hc1]. rewrite Hw1.
  set (k := fun st : page_state =>
              parent_loop env stream_name cfg bookmark_field (S fuel)
                last_datetime parent_id_field rest
                (ps_max_bookmark_value st) (ps_endpoint_total st)).
  change (exists ps more,
    w_calls (world_of
      (bind (page_loop env stream_name cfg bookmark_field (S fuel)
               last_datetime parent_record parent_id (first_page max0 total))
            k w1))
    = (w_calls w ++ StreamRequest ps parent_id :: more)%list).
  unfold bind. rewrite page_loop_S, first_page_guard.
  pose proof (page_body_outcome env stream_name cfg bookmark_field
                last_datetime parent_record parent_id
                (first_page max0 total) w1) as B.
  cbv zeta in B. destruct B as (_ & Bc & _).
  destruct (page_body env stream_name cfg bookmark_field last_datetime
              parent_record parent_id (first_page max0 total) w1)
    as [st1 w2|e w2|w2]; cbn [world_of] in Bc.
  - assert (G : preserves (params_grow ks)
                  (bind (page_loop env stream_name cfg bookmark_field fuel
                           last_datetime parent_record parent_id st1) k)).
    { apply (preserves_bind _ (params_grow_trans ks)).
      - apply page_loop_grows.
      - intros st. apply parent_loop_grows. }
    specialize (G w2). apply params_grow_calls in G. destruct G as (new & G).
    unfold bind in G. do 2 eexists. rewrite G, Bc, Hc1, <- app_assoc.
    reflexivity.
  - do 2 eexists. cbn [world_of]. rewrite Bc, Hc1. reflexivity.
  - do 2 eexists. cbn [world_of]. rewrite Bc, Hc1. reflexivity.
Qed.

(** C9 (as amended): in a window of a stream without a parent path (or
    without a parent id field) the parent loop runs over exactly
    [[{'id': 'none'}]] with the id field ['id'], and with fuel for one
    turn it asks for a page for the parent id ['none']; in a window of a
    stream with both, the parent loop runs over the parent records that
    the parent request returned, as it returned them. *)
Theorem parent_resolution (fuel : nat) (last_datetime : value)
    (now_datetime days_interval : Z) (st : window_state) (w : world) :
  let w0 := world_of (set_range env cfg (ws_start st) (ws_end st) w) in
  (name_set (parent_path cfg) && name_set (ws_parent_id_field st) = false ->
   window_body env stream_name cfg bookmark_field fuel last_datetime
               now_datetime days_interval st w
   = window_parents env stream_name cfg bookmark_field fuel last_datetime
                    now_datetime days_interval st
                    (Some "id") [VDict [("id", VStr "none")]] w0
   /\ ((1 <= fuel)%nat ->
       exists ps more,
         w_calls (world_of
           (window_body env stream_name cfg bookmark_field fuel last_datetime
                        now_datetime days_interval st w))
         = (w_calls w ++ StreamRequest ps (VStr "none") :: more)%list))
  /\ (forall path parent_data parents,
        parent_path cfg = Some path ->
        name_set (parent_path cfg) && name_set (ws_parent_id_field st) = true ->
        client_request env (w_calls w0) (ParentRequest path) = Some parent_data ->
        py_iter parent_data = Ok parents ->
        window_body env stream_name cfg bookmark_field fuel last_datetime
                    now_datetime days_interval st w
        = window_parents env stream_name cfg bookmark_field fuel last_datetime
                         now_datetime days_interval st
                         (ws_parent_id_field st) parents
                         (called w0 (ParentRequest path))).
Proof.
  intros w0.
  pose proof (window_body_eq env stream_name cfg bookmark_field fuel
                last_datetime now_datetime days_interval st w) as E.
  cbv zeta in E. fold w0 in E.
  destruct (set_range_done env cfg (ws_start st) (ws_end st) w)
    as (_ & Hc0 & _). fold w0 in Hc0.
  split.
  - intros Hflat.
    assert (Hres : resolve_parents env cfg (ws_parent_id_field st) w0
                   = Done (VList [VDict [("id", VStr "none")]], Some "id") w0).
    { unfold resolve_parents. rewrite Hflat. now destruct (parent_path cfg). }
    rewrite Hres in E. cbn [py_iter] in E. split; [exact E|].
    intros Hfuel. destruct fuel as [|fuel]; [lia|]. rewrite E.
    unfold window_parents, bind.
    destruct (parent_loop_first_request fuel last_datetime (Some "id")
                (VDict [("id", VStr "none")]) [] (ws_max_bookmark_value st)
                (ws_endpoint_total st) w0 (VStr "none") eq_refl)
      as (ps & more & Hreq).
    destruct (parent_loop env stream_name cfg bookmark_field (S fuel)
                last_datetime (Some "id") [VDict [("id", VStr "none")]]
                (ws_max_bookmark_value st) (ws_endpoint_total st) w0)
      as [[max' total] w1|e w1|w1]; cbn [world_of] in Hreq.
    + destruct (next_window now_datetime days_interval (ws_end st))
        as [[s e]|ex]; cbn [lift]; unfold ret, raise; cbn [world_of];
        [|exists ps, more; now rewrite Hreq, Hc0].
      assert (G : preserves (params_grow ks)
                (when (name_set bookmark_field)
                      (write_bookmark env stream_name max'))).
      { apply (preserves_when _ (params_grow_refl ks)).
        apply write_bookmark_grows. }
      specialize (G w1). apply params_grow_calls in G.
      destruct G as (new & G).
      destruct (when (name_set bookmark_field)
                     (write_bookmark env stream_name max') w1)
        as [[] w2|e' w2|w2]; cbn [world_of] in G |- *; unfold ret;
        cbn [world_of]; exists ps, (more ++ new)%list;
        rewrite G, Hreq, Hc0, <- app_assoc; reflexivity.
    + exists ps, more. cbn [world_of]. now rewrite Hreq, Hc0.
    + exists ps, more. cbn [world_of]. now rewrite Hreq, Hc0.
  - intros path parent_data parents Hpath Hboth Hreq Hiter.
    assert (Hres : resolve_parents env cfg (ws_parent_id_field st) w0
                   = Done (parent_data, ws_parent_id_field st)
                          (called w0 (ParentRequest path))).
    { unfold resolve_parents. rewrite Hboth, Hpath.
      unfold bind, request_data. now rewrite Hreq. }
    rewrite Hres, Hiter in E. exact E.
Qed.

End ParentResolver.

Lemma parent_resolution_witness :
  exists ps more,
    w_calls (world_of
      (window_body (sample_env (paging_client 10)) "export" flat_config
                   (Some "time") 5 (VStr "2023-10-05T22:13:20Z") now0 30
                   (mk_window_state (now0 - timedelta 40) (now0 - timedelta 10)
                                    None (VStr "2023-10-05T22:13:20Z") 0)
                   empty_world))
    = (w_calls empty_world ++ StreamRequest ps (VStr "none") :: more)%list.
Proof.
  apply (proj1 (parent_resolution (sample_env (paging_client 10)) "export"
                  flat_config (Some "time") 5 (VStr "2023-10-05T22:13:20Z")
                  now0 30
                  (mk_window_state (now0 - timedelta 40) (now0 - timedelta 10)
                                   None (VStr "2023-10-05T22:13:20Z") 0)
                  empty_world)).
  - reflexivity.
  - lia.
Defined.

(** C9 fails as stated: when the parent request returns an empty list,
    the parent data handed on are empty; the window ends normally after
    the parent request alone, without a single page request. *)
Lemma parent_listing_empty_counterexample :
  resolve_parents (sample_env empty_listing_client) child_config
                  (Some "funnel_id") empty_world
  = Done (VList [], Some "funnel_id")
         (called empty_world (ParentRequest "funnels/list"))
  /\ py_iter (VList []) = Ok []
  /\ window_body (sample_env empty_listing_client) "funnels" child_config
                 None 10 (VStr "2023-10-05T22:13:20Z") now0 30
                 (mk_window_state (now0 - timedelta 40) now0
                                  (Some "funnel_id") VNone 0)
                 empty_world
     = Done (mk_window_state now0 now0 (Some "funnel_id") VNone 0)
            (called empty_world (ParentRequest "funnels/list")).
Proof. repeat split; vm_compute; reflexivity. Qed.

(** ** Window planner: where a window ends *)

Lemma windows_ends (fuel : nat) :
  forall now di s e ws,
    windows fuel now di s e = Some (Ok ws) ->
    e = capped now (s + timedelta di) ->
    Forall (fun w => snd w = capped now (fst w + timedelta di)) ws.
Proof.
  induction fuel as [|fuel IH]; intros now di s e ws H He; [discriminate|].
  apply windows_inv in H.
  destruct H as [[_ ->]|(_ & fuel' & ws' & Hf & -> & _ & H)]; [constructor|].
  inversion Hf; subst fuel'. constructor; [exact He|].
  eapply IH; [exact H | reflexivity].
Qed.

(** X1: every window of a stream with a cursor range ends
    [days_interval] days after its start (30 days when [days_interval]
    is 0), or at now when that comes first. *)
Theorem window_ends_after_interval (fuel : nat)
    (now checkpoint days_interval attribution_window : Z)
    (ws : list (Z * Z)) :
  planned_windows fuel true now checkpoint days_interval attribution_window
  = Some (Ok ws) ->
  let step := timedelta (if days_interval =? 0 then 30 else days_interval) in
  Forall (fun w => snd w = capped now (fst w + step)) ws
  /\ Forall (fun w => snd w < now -> snd w - fst w = step) ws.
Proof.
  intros H. cbv zeta.
  assert (Hends : Forall (fun w => snd w
                            = capped now (fst w
                                + timedelta (if days_interval =? 0 then 30
                                             else days_interval))) ws).
  { unfold planned_windows in H.
    destruct (plan_windows true now checkpoint days_interval attribution_window)
      as [p|] eqn:Ep; [|discriminate H].
    apply plan_ranged_inv in Ep. destruct Ep as (_ & Hstep & Hend & _).
    rewrite Hstep in *.
    eapply windows_ends; [exact H | exact Hend]. }
  split; [exact Hends|].
  eapply Forall_impl; [|exact Hends]. intros [s e]. cbn [fst snd].
  unfold capped. intros -> Hlt.
  destruct (now <? s + timedelta (if days_interval =? 0 then 30 else days_interval));
    lia.
Qed.

Lemma window_ends_after_interval_witness :
  let ws := [(now0 - timedelta 70, now0 - timedelta 40);
             (now0 - timedelta 40, now0 - timedelta 10);
             (now0 - timedelta 10, now0)] in
  Forall (fun w => snd w = capped now0 (fst w + timedelta (if 30 =? 0 then 30 else 30)))
         ws
  /\ Forall (fun w => snd w < now0 ->
                      snd w - fst w = timedelta (if 30 =? 0 then 30 else 30)) ws.
Proof.
  apply (window_ends_after_interval 4 now0 (now0 - timedelta 70) 30 5).
  vm_compute. reflexivity.
Defined.

(** ** Record processor: the record count and the cursor values it cannot read *)

Section RecordCount.

Variable env : collaborators.
Variable stream_name : string.
Variable bookmark_field : option string.
Variable last_datetime : value.

Lemma filter_length_le {A} (f : A -> bool) (l : list A) :
  (List.length (filter f l) <= List.length l)%nat.
Proof.
  induction l as [|x l IH]; [apply le_n|]. cbn [filter].
  destruct (f x); cbn [List.length]; lia.
Qed.

Lemma filter_all {A} (f : A -> bool) (l : list A) :
  (forall x, f x = true) -> filter f l = l.
Proof.
  intros H. induction l as [|x l IH]; [reflexivity|].
  cbn [filter]. now rewrite H, IH.
Qed.


(** X3: a batch that holds a record with the cursor field present but
    with a value that [transform_datetime] reads as [None] (null or
    empty) is never processed to the end when a cursor field is
    configured: the comparison of line 96 raises, unless something before
    it did. *)
Theorem null_cursor_aborts (records : list value) (r : value) (tr : dict)
    (max_bookmark_value : value) (w : world) :
  name_set bookmark_field = true ->
  In r records ->
  singer_transform env r = Some tr ->
  record_has tr bookmark_field = true ->
  transform_datetime env (record_get tr bookmark_field) = None ->
  exists e w',
    process_records env stream_name records bookmark_field
                    max_bookmark_value last_datetime w = Raised e w'.
Proof.
  intros Hbf Hin Htr Hhas Hnone. rewrite process_records_eq.
  destruct (catalog_get_stream env stream_name); [|now eauto].
  generalize 0 as counter. revert max_bookmark_value w.
  induction records as [|r0 rest IH]; intros max0 w counter; [contradiction|].
  rewrite process_records_from_cons.
  destruct (singer_transform env r0) as [tr0|] eqn:E0; [|now eauto].
  destruct (reset_max env bookmark_field tr0 max0) as [max1|e]; [|now eauto].
  destruct Hin as [->|Hin].
  - rewrite Htr in E0. injection E0 as <-.
    unfold keep_record. rewrite Hbf, Hhas, Hnone. cbn. eauto.
  - destruct (keep_record env bookmark_field tr0 last_datetime) as [[|]|e];
      [| apply IH; exact Hin | eauto].
    destruct (singer_write env (w_sink w) (RecordMessage stream_name tr0));
      [apply IH; exact Hin | eauto].
Qed.

End RecordCount.


(** A counter that logs at the second record: of three records written,
    one is counted. *)
Example record_count_reset_run :
  let env := sample_env_with no_client (fun _ _ => true)
               (fun sink => Nat.eqb (List.length sink) 2) in
  let o := process_records env "export"
             [ sample_record "a" "2024-01-01T12:00:00.000000Z";
               sample_record "b" "2024-01-01T12:00:01.000000Z";
               sample_record "c" "2024-01-01T12:00:02.000000Z" ]
             (Some "time") VNone (VStr "2024-01-01T12:00:00.000000Z")
             empty_world in
  (exists w', o = Done (VStr "2024-01-01T12:00:02.000000Z", 1) w')
  /\ List.length (w_sink (world_of o)) = 3%nat.
Proof. cbv zeta. split; [eexists|]; vm_compute; reflexivity. Qed.

Lemma null_cursor_aborts_witness :
  exists e w',
    process_records (sample_env no_client) "export"
      [ sample_record "a" "2024-01-01T12:00:00.000000Z";
        VDict [("id", VStr "b"); ("time", VNone)] ]
      (Some "time") VNone (VStr "2024-01-01T00:00:00.000000Z") empty_world
    = Raised e w'.
Proof.
  apply (null_cursor_aborts (sample_env no_client) "export" (Some "time")
           (VStr "2024-01-01T00:00:00.000000Z")
           [ sample_record "a" "2024-01-01T12:00:00.000000Z";
             VDict [("id", VStr "b"); ("time", VNone)] ]
           (VDict [("id", VStr "b"); ("time", VNone)])
           [("id", VStr "b"); ("time", VNone)] VNone empty_world).
  - reflexivity.
  - right. left. reflexivity.
  - reflexivity.
  - reflexivity.
  - reflexivity.
Defined.

(** ** Bookmark store *)

Lemma with_state_same (w : world) : with_state w (w_state w) = w.
Proof. now destruct w. Qed.

(** What [write_bookmark] leaves: [TypeError] with nothing changed when
    the [bookmarks] entry is not a dict; otherwise the state in memory
    has the bookmark, and it is written out unless the output refuses
    it. *)
Lemma write_bookmark_outcome (env : collaborators) (stream : string)
    (v : value) (w : world) :
  (exists b,
     dict_get (w_state w) "bookmarks" = Some b /\ is_dict b = false
     /\ write_bookmark env stream v w = Raised TypeError w)
  \/ (exists state',
        write_bookmark env stream v w
        = (if singer_write env (w_sink w) (StateMessage state')
           then Done tt (written (with_state w state') (StateMessage state'))
           else Raised OSError (with_state w state'))
        /\ (forall default, get_bookmark state' stream default = Ok v)
        /\ (forall other default, other <> stream ->
              get_bookmark state' other default
              = get_bookmark (w_state w) other default)
        /\ (forall k, k <> "bookmarks" ->
              dict_get state' k = dict_get (w_state w) k)).
Proof.
  unfold write_bookmark, bind, get_state, dict_has.
  destruct (dict_get (w_state w) "bookmarks") as [b|] eqn:Eb; cbn [negb].
  - rewrite Eb. destruct b as [| | | | |bookmarks];
      try (left; eexists; split; [reflexivity|]; split; [reflexivity|];
           unfold put_state, raise; now rewrite with_state_same).
    right. eexists. split; [reflexivity|]. split; [|split].
    + intros default. unfold get_bookmark, dict_has, dict_get_default.
      rewrite !dict_get_set_same. cbn iota beta. cbn [negb].
      rewrite ?dict_get_set_same. reflexivity.
    + intros other default Hne. unfold get_bookmark, dict_has, dict_get_default.
      rewrite !dict_get_set_same, Eb. cbn iota beta. cbn [negb].
      now rewrite dict_get_set_other.
    + intros k Hk. now apply dict_get_set_other.
  - rewrite dict_get_set_same.
    right. eexists. split; [reflexivity|]. split; [|split].
    + intros default. unfold get_bookmark, dict_has, dict_get_default.
      rewrite !dict_get_set_same. cbn iota beta. cbn [negb].
      rewrite ?dict_get_set_same. reflexivity.
    + intros other default Hne. unfold get_bookmark, dict_has, dict_get_default.
      rewrite !dict_get_set_same, Eb. cbn iota beta. cbn [negb dict_set dict_get].
      destruct (String.eqb stream other) eqn:E; [|reflexivity].
      apply String.eqb_eq in E. congruence.
    + intros k Hk. now rewrite !dict_get_set_other.
Qed.

(** When [write_bookmark] returns, the bookmark is in the state and the
    state is the last message written. *)
Lemma write_bookmark_done (env : collaborators) (stream : string)
    (v : value) (w w' : world) :
  write_bookmark env stream v w = Done tt w' ->
  (forall default, get_bookmark (w_state w') stream default = Ok v)
  /\ w_sink w' = (w_sink w ++ [StateMessage (w_state w')])%list.
Proof.
  intros H.
  destruct (write_bookmark_outcome env stream v w)
    as [(b & _ & _ & Hr)|(state' & Hw & Hget & _)].
  - rewrite Hr in H. discriminate H.
  - rewrite Hw in H.
    destruct (singer_write env (w_sink w) (StateMessage state'));
      [|discriminate H].
    inversion H. cbn [written with_state w_state w_sink]. now split.
Qed.

(** X4: [write_bookmark] followed by [get_bookmark] gives the value back.
    Unless the [bookmarks] entry of the state is something else than a
    dict, in which case [TypeError] is raised and nothing has changed,
    the state in memory gets the value as the stream's bookmark, the
    bookmarks of the other streams and every other entry as before;
    then either the output takes the state, in one state message, and
    [write_bookmark] returns, or it refuses it and [OSError] is raised,
    the state in memory being ahead of the output; parameters and
    requests are as before. *)
Theorem bookmark_round_trip (env : collaborators) (stream : string)
    (v : value) (w : world) :
  let o := write_bookmark env stream v w in
  (exists b,
     dict_get (w_state w) "bookmarks" = Some b /\ is_dict b = false
     /\ o = Raised TypeError w)
  \/ (exists w',
        ((o = Done tt w'
          /\ singer_write env (w_sink w) (StateMessage (w_state w')) = true
          /\ w_sink w' = (w_sink w ++ [StateMessage (w_state w')])%list)
         \/ (o = Raised OSError w'
             /\ singer_write env (w_sink w) (StateMessage (w_state w')) = false
             /\ w_sink w' = w_sink w))
        /\ (forall default, get_bookmark (w_state w') stream default = Ok v)
        /\ (forall other default, other <> stream ->
              get_bookmark (w_state w') other default
              = get_bookmark (w_state w) other default)
        /\ (forall k, k <> "bookmarks" ->
              dict_get (w_state w') k = dict_get (w_state w) k)
        /\ w_params w' = w_params w
        /\ w_calls w' = w_calls w).
Proof.
  cbv zeta.
  destruct (write_bookmark_outcome env stream v w)
    as [(b & Hb & Hd & Hr)|(state' & Hw & Hget & Hother & Hkeys)].
  - left. now exists b.
  - right. rewrite Hw.
    destruct (singer_write env (w_sink w) (StateMessage state')) eqn:E.
    + exists (written (with_state w state') (StateMessage state')).
      cbn [written with_state w_state w_sink w_params w_calls].
      split; [left; now repeat split|]. repeat split; assumption.
    + exists (with_state w state').
      cbn [with_state w_state w_sink w_params w_calls].
      split; [right; now repeat split|]. repeat split; assumption.
Qed.

(** A state without bookmarks, then one bookmark, then a second one; a
    [bookmarks] entry that is not a dict; an output that is closed. *)
Example bookmark_round_trip_run :
  let env := sample_env no_client in
  let w1 := world_of (write_bookmark env "export" (VStr "2024-01-01T00:00:00Z")
                        empty_world) in
  let w2 := world_of (write_bookmark env "engage" (VStr "2024-02-01T00:00:00Z") w1) in
  get_bookmark (w_state empty_world) "export" (VStr "start") = Ok (VStr "start")
  /\ get_bookmark (w_state w2) "export" (VStr "start")
     = Ok (VStr "2024-01-01T00:00:00Z")
  /\ get_bookmark (w_state w2) "engage" (VStr "start")
     = Ok (VStr "2024-02-01T00:00:00Z")
  /\ get_bookmark (w_state w2) "funnels" (VStr "start") = Ok (VStr "start")
  /\ write_bookmark env "export" VNone (mk_world [] [("bookmarks", VNone)] [] [])
     = Raised TypeError (mk_world [] [("bookmarks", VNone)] [] [])
  /\ write_bookmark (sample_env_with no_client (fun _ _ => false)
                                     (fun _ => false))
                    "export" (VStr "2024-01-01T00:00:00Z") empty_world
     = Raised OSError
         (mk_world [] [("bookmarks",
                        VDict [("export", VStr "2024-01-01T00:00:00Z")])]
                   [] []).
Proof. repeat split; vm_compute; reflexivity. Qed.

Section WindowBookmark.

Variable env : collaborators.
Variable stream_name : string.
Variable cfg : endpoint_config.
Variable bookmark_field : option string.

(** A completed window of a stream with a replication key ends on
    writing the running maximum as the bookmark. *)
Lemma window_body_bookmark (fuel : nat) (last_datetime : value)
    (now_datetime days_interval : Z) (st st' : window_state) (w w' : world) :
  name_set bookmark_field = true ->
  window_body env stream_name cfg bookmark_field fuel last_datetime
              now_datetime days_interval st w = Done st' w' ->
  exists w4,
    write_bookmark env stream_name (ws_max_bookmark_value st') w4 = Done tt w'.
Proof.
  intros Hbf H. unfold window_body in H.
  apply bind_done in H. destruct H as ([] & w1 & _ & H).
  apply bind_done in H. destruct H as ([parent_data pif] & w2 & _ & H).
  apply bind_done in H. destruct H as (parents & w3 & _ & H).
  unfold window_parents in H.
  apply bind_done in H. destruct H as ([max' total] & w4 & _ & H).
  apply bind_done in H. destruct H as ([s e] & w5 & Hn & H).
  apply lift_done in Hn. destruct Hn as [_ ->].
  apply bind_done in H. destruct H as ([] & w6 & Hw & H).
  apply ret_done in H. destruct H as [-> ->]. cbn [ws_max_bookmark_value].
  rewrite Hbf in Hw. cbn [when] in Hw. now exists w4.
Qed.

(** X5: when a window of a stream with a replication key is completed, the
    running maximum it ends with is the stream's bookmark in the state,
    and that state is the last message written. *)
Theorem window_writes_running_max (fuel : nat) (last_datetime : value)
    (now_datetime days_interval : Z) (st st' : window_state) (w w' : world) :
  name_set bookmark_field = true ->
  window_body env stream_name cfg bookmark_field fuel last_datetime
              now_datetime days_interval st w = Done st' w' ->
  (forall default,
     get_bookmark (w_state w') stream_name default
     = Ok (ws_max_bookmark_value st'))
  /\ exists written_before,
       w_sink w' = (written_before ++ [StateMessage (w_state w')])%list.
Proof.
  intros Hbf H.
  destruct (window_body_bookmark _ _ _ _ _ _ _ _ Hbf H) as (w4 & Hw).
  apply write_bookmark_done in Hw. destruct Hw as [Hget Hs].
  split; [exact Hget|]. now exists (w_sink w4).
Qed.

End WindowBookmark.

Lemma window_writes_running_max_witness :
  let o := window_body (sample_env two_record_client) "export" flat_config
             (Some "time") 5 (VStr "2023-10-05T22:13:20.000000Z") now0 30
             (mk_window_state (now0 - timedelta 40) (now0 - timedelta 10)
                              None (VStr "2023-10-05T22:13:20.000000Z") 0)
             empty_world in
  (forall default,
     get_bookmark (w_state (world_of o)) "export" default
     = Ok (VStr "2023-11-09T22:13:20.000000Z"))
  /\ exists written_before,
       w_sink (world_of o)
       = (written_before ++ [StateMessage (w_state (world_of o))])%list.
Proof.
  cbv zeta.
  apply (window_writes_running_max (sample_env two_record_client) "export"
           flat_config (Some "time") 5 (VStr "2023-10-05T22:13:20.000000Z")
           now0 30
           (mk_window_state (now0 - timedelta 40) (now0 - timedelta 10)
                            None (VStr "2023-10-05T22:13:20.000000Z") 0)
           (mk_window_state (now0 - timedelta 10) now0 (Some "id")
                            (VStr "2023-11-09T22:13:20.000000Z") 2)
           empty_world).
  - reflexivity.
  - vm_compute. reflexivity.
Defined.

(** ** The effects of a run, by kind

    A property of computations that [ret], [raise], [starve] and [bind]
    respect, and that the page parameters, the batches of records, the
    requests, the cursor-range parameters and the bookmark of the stream
    have, is a property of the page loop, the parent loop and the window
    loop. *)

Section EngineClosure.

Variable good : forall A : Type, M A -> Prop.

Hypothesis good_ret : forall (A : Type) (a : A), good A (ret a).
Hypothesis good_raise : forall (A : Type) (e : exn), good A (raise e).
Hypothesis good_starve : forall A : Type, good A starve.
Hypothesis good_bind :
  forall (A B : Type) (m : M A) (f : A -> M B),
    good A m -> (forall a, good B (f a)) -> good B (bind m f).

Variable env : collaborators.
Variable stream_name : string.
Variable cfg : endpoint_config.
Variable bookmark_field : option string.
Variable last_datetime : value.

Hypothesis good_page_size : good unit (set_param "page_size" (VInt limit)).
Hypothesis good_page_mark :
  forall k v, In k ["session_id"; "page"] -> good unit (set_param k v).
Hypothesis good_batch :
  forall records max_bookmark_value,
    good (value * Z)
         (process_records env stream_name records bookmark_field
            max_bookmark_value last_datetime).
Hypothesis good_page_request :
  forall parent_id, good value (request_stream env parent_id).
Hypothesis good_parent_request :
  forall path, good value (request_data env (ParentRequest path)).
Hypothesis good_range :
  forall start_window end_window,
    good unit (set_range env cfg start_window end_window).
Hypothesis good_bookmark :
  name_set bookmark_field = true ->
  forall v, good unit (write_bookmark env stream_name v).

Lemma good_lift (A : Type) (r : result A) : good A (lift r).
Proof. destruct r; [apply good_ret | apply good_raise]. Qed.

Lemma good_lift_option (A : Type) (e : exn) (o : option A) :
  good A (lift_option e o).
Proof. destruct o; [apply good_ret | apply good_raise]. Qed.

Lemma good_when (b : bool) (m : M unit) : good unit m -> good unit (when b m).
Proof. destruct b; [trivial | intros _; apply good_ret]. Qed.

Ltac closure_step :=
  lazymatch goal with
  | |- good _ (ret _) => apply good_ret
  | |- good _ (raise _) => apply good_raise
  | |- good _ starve => apply good_starve
  | |- good _ (lift _) => apply good_lift
  | |- good _ (lift_option _ _) => apply good_lift_option
  | |- good _ (process_records _ _ _ _ _ _) => apply good_batch
  | |- good _ (request_stream _ _) => apply good_page_request
  | |- good _ (request_data _ (ParentRequest _)) => apply good_parent_request
  | |- good _ (set_range _ _ _ _) => apply good_range
  | |- good _ (set_param "page_size" _) => apply good_page_size
  | |- good _ (set_param _ _) => apply good_page_mark; cbn [In]; tauto
  | |- good _ (when (name_set bookmark_field) (write_bookmark _ _ _)) =>
      let E := fresh "E" in
      destruct (Bool.bool_dec (name_set bookmark_field) true) as [E|E];
      [ rewrite E; apply (good_bookmark E)
      | apply not_true_is_false in E; rewrite E; apply good_ret ]
  | |- good _ (when _ _) => apply good_when
  | |- good _ (bind _ _) => apply good_bind; [|intros ?]
  | |- good _ (match ?x with (_, _) => _ end) => destruct x
  | |- good _ (if ?b then _ else _) => destruct b
  end.

Ltac closure := repeat closure_step.

Lemma page_data_closure (parent_record data : value) (st : page_state) :
  good _ (page_data env stream_name cfg bookmark_field
            last_datetime parent_record data st).
Proof.
  unfold page_data. closure.
  unfold handle_records. closure.
Qed.

Lemma page_loop_closure (fuel : nat) :
  forall parent_record parent_id st,
    good _ (page_loop env stream_name cfg bookmark_field fuel
              last_datetime parent_record parent_id st).
Proof.
  induction fuel as [|fuel IH]; intros parent_record parent_id st;
    cbn [page_loop]; closure; [|apply IH].
  unfold page_body, page_params. closure. apply page_data_closure.
Qed.

Lemma parent_loop_closure (fuel : nat)
    (parent_id_field : option string) (parent_data : list value) :
  forall max0 total,
    good _ (parent_loop env stream_name cfg bookmark_field fuel
              last_datetime parent_id_field parent_data max0 total).
Proof.
  induction parent_data as [|parent_record rest IH]; intros max0 total;
    cbn [parent_loop]; closure; [apply page_loop_closure | apply IH].
Qed.

Lemma window_body_closure (fuel : nat)
    (now_datetime days_interval : Z) (st : window_state) :
  good _ (window_body env stream_name cfg bookmark_field fuel
            last_datetime now_datetime days_interval st).
Proof.
  unfold window_body. closure.
  - unfold resolve_parents. destruct (parent_path cfg); closure.
  - unfold window_parents. closure. apply parent_loop_closure.
Qed.

Lemma window_loop_closure (fuel_left : nat) :
  forall fuel now_datetime days_interval st,
    good _ (window_loop env stream_name cfg bookmark_field fuel_left fuel
              last_datetime now_datetime days_interval st).
Proof.
  induction fuel_left as [|fuel_left IH];
    intros fuel now_datetime days_interval st;
    cbn [window_loop]; closure;
    [apply window_body_closure | apply IH].
Qed.

End EngineClosure.

(** The case of a preorder on worlds that every step respects. *)

Section EngineEffects.

Variable R : world -> world -> Prop.
Hypothesis R_refl : forall w, R w w.
Hypothesis R_trans : forall w1 w2 w3, R w1 w2 -> R w2 w3 -> R w1 w3.

Variable env : collaborators.
Variable stream_name : string.
Variable cfg : endpoint_config.
Variable bookmark_field : option string.
Variable last_datetime : value.

Hypothesis R_page_param :
  forall k v, In k pagination_keys -> preserves R (set_param k v).
Hypothesis R_batch :
  forall records max_bookmark_value,
    preserves R (process_records env stream_name records bookmark_field
                   max_bookmark_value last_datetime).
Hypothesis R_page_request :
  forall parent_id, preserves R (request_stream env parent_id).
Hypothesis R_parent_request :
  forall path, preserves R (request_data env (ParentRequest path)).
Hypothesis R_range :
  forall start_window end_window,
    preserves R (set_range env cfg start_window end_window).
Hypothesis R_bookmark :
  name_set bookmark_field = true ->
  forall v, preserves R (write_bookmark env stream_name v).

Lemma parent_loop_effects (fuel : nat)
    (parent_id_field : option string) (parent_data : list value)
    (max0 : value) (total : Z) :
  preserves R (parent_loop env stream_name cfg bookmark_field fuel
                 last_datetime parent_id_field parent_data max0 total).
Proof.
  apply (parent_loop_closure (fun A m => preserves R m)); cbv beta;
    try assumption; intros.
  - now apply preserves_ret.
  - now apply preserves_raise.
  - now apply preserves_starve.
  - now apply (preserves_bind R R_trans).
  - apply R_page_param. cbn. auto.
  - apply R_page_param. cbn in *. tauto.
Qed.

Lemma window_loop_effects (fuel_left fuel : nat)
    (now_datetime days_interval : Z) (st : window_state) :
  preserves R (window_loop env stream_name cfg bookmark_field fuel_left fuel
                 last_datetime now_datetime days_interval st).
Proof.
  apply (window_loop_closure (fun A m => preserves R m)); cbv beta;
    try assumption; intros.
  - now apply preserves_ret.
  - now apply preserves_raise.
  - now apply preserves_starve.
  - now apply (preserves_bind R R_trans).
  - apply R_page_param. cbn. auto.
  - apply R_page_param. cbn in *. tauto.
Qed.

End EngineEffects.

(** ** What a run writes *)

Lemma last_state_app (msgs1 msgs2 : list message) (state : dict) :
  last_state (msgs1 ++ msgs2) state = last_state msgs2 (last_state msgs1 state).
Proof. unfold last_state. apply fold_left_app. Qed.

Lemma run_trace_refl (stream_name : string) (bookmark_field : option string)
    (w : world) :
  run_trace stream_name bookmark_field w w.
Proof.
  exists []. rewrite app_nil_r. repeat split. constructor.
Qed.

Lemma run_trace_trans (stream_name : string) (bookmark_field : option string)
    (w1 w2 w3 : world) :
  run_trace stream_name bookmark_field w1 w2 ->
  run_trace stream_name bookmark_field w2 w3 ->
  run_trace stream_name bookmark_field w1 w3.
Proof.
  intros (m1 & S1 & F1 & L1 & K1) (m2 & S2 & F2 & L2 & K2).
  exists (m1 ++ m2)%list. split; [rewrite S2, S1; symmetry; apply app_assoc|].
  split; [apply Forall_app; now split|].
  split; [intros Hbf; now rewrite L2, L1|].
  intros k Hk. now rewrite K2, K1.
Qed.

(** A step that leaves the sink and the state alone. *)
Lemma run_trace_same (stream_name : string) (bookmark_field : option string)
    (w w' : world) :
  w_sink w' = w_sink w -> w_state w' = w_state w ->
  run_trace stream_name bookmark_field w w'.
Proof.
  intros Hs Hst. exists []. rewrite app_nil_r, Hst. repeat split.
  - exact Hs.
  - constructor.
Qed.

Lemma emitted_since_app (w w' : world) (msgs : list message) :
  w_sink w' = (w_sink w ++ msgs)%list -> emitted_since w w' = msgs.
Proof. intros H. unfold emitted_since. rewrite H. apply skipn_app_exact. Qed.

Lemma last_state_quiet (msgs : list message) (state : dict) :
  Forall (fun m => forall s, m <> StateMessage s) msgs ->
  last_state msgs state = state.
Proof.
  unfold last_state. revert state.
  induction msgs as [|m msgs IH]; intros state H; [reflexivity|].
  inversion H as [|? ? Hm Hrest]; subst. cbn [fold_left].
  destruct m as [| |s]; try (now apply IH).
  now contradiction (Hm s).
Qed.

Lemma last_state_records (stream_name : string) (rs : list dict) (state : dict) :
  last_state (map (RecordMessage stream_name) rs) state = state.
Proof.
  apply last_state_quiet. apply Forall_forall. intros m Hm s ->.
  apply in_map_iff in Hm. destruct Hm as (r & Hr & _). discriminate Hr.
Qed.

Section RunTrace.

Variable env : collaborators.
Variable stream_name : string.
Variable cfg : endpoint_config.
Variable bookmark_field : option string.

#[local] Abbreviation trace := (run_trace stream_name bookmark_field).

Lemma request_data_trace (r : request) : preserves trace (request_data env r).
Proof.
  intros w. unfold request_data.
  destruct (client_request env (w_calls w) r); now apply run_trace_same.
Qed.

Lemma write_bookmark_trace (v : value) :
  name_set bookmark_field = true ->
  preserves trace (write_bookmark env stream_name v).
Proof.
  intros Hbf w.
  destruct (write_bookmark_outcome env stream_name v w)
    as [(b & _ & _ & ->)|(state' & -> & _ & _ & Hkeys)];
    [apply run_trace_refl|].
  destruct (singer_write env (w_sink w) (StateMessage state'));
    cbn [world_of].
  - exists [StateMessage state']. cbn [written with_state w_sink w_state].
    split; [reflexivity|]. split; [constructor; [exact Hbf | constructor]|].
    split; [congruence | exact Hkeys].
  - exists []. cbn [with_state w_sink w_state]. rewrite app_nil_r.
    split; [reflexivity|]. split; [constructor|].
    split; [congruence | exact Hkeys].
Qed.

Lemma process_records_trace (records : list value)
    (max_bookmark_value last_datetime : value) :
  preserves trace (process_records env stream_name records bookmark_field
                     max_bookmark_value last_datetime).
Proof.
  intros w.
  destruct (process_records_sink env stream_name bookmark_field
              last_datetime records max_bookmark_value w)
    as (trs & _ & Hs & _ & Hst & _).
  eexists. split; [exact Hs|]. split; [|split; [intros _; exact Hst|]].
  - apply Forall_forall. intros m Hm. apply in_map_iff in Hm.
    destruct Hm as (r & <- & _). reflexivity.
  - intros k _. now rewrite Hst.
Qed.

Lemma window_loop_trace (fuel_left fuel : nat) (last_datetime : value)
    (now_datetime days_interval : Z) (st : window_state) :
  preserves trace
    (window_loop env stream_name cfg bookmark_field fuel_left fuel
                 last_datetime now_datetime days_interval st).
Proof.
  apply window_loop_effects.
  - apply run_trace_refl.
  - apply run_trace_trans.
  - intros k v _ w. now apply run_trace_same.
  - intros records max_bookmark_value. apply process_records_trace.
  - intros parent_id w. unfold request_stream, bind, get_params.
    apply request_data_trace.
  - intros path. apply request_data_trace.
  - intros s e w. destruct (set_range_done env cfg s e w) as (_ & _ & Hs & Hst).
    now apply run_trace_same.
  - intros Hbf v. now apply write_bookmark_trace.
Qed.

(** Either [sync_endpoint] stops before anything is written - on the
    bookmark, on a stream that the catalog does not have, or on an output
    that does not take the schema - or the schema was written, and then
    messages of the stream only. *)
Lemma sync_endpoint_trace (project_timezone : value) (fuel : nat)
    (start_date : value) (now_datetime days_interval attribution_window : Z)
    (w : world) :
  let o := sync_endpoint env stream_name cfg bookmark_field project_timezone
             fuel start_date now_datetime days_interval attribution_window w in
  (exists e,
     o = Raised e w
     /\ (get_bookmark (w_state w) stream_name start_date = Err e
         \/ (catalog_get_stream env stream_name = false
             /\ e = AttributeError)
         \/ (catalog_get_stream env stream_name = true
             /\ singer_write env (w_sink w) (SchemaMessage stream_name) = false
             /\ e = OSError)))
  \/ (exists last_datetime,
        get_bookmark (w_state w) stream_name start_date = Ok last_datetime
        /\ catalog_get_stream env stream_name = true
        /\ singer_write env (w_sink w) (SchemaMessage stream_name) = true
        /\ trace (written w (SchemaMessage stream_name)) (world_of o)).
Proof.
  cbv zeta. rewrite sync_endpoint_eq.
  destruct (get_bookmark (w_state w) stream_name start_date)
    as [last_datetime|e]; [|left; exists e; split; [reflexivity | now left]].
  destruct (catalog_get_stream env stream_name);
    [|left; exists AttributeError; split; [reflexivity | right; left; now split]].
  destruct (singer_write env (w_sink w) (SchemaMessage stream_name));
    [|left; exists OSError; split; [reflexivity | right; right; now repeat split]].
  right. exists last_datetime. repeat (split; [reflexivity|]). cbv zeta.
  destruct (pytz_timezone env project_timezone); [|apply run_trace_refl].
  destruct (strptime_to_utc env last_datetime) as [last_dttm|];
    [|apply run_trace_refl].
  destruct (plan_windows (ranged cfg) now_datetime last_dttm days_interval
              attribution_window) as [p|e]; [|apply run_trace_refl].
  pose proof (window_loop_trace fuel fuel last_datetime now_datetime
                (pw_days_interval p)
                (mk_window_state (pw_start p) (pw_end p)
                   (parent_id_field cfg) last_datetime 0)
                (written w (SchemaMessage stream_name))) as T.
  destruct (window_loop env stream_name cfg bookmark_field fuel fuel
              last_datetime now_datetime _ _ _) as [st' w'|e w'|w'];
    exact T.
Qed.

(** X6: [sync_endpoint] on a stream without a replication key never
    touches the state and writes no state message, whatever its outcome. *)
Theorem no_replication_key_no_state (project_timezone : value) (fuel : nat) (start_date : value)
    (now_datetime days_interval attribution_window : Z) (w : world) :
  name_set bookmark_field = false ->
  let w' := world_of (sync_endpoint env stream_name cfg bookmark_field project_timezone fuel
                        start_date now_datetime days_interval
                        attribution_window w) in
  w_state w' = w_state w
  /\ forall state, ~ In (StateMessage state) (emitted_since w w').
Proof.
  intros Hbf. cbv zeta.
  destruct (sync_endpoint_trace project_timezone fuel start_date now_datetime
              days_interval attribution_window w)
    as [(e & -> & _)|(last_datetime & _ & _ & _ & msgs & Hs & Hall & Hst & _)];
    cbn [world_of].
  - split; [reflexivity|]. intros state.
    unfold emitted_since. now rewrite skipn_all.
  - cbn [written w_sink w_state] in Hs, Hst.
    assert (Hq : Forall (fun m => forall s, m <> StateMessage s) msgs).
    { eapply Forall_impl; [|exact Hall]. intros m Hm s ->.
      cbn in Hm. congruence. }
    split; [exact (Hst Hbf)|].
    intros state Hin. rewrite <- app_assoc in Hs.
    rewrite (emitted_since_app _ _ _ Hs) in Hin.
    destruct Hin as [Hin|Hin]; [discriminate Hin|].
    rewrite Forall_forall in Hq. exact (Hq _ Hin state eq_refl).
Qed.

(** X7: whatever its outcome, [sync_endpoint] either stops with nothing
    written and the world as it was - on reading the bookmark, with
    [AttributeError] on a stream that the catalog does not have, or with
    [OSError] on an output that does not take the schema - or finds the
    stream in the catalog and writes its schema first and once, and after
    it only records of this stream and state messages. *)
Theorem sync_endpoint_output (project_timezone : value) (fuel : nat) (start_date : value)
    (now_datetime days_interval attribution_window : Z) (w : world) :
  let o := sync_endpoint env stream_name cfg bookmark_field project_timezone fuel start_date
             now_datetime days_interval attribution_window w in
  (exists e,
     o = Raised e w
     /\ (get_bookmark (w_state w) stream_name start_date = Err e
         \/ (catalog_get_stream env stream_name = false
             /\ e = AttributeError)
         \/ (catalog_get_stream env stream_name = true
             /\ singer_write env (w_sink w) (SchemaMessage stream_name) = false
             /\ e = OSError)))
  \/ (catalog_get_stream env stream_name = true
      /\ singer_write env (w_sink w) (SchemaMessage stream_name) = true
      /\ exists msgs,
           emitted_since w (world_of o) = SchemaMessage stream_name :: msgs
           /\ Forall (fun m => (exists record, m = RecordMessage stream_name record)
                               \/ (exists state, m = StateMessage state)) msgs).
Proof.
  cbv zeta.
  destruct (sync_endpoint_trace project_timezone fuel start_date now_datetime
              days_interval attribution_window w)
    as [He|(last_datetime & _ & Hc & Hw & msgs & Hs & Hall & _)]; [now left|].
  right. split; [exact Hc|]. split; [exact Hw|].
  exists msgs. cbn [written w_sink] in Hs. rewrite <- app_assoc in Hs.
  split; [exact (emitted_since_app _ _ _ Hs)|].
  eapply Forall_impl; [|exact Hall].
  intros [s|s record|state] Hm; cbn in Hm; [contradiction | subst s | ]; eauto.
Qed.

End RunTrace.

(** ** The state and the output in step *)

Lemma written_through_refl (w : world) : written_through w w.
Proof. exists []. now rewrite app_nil_r. Qed.

Lemma written_through_trans (w1 w2 w3 : world) :
  written_through w1 w2 -> written_through w2 w3 -> written_through w1 w3.
Proof.
  intros (m1 & S1 & L1) (m2 & S2 & L2). exists (m1 ++ m2)%list.
  split; [rewrite S2, S1; symmetry; apply app_assoc|].
  now rewrite last_state_app, <- L1.
Qed.

Lemma written_through_same (w w' : world) :
  w_sink w' = w_sink w -> w_state w' = w_state w -> written_through w w'.
Proof. intros Hs Hst. exists []. now rewrite app_nil_r. Qed.

Section InStep.

Variable env : collaborators.

Lemma in_step_ret (A : Type) (a : A) : in_step env (ret a).
Proof. intros w. left. apply written_through_refl. Qed.

Lemma in_step_raise (A : Type) (e : exn) : in_step env (@raise A e).
Proof. intros w. left. apply written_through_refl. Qed.

Lemma in_step_starve (A : Type) : in_step env (@starve A).
Proof. intros w. left. apply written_through_refl. Qed.

Lemma in_step_bind (A B : Type) (m : M A) (f : A -> M B) :
  in_step env m -> (forall a, in_step env (f a)) -> in_step env (bind m f).
Proof.
  intros Hm Hf w. unfold bind. specialize (Hm w).
  destruct (m w) as [a w1|e w1|w1]; cbn [world_of] in *.
  2: { destruct Hm as [Hm|(w' & Hm & Hf')]; [now left | right].
       exists w'. split; [congruence | exact Hf']. }
  2: { destruct Hm as [Hm|(w' & Hm & _)]; [now left | discriminate Hm]. }
  destruct Hm as [Hm|(w' & Hm & _)]; [|discriminate Hm].
  destruct (Hf a w1) as [H|H]; [left | right; exact H].
  exact (written_through_trans _ _ _ Hm H).
Qed.

(** A computation that leaves the sink and the state alone. *)
Lemma in_step_same (A : Type) (m : M A) :
  (forall w, w_sink (world_of (m w)) = w_sink w
             /\ w_state (world_of (m w)) = w_state w) ->
  in_step env m.
Proof. intros H w. left. now apply written_through_same; apply H. Qed.

Lemma in_step_request_data (r : request) : in_step env (request_data env r).
Proof.
  apply in_step_same. intros w. unfold request_data.
  now destruct (client_request env (w_calls w) r).
Qed.

Lemma in_step_process_records (stream_name : string) (records : list value)
    (bookmark_field : option string) (max_bookmark_value last_datetime : value) :
  in_step env (process_records env stream_name records bookmark_field
                 max_bookmark_value last_datetime).
Proof.
  intros w. left.
  destruct (process_records_sink env stream_name bookmark_field
              last_datetime records max_bookmark_value w)
    as (trs & _ & Hs & _ & Hst & _).
  eexists. split; [exact Hs|]. now rewrite last_state_records.
Qed.

(** [write_bookmark] changes the state and then writes it: the two part
    ways when the write fails. *)
Lemma in_step_write_bookmark (stream : string) (v : value) :
  in_step env (write_bookmark env stream v).
Proof.
  intros w.
  destruct (write_bookmark_outcome env stream v w)
    as [(b & _ & _ & ->)|(state' & -> & _)];
    [left; apply written_through_refl|].
  destruct (singer_write env (w_sink w) (StateMessage state')) eqn:E.
  - left. exists [StateMessage state']. now split.
  - right. exists (with_state w state'). split; [reflexivity | exact E].
Qed.

Lemma in_step_window_loop (stream_name : string) (cfg : endpoint_config)
    (bookmark_field : option string) (fuel_left fuel : nat)
    (last_datetime : value) (now_datetime days_interval : Z)
    (st : window_state) :
  in_step env (window_loop env stream_name cfg bookmark_field fuel_left fuel
                 last_datetime now_datetime days_interval st).
Proof.
  apply (window_loop_closure (fun A m => in_step env m)); cbv beta; intros.
  - apply in_step_ret.
  - apply in_step_raise.
  - apply in_step_starve.
  - now apply in_step_bind.
  - now apply in_step_same.
  - now apply in_step_same.
  - apply in_step_process_records.
  - unfold request_stream. apply in_step_bind; [now apply in_step_same|].
    intros ps. apply in_step_request_data.
  - apply in_step_request_data.
  - apply in_step_same. intros w.
    now destruct (set_range_done env cfg start_window end_window w)
      as (_ & _ & Hs & Hst).
  - apply in_step_write_bookmark.
Qed.

(** X8: the state is written through, up to a failing write. Whatever
    the outcome of [sync_endpoint], the state in memory differs from the
    state it started with in its [bookmarks] entry at most, and it is the
    one of the last state message written (the state it started with when
    it wrote none) - unless the run stopped with [OSError] on an output
    that did not take the state, which [write_bookmark] had changed in
    memory before it wrote it. *)
Theorem state_write_through (stream_name : string) (cfg : endpoint_config)
    (bookmark_field : option string) (project_timezone : value) (fuel : nat)
    (start_date : value) (now_datetime days_interval attribution_window : Z)
    (w : world) :
  let o := sync_endpoint env stream_name cfg bookmark_field project_timezone
             fuel start_date now_datetime days_interval attribution_window w in
  let w' := world_of o in
  (w_state w' = last_state (emitted_since w w') (w_state w)
   \/ (o = Raised OSError w'
       /\ singer_write env (w_sink w') (StateMessage (w_state w')) = false))
  /\ forall k, k <> "bookmarks" ->
       dict_get (w_state w') k = dict_get (w_state w) k.
Proof.
  cbv zeta. split.
  - rewrite sync_endpoint_eq.
    assert (Hq : forall w0, w_state w0 = last_state (emitted_since w0 w0) (w_state w0)).
    { intros w0. unfold emitted_since. now rewrite skipn_all. }
    assert (H1 : w_state (written w (SchemaMessage stream_name))
                 = last_state (emitted_since w (written w (SchemaMessage stream_name)))
                              (w_state w)).
    { now rewrite (emitted_since_app w _ [SchemaMessage stream_name]). }
    destruct (get_bookmark (w_state w) stream_name start_date)
      as [last_datetime|e]; [|left; apply Hq].
    destruct (catalog_get_stream env stream_name); [|left; apply Hq].
    destruct (singer_write env (w_sink w) (SchemaMessage stream_name));
      [|left; apply Hq].
    cbv zeta.
    destruct (pytz_timezone env project_timezone); [|left; exact H1].
    destruct (strptime_to_utc env last_datetime) as [last_dttm|];
      [|left; exact H1].
    destruct (plan_windows (ranged cfg) now_datetime last_dttm days_interval
                attribution_window) as [p|e]; [|left; exact H1].
    destruct (in_step_window_loop stream_name cfg bookmark_field fuel fuel
                last_datetime now_datetime (pw_days_interval p)
                (mk_window_state (pw_start p) (pw_end p)
                   (parent_id_field cfg) last_datetime 0)
                (written w (SchemaMessage stream_name)))
      as [(msgs & Hs & Hst)|(w' & Hr & Hf)].
    + left.
      assert (He : emitted_since w
                     (world_of (window_loop env stream_name cfg bookmark_field
                                  fuel fuel last_datetime now_datetime
                                  (pw_days_interval p)
                                  (mk_window_state (pw_start p) (pw_end p)
                                     (parent_id_field cfg) last_datetime 0)
                                  (written w (SchemaMessage stream_name))))
                   = SchemaMessage stream_name :: msgs).
      { apply emitted_since_app. rewrite Hs. cbn [written w_sink].
        now rewrite <- app_assoc. }
      destruct (window_loop env stream_name cfg bookmark_field fuel fuel
                  last_datetime now_datetime _ _ _) as [st' w'|e w'|w'];
        cbn [world_of] in *; rewrite He; exact Hst.
    + right. rewrite Hr. cbn [world_of]. split; [reflexivity | exact Hf].
  - destruct (sync_endpoint_trace env stream_name cfg bookmark_field
                project_timezone fuel start_date now_datetime days_interval
                attribution_window w)
      as [(e & -> & _)|(last_datetime & _ & _ & _ & msgs & _ & _ & _ & Hkeys)];
      [reflexivity | exact Hkeys].
Qed.

End InStep.

(** ** The cutoff over a run *)

Lemma records_filtered_refl (env : collaborators) (stream_name : string)
    (bookmark_field : option string) (last_datetime : value) (w : world) :
  records_filtered env stream_name bookmark_field last_datetime w w.
Proof. exists []. rewrite app_nil_r. split; [reflexivity | constructor]. Qed.

Lemma records_filtered_trans (env : collaborators) (stream_name : string)
    (bookmark_field : option string) (last_datetime : value)
    (w1 w2 w3 : world) :
  records_filtered env stream_name bookmark_field last_datetime w1 w2 ->
  records_filtered env stream_name bookmark_field last_datetime w2 w3 ->
  records_filtered env stream_name bookmark_field last_datetime w1 w3.
Proof.
  intros (m1 & S1 & F1) (m2 & S2 & F2). exists (m1 ++ m2)%list.
  split; [rewrite S2, S1; symmetry; apply app_assoc|].
  apply Forall_app. now split.
Qed.

(** A step that leaves the sink alone. *)
Lemma records_filtered_same (env : collaborators) (stream_name : string)
    (bookmark_field : option string) (last_datetime : value) (w w' : world) :
  w_sink w' = w_sink w ->
  records_filtered env stream_name bookmark_field last_datetime w w'.
Proof.
  intros Hs. exists []. rewrite app_nil_r. split; [exact Hs | constructor].
Qed.

Section Cutoff.

Variable env : collaborators.
Variable stream_name : string.
Variable cfg : endpoint_config.
Variable bookmark_field : option string.

#[local] Abbreviation T := (transform_datetime env).
#[local] Abbreviation cursor tr := (record_get tr bookmark_field).

(** Every batch of every window is filtered against the checkpoint that
    the window loop was entered with. *)
Lemma window_loop_filtered (fuel_left fuel : nat) (last_datetime : value)
    (now_datetime days_interval : Z) (st : window_state) :
  preserves (records_filtered env stream_name bookmark_field last_datetime)
    (window_loop env stream_name cfg bookmark_field fuel_left fuel
                 last_datetime now_datetime days_interval st).
Proof.
  apply window_loop_effects.
  - apply records_filtered_refl.
  - apply records_filtered_trans.
  - intros k v _ w. now apply records_filtered_same.
  - intros records max_bookmark_value w.
    destruct (process_records_sink env stream_name bookmark_field
                last_datetime records max_bookmark_value w)
      as (trs & _ & Hs & _).
    eexists. split; [exact Hs|]. apply Forall_forall. intros m Hm.
    apply in_map_iff in Hm. destruct Hm as (tr & <- & Hin).
    apply filter_In in Hin. now split.
  - intros parent_id w. unfold request_stream, bind, get_params, request_data.
    destruct (client_request env (w_calls w) _);
      now apply records_filtered_same.
  - intros path w. unfold request_data.
    destruct (client_request env (w_calls w) _);
      now apply records_filtered_same.
  - intros s e w. destruct (set_range_done env cfg s e w) as (_ & _ & Hs & _).
    now apply records_filtered_same.
  - intros _ v w.
    destruct (write_bookmark_outcome env stream_name v w)
      as [(b & _ & _ & ->)|(state' & -> & _)];
      [apply records_filtered_refl|].
    destruct (singer_write env (w_sink w) (StateMessage state'));
      cbn [world_of]; [|now apply records_filtered_same].
    exists [StateMessage state']. split; [reflexivity|].
    constructor; [exact I | constructor].
Qed.


End Cutoff.



Lemma no_replication_key_no_state_witness :
  let w := mk_world [] [("currently_syncing", VStr "engage")] [] [] in
  let w' := world_of (sync_endpoint (sample_env (paging_client 600)) "engage"
                        paged_config None (VStr "UTC") 10 (VStr "2023-10-05T22:13:20Z")
                        now0 30 5 w) in
  w_state w' = w_state w
  /\ forall state, ~ In (StateMessage state) (emitted_since w w').
Proof.
  apply (no_replication_key_no_state (sample_env (paging_client 600)) "engage"
           paged_config None (VStr "UTC") 10 (VStr "2023-10-05T22:13:20Z") now0 30 5
           (mk_world [] [("currently_syncing", VStr "engage")] [] [])).
  reflexivity.
Defined.

(** Two windows of a stream with a replication key: the schema, the
    records of the first window and its bookmark, the records of the
    second and its bookmark. *)
Example sync_endpoint_output_run :
  let w' := world_of (sync_endpoint (sample_env two_record_client) "export"
                        flat_config (Some "time") (VStr "UTC") 10
                        (VStr "2023-11-01T00:00:00.000000Z") now0 30 5
                        empty_world) in
  map (fun m => match m with
                | SchemaMessage _ => "schema"
                | RecordMessage _ _ => "record"
                | StateMessage _ => "state"
                end) (w_sink w')
  = ["schema"; "record"; "state"; "record"; "state"]
  /\ w_state w'
     = [("bookmarks", VDict [("export", VStr "2023-11-09T22:13:20.000000Z")])].
Proof. split; vm_compute; reflexivity. Qed.

(** ** The bookmark over a run *)

Section BookmarkProgress.

Variable env : collaborators.
Variable stream_name : string.
Variable cfg : endpoint_config.
Variable bookmark_field : option string.

(** After a run of at least one window of a stream with a replication
    key, the bookmark in the state is the running maximum. *)
Lemma window_run_bookmark (fuel : nat) (last_datetime : value)
    (now_datetime days_interval : Z) (ws : list (Z * Z))
    (st : window_state) (w : world) (st' : window_state) (w' : world) :
  name_set bookmark_field = true ->
  window_run env stream_name cfg bookmark_field fuel last_datetime
             now_datetime days_interval ws st w st' w' ->
  ws <> [] ->
  forall default,
    get_bookmark (w_state w') stream_name default
    = Ok (ws_max_bookmark_value st').
Proof.
  intros Hbf Hr.
  induction Hr as [|ws st w st1 w1 st' w' Hb Hr IH]; [contradiction|].
  intros _ default. destruct ws as [|next ws].
  - inversion Hr; subst.
    destruct (window_body_bookmark env stream_name cfg bookmark_field
                _ _ _ _ _ _ _ _ Hbf Hb) as (w4 & Hw).
    apply (write_bookmark_done env stream_name _ _ _ Hw).
  - apply IH. discriminate.
Qed.

(** The schema transform leaves cursor values in the normalised form. *)
Hypothesis cursors_normalised :
  forall r tr, singer_transform env r = Some tr ->
               normalised env (record_get tr bookmark_field).

(** X9: the bookmark does not go back. When [sync_endpoint] returns for a
    stream with a replication key, either no window was visited and the
    state is as before, or the stream's bookmark in the state is a value
    that is not before the bookmark the run started from (the cursor
    values being in the form that the schema transform leaves). *)
Theorem bookmark_never_goes_back (project_timezone : value) (fuel : nat) (start_date : value)
    (now_datetime days_interval attribution_window : Z)
    (w : world) (total : Z) (w' : world) :
  name_set bookmark_field = true ->
  sync_endpoint env stream_name cfg bookmark_field project_timezone fuel start_date
                now_datetime days_interval attribution_window w
  = Done total w' ->
  exists last_datetime,
    get_bookmark (w_state w) stream_name start_date = Ok last_datetime
    /\ (w_state w' = w_state w
        \/ exists v,
             (forall default,
                get_bookmark (w_state w') stream_name default = Ok v)
             /\ dt_le env last_datetime v).
Proof.
  intros Hbf H. rewrite sync_endpoint_eq in H.
  destruct (get_bookmark (w_state w) stream_name start_date)
    as [last_datetime|]; [|discriminate].
  exists last_datetime. split; [reflexivity|].
  destruct (catalog_get_stream env stream_name); [|discriminate].
  destruct (singer_write env (w_sink w) (SchemaMessage stream_name));
    [|discriminate].
  cbv zeta in H.
  destruct (pytz_timezone env project_timezone); [|discriminate].
  destruct (strptime_to_utc env last_datetime) as [last_dttm|]; [|discriminate].
  destruct (plan_windows (ranged cfg) now_datetime last_dttm days_interval
              attribution_window) as [p|]; [|discriminate].
  destruct (window_loop env stream_name cfg bookmark_field fuel fuel
              last_datetime now_datetime _ _ _) as [st' w1| |] eqn:El;
    try discriminate.
  injection H as _ <-.
  apply window_loop_visits in El. destruct El as (ws & _ & Hr & _).
  destruct ws as [|first ws].
  - left. inversion Hr; subst. reflexivity.
  - right. exists (ws_max_bookmark_value st'). split.
    + eapply window_run_bookmark; [exact Hbf | exact Hr | discriminate].
    + apply (window_run_max env stream_name cfg bookmark_field last_datetime
               cursors_normalised) in Hr.
      exact Hr.
Qed.

End BookmarkProgress.

Lemma bookmark_never_goes_back_witness :
  let env := strict_env two_record_client in
  let w := mk_world [] [("bookmarks",
                         VDict [("export", VStr "2023-11-01T00:00:00.000000Z")])]
                    [] [] in
  let w' := world_of (sync_endpoint env "export" flat_config (Some "time") (VStr "UTC") 10
                        (VStr "2023-10-05T22:13:20.000000Z") now0 30 5 w) in
  exists last_datetime,
    get_bookmark (w_state w) "export" (VStr "2023-10-05T22:13:20.000000Z")
    = Ok last_datetime
    /\ (w_state w' = w_state w
        \/ exists v,
             (forall default, get_bookmark (w_state w') "export" default = Ok v)
             /\ dt_le env last_datetime v).
Proof.
  assert (Hn : forall r tr,
            singer_transform (strict_env two_record_client) r = Some tr ->
            normalised (strict_env two_record_client)
                       (record_get tr (Some "time"))).
  { intros r tr H. unfold strict_env in H. cbn [singer_transform] in H.
    destruct r as [| | | | |d]; try discriminate H.
    destruct (record_get d (Some "time")) as [| | |s| |] eqn:E;
      try discriminate H; injection H as <-; rewrite E;
      unfold normalised, transform_datetime; cbn.
    - split; [discriminate | reflexivity].
    - destruct (String.eqb s ""); cbn; split;
        try discriminate; try reflexivity.
      intros _. now exists s. }
  apply (bookmark_never_goes_back (strict_env two_record_client) "export"
           flat_config (Some "time") Hn (VStr "UTC") 10
           (VStr "2023-10-05T22:13:20.000000Z") now0 30 5
           (mk_world [] [("bookmarks",
                          VDict [("export", VStr "2023-11-01T00:00:00.000000Z")])]
                     [] [])
           2).
  - reflexivity.
  - vm_compute. reflexivity.
Defined.

(** ** Pagination driver: empty pages, the running total, the session id *)

Section Paging.

Variable env : collaborators.
Variable stream_name : string.
Variable cfg : endpoint_config.
Variable bookmark_field : option string.
Variable last_datetime : value.
Variable parent_record parent_id : value.

#[local] Abbreviation body :=
  (page_body env stream_name cfg bookmark_field last_datetime
             parent_record parent_id).
#[local] Abbreviation loop fuel :=
  (page_loop env stream_name cfg bookmark_field fuel last_datetime
             parent_record parent_id).
#[local] Abbreviation run :=
  (page_run env stream_name cfg bookmark_field last_datetime
            parent_record parent_id).

(** The first page sends the parameters as they are. *)
Lemma page_params_first (max0 : value) (total0 : Z) (w : world) :
  page_params cfg (first_page max0 total0) w = Done tt w.
Proof.
  unfold page_params, when. cbn [page first_page Z.eqb negb].
  now rewrite andb_false_r.
Qed.

(** A response without the data key holds no records (lines 261 and
    275-279). *)
Lemma missing_data_key_no_records (k : string) (d : dict) :
  data_key cfg = Some k -> k <> "." -> dict_has d k = false ->
  standardize cfg (VDict d) = Ok (VDict d)
  /\ select_records env cfg (VDict d) parent_record = Ok [].
Proof.
  intros Hk Hdot Hhas. unfold standardize, select_records. rewrite Hk.
  cbn [py_in record_has result_bind]. rewrite Hhas.
  apply String.eqb_neq in Hdot. rewrite Hdot.
  split; [now destruct (date_dictionary cfg) | reflexivity].
Qed.

(** A page without records leaves the page state as it was. *)
Lemma page_data_without_records (data : value) (st : page_state) (w : world) :
  truthy data = false
  \/ (exists data',
        standardize cfg data = Ok data'
        /\ select_records env cfg data' parent_record = Ok []) ->
  page_data env stream_name cfg bookmark_field last_datetime parent_record
            data st w
  = Done st w.
Proof.
  unfold page_data. intros [Hd|(data' & Hs & Hsel)].
  - now rewrite Hd.
  - destruct (negb (truthy data)); [reflexivity|].
    unfold bind. rewrite Hs. cbn [lift]. unfold ret. rewrite Hsel. reflexivity.
Qed.

(** X10: when the first page of a parent comes back empty, without the
    data key, or without records under it, the page loop ends after that
    one request: nothing is written, the running maximum and the running
    total are as before. *)
Theorem page_without_records_ends_paging (fuel : nat) (max0 : value)
    (total0 : Z) (data : value) (w : world) :
  let r := StreamRequest (w_params w) parent_id in
  client_request env (w_calls w) r = Some data ->
  (truthy data = false
   \/ (exists k d, data_key cfg = Some k /\ k <> "." /\ data = VDict d
                   /\ dict_has d k = false)
   \/ (exists data',
         standardize cfg data = Ok data'
         /\ select_records env cfg data' parent_record = Ok [])) ->
  loop (S (S fuel)) (first_page max0 total0) w
  = Done (mk_page_state 1 250 (VInt 0) (VStr "initial") max0 total0)
         (called w r).
Proof.
  intros r Hc Hempty.
  assert (Hd : page_data env stream_name cfg bookmark_field last_datetime
                 parent_record data (first_page max0 total0) (called w r)
               = Done (first_page max0 total0) (called w r)).
  { apply page_data_without_records.
    destruct Hempty as [H|[(k & d & Hk & Hdot & -> & Hhas)|H]];
      [now left | right | now right].
    exists (VDict d). now apply missing_data_key_no_records with (k := k). }
  rewrite page_loop_S, first_page_guard.
  pose proof (page_body_eq env stream_name cfg bookmark_field last_datetime
                parent_record parent_id (first_page max0 total0) w) as E.
  cbv zeta in E. rewrite page_params_first in E. cbn [world_of] in E.
  fold r in E. rewrite Hc, Hd in E. cbn in E. rewrite E.
  rewrite Z.add_0_r. apply page_loop_S.
Qed.

(** A turn of the page loop adds [total_records], as the page left it,
    to the running total. *)
Lemma page_body_total (st : page_state) (w : world)
    (st1 : page_state) (w1 : world) :
  body st w = Done st1 w1 ->
  exists total,
    as_number (total_records st1) = Ok total
    /\ ps_endpoint_total st1 = ps_endpoint_total st + total.
Proof.
  pose proof (page_body_eq env stream_name cfg bookmark_field last_datetime
                parent_record parent_id st w) as E.
  cbv zeta in E. rewrite E. clear E.
  destruct (client_request env _ _) as [data|]; [|discriminate].
  pose proof (page_data_outcome env stream_name cfg bookmark_field
                last_datetime parent_record data st
                (called (world_of (page_params cfg st w))
                   (StreamRequest (w_params (world_of (page_params cfg st w)))
                      parent_id))) as D.
  cbv zeta in D. destruct D as (_ & _ & _ & _ & D).
  destruct (page_data env stream_name cfg bookmark_field last_datetime
              parent_record data st _) as [st2 w2| |]; try discriminate.
  destruct (D _ _ eq_refl) as (_ & _ & Ht & _).
  destruct (as_number (total_records st2)) as [total|] eqn:En; [|discriminate].
  intros H. injection H as <- _. cbn [total_records ps_endpoint_total].
  exists total. now rewrite Ht.
Qed.

(** After the first page, every turn adds the same [total_records]. *)
Lemma page_run_total (entered : list page_state) :
  forall st w st' w' total,
    run entered st w st' w' ->
    1 <= page st ->
    as_number (total_records st) = Ok total ->
    total_records st' = total_records st
    /\ ps_endpoint_total st'
       = ps_endpoint_total st + (page st' - page st) * total.
Proof.
  induction entered as [|st0 entered IH]; intros st w st' w' total Hr Hp Ht;
    inversion Hr as [|e0 s0 w0 s1 w1 s2 w2 Hg0 Hb Hr']; subst.
  - split; [reflexivity | lia].
  - pose proof (page_body_outcome env stream_name cfg bookmark_field
                  last_datetime parent_record parent_id st w) as B.
    cbv zeta in B. destruct B as (_ & _ & _ & _ & B).
    destruct (B _ _ Hb) as (P1 & _ & T1 & _). specialize (T1 ltac:(lia)).
    destruct (page_body_total _ _ _ _ Hb) as (total1 & Ht1 & Hsum).
    rewrite T1, Ht in Ht1. injection Ht1 as <-.
    destruct (IH s1 w1 st' w' total Hr' ltac:(lia) ltac:(now rewrite T1))
      as [Hsame Htotal].
    split; [now rewrite Hsame|]. rewrite Htotal, Hsum, P1. lia.
Qed.

(** X11: the total that the page loop hands back is the one it was entered
    with plus [total_records] once for every page it requested, where
    [total_records] is what the first page left (the [total] of the
    response, or the count that [process_records] returned for that
    page). *)
Theorem endpoint_total_counts_pages (fuel : nat) (max0 : value) (total0 : Z)
    (w : world) (st' : page_state) (w' : world) :
  loop fuel (first_page max0 total0) w = Done st' w' ->
  exists total,
    as_number (total_records st') = Ok total
    /\ 1 <= page st'
    /\ ps_endpoint_total st' = total0 + page st' * total.
Proof.
  intros H. apply page_loop_done in H.
  destruct H as (entered & _ & Hr & Hg).
  inversion Hr as [|e0 s0 w0 s1 w1 s2 w2 Hg0 Hb Hr']; subst.
  - rewrite first_page_guard in Hg. discriminate Hg.
  - pose proof (page_body_outcome env stream_name cfg bookmark_field
                  last_datetime parent_record parent_id
                  (first_page max0 total0) w) as B.
    cbv zeta in B. destruct B as (_ & _ & _ & _ & B).
    destruct (B _ _ Hb) as (P1 & _ & _ & _). cbn [page first_page] in P1.
    destruct (page_body_total _ _ _ _ Hb) as (total & Ht & Hsum).
    cbn [ps_endpoint_total first_page] in Hsum.
    destruct (page_run_total _ _ _ _ _ total Hr' ltac:(lia) Ht)
      as [Hsame Htotal].
    pose proof (page_run_counts env stream_name cfg bookmark_field
                  last_datetime parent_record parent_id _ _ _ _ _ Hr') as C.
    cbv zeta in C. destruct C as (_ & _ & Hp & _).
    exists total. rewrite Hsame. split; [exact Ht|]. split; [lia|].
    rewrite Htotal, Hsum, P1. lia.
Qed.

(** X12: a page with records whose response, once standardised, is an
    object without a session id (or with a null one) is the last page of
    its parent, whatever total it reports. *)
Theorem no_session_id_ends_paging (fuel : nat) (st st1 : page_state)
    (w w1 : world) (data : value) (d : dict) (td : list value) :
  let w0 := world_of (page_params cfg st w) in
  page_guard st = Ok true ->
  client_request env (w_calls w0) (StreamRequest (w_params w0) parent_id)
  = Some data ->
  truthy data = true ->
  standardize cfg data = Ok (VDict d) ->
  select_records env cfg (VDict d) parent_record = Ok td ->
  td <> [] ->
  record_get d (Some "session_id") = VNone ->
  body st w = Done st1 w1 ->
  session_id st1 = VNone
  /\ loop (S (S fuel)) st w = Done st1 w1.
Proof.
  intros w0 Hg Hc Hd Hs Hsel Htd Hsid Hb.
  assert (Hnone : session_id st1 = VNone).
  { pose proof (page_body_eq env stream_name cfg bookmark_field last_datetime
                  parent_record parent_id st w) as E.
    cbv zeta in E. fold w0 in E. rewrite Hc in E. rewrite E in Hb. clear E.
    unfold page_data in Hb. rewrite Hd in Hb. cbn [negb] in Hb.
    unfold bind at 1 in Hb. rewrite Hs in Hb. cbn [lift] in Hb.
    unfold ret at 1 in Hb. unfold bind at 1 in Hb. rewrite Hsel in Hb.
    cbn [lift] in Hb. unfold ret at 1 in Hb.
    destruct td as [|record td]; [contradiction|].
    destruct (handle_records env stream_name cfg bookmark_field last_datetime
                (VDict d) (record :: td) st _) as [st2 w2| |] eqn:Eh;
      try discriminate.
    assert (H2 : session_id st2 = VNone).
    { unfold handle_records in Eh.
      apply bind_done in Eh. destruct Eh as ([] & w3 & _ & Eh).
      apply bind_done in Eh. destruct Eh as ([max' n] & w4 & _ & Eh).
      apply bind_done in Eh. destruct Eh as ([] & w5 & _ & Eh).
      apply ret_done in Eh. destruct Eh as [-> _]. cbn [session_id].
      unfold record_get in Hsid. unfold dict_get_default. exact Hsid. }
    destruct (as_number (total_records st2)); [|discriminate].
    injection Hb as <- _. exact H2. }
  split; [exact Hnone|].
  rewrite page_loop_S, Hg, Hb, page_loop_S.
  pose proof (page_body_outcome env stream_name cfg bookmark_field
                last_datetime parent_record parent_id st w) as B.
  cbv zeta in B. destruct B as (_ & _ & _ & _ & B).
  destruct (B _ _ Hb) as (_ & _ & _ & total & Ht).
  unfold page_guard. rewrite Ht, Hnone. cbn [result_bind is_none negb].
  now rewrite andb_false_r.
Qed.


End Paging.

Lemma page_without_records_ends_paging_witness :
  page_loop (sample_env empty_listing_client) "export" flat_config
            (Some "time") 2 (VStr "2023-10-05T22:13:20Z")
            (VDict [("id", VStr "none")]) (VStr "none")
            (first_page (VStr "2023-10-05T22:13:20Z") 0) empty_world
  = Done (mk_page_state 1 250 (VInt 0) (VStr "initial")
                        (VStr "2023-10-05T22:13:20Z") 0)
         (called empty_world (StreamRequest (w_params empty_world) (VStr "none"))).
Proof.
  apply (page_without_records_ends_paging (sample_env empty_listing_client)
           "export" flat_config (Some "time") (VStr "2023-10-05T22:13:20Z")
           (VDict [("id", VStr "none")]) (VStr "none") 0
           (VStr "2023-10-05T22:13:20Z") 0
           (VDict [("results", VList [])]) empty_world).
  - reflexivity.
  - right. right. exists (VDict [("results", VList [])]). split; reflexivity.
Defined.

Lemma endpoint_total_counts_pages_witness :
  exists total,
    as_number (total_records
                 (mk_page_state 3 750 (VInt 600) (VStr "s1") VNone 1800))
    = Ok total
    /\ 1 <= page (mk_page_state 3 750 (VInt 600) (VStr "s1") VNone 1800)
    /\ ps_endpoint_total
         (mk_page_state 3 750 (VInt 600) (VStr "s1") VNone 1800)
       = 0 + page (mk_page_state 3 750 (VInt 600) (VStr "s1") VNone 1800)
             * total.
Proof.
  apply (endpoint_total_counts_pages (sample_env (paging_client 600)) "engage"
           paged_config None VNone (VDict [("id", VStr "none")]) (VStr "none")
           10 VNone 0 empty_world
           (mk_page_state 3 750 (VInt 600) (VStr "s1") VNone 1800)
           (world_of
              (page_loop (sample_env (paging_client 600)) "engage" paged_config
                 None 10 VNone (VDict [("id", VStr "none")]) (VStr "none")
                 (first_page VNone 0) empty_world))).
  vm_compute. reflexivity.
Defined.

Lemma no_session_id_ends_paging_witness :
  let st1 := mk_page_state 1 250 (VInt 900) VNone
               (VStr "2023-11-09T22:13:20.000000Z") 900 in
  let w1 := world_of
    (page_body (sample_env
                  (fun _ _ =>
                     Some (VDict [("results",
                                   VList [sample_record "r1" "2023-10-25T22:13:20.000000Z";
                                          sample_record "r2" "2023-11-09T22:13:20.000000Z"]);
                                  ("total", VInt 900)])))
               "export" flat_config (Some "time")
               (VStr "2023-10-05T22:13:20.000000Z")
               (VDict [("id", VStr "none")]) (VStr "none")
               (first_page VNone 0) empty_world) in
  session_id st1 = VNone
  /\ page_loop (sample_env
                  (fun _ _ =>
                     Some (VDict [("results",
                                   VList [sample_record "r1" "2023-10-25T22:13:20.000000Z";
                                          sample_record "r2" "2023-11-09T22:13:20.000000Z"]);
                                  ("total", VInt 900)])))
               "export" flat_config (Some "time") 2
               (VStr "2023-10-05T22:13:20.000000Z")
               (VDict [("id", VStr "none")]) (VStr "none")
               (first_page VNone 0) empty_world
     = Done st1 w1.
Proof.
  cbv zeta.
  apply (no_session_id_ends_paging _ "export" flat_config (Some "time")
               (VStr "2023-10-05T22:13:20.000000Z")
           (VDict [("id", VStr "none")]) (VStr "none") 0
           (first_page VNone 0) _ empty_world _
           (VDict [("results",
                    VList [sample_record "r1" "2023-10-25T22:13:20.000000Z";
                           sample_record "r2" "2023-11-09T22:13:20.000000Z"]);
                   ("total", VInt 900)])
           [("results",
             VList [sample_record "r1" "2023-10-25T22:13:20.000000Z";
                    sample_record "r2" "2023-11-09T22:13:20.000000Z"]);
            ("total", VInt 900)]
           [sample_record "r1" "2023-10-25T22:13:20.000000Z";
            sample_record "r2" "2023-11-09T22:13:20.000000Z"]).
  - reflexivity.
  - reflexivity.
  - reflexivity.
  - reflexivity.
  - reflexivity.
  - discriminate.
  - reflexivity.
  - vm_compute. reflexivity.
Defined.


Section PageRequest.

Variable env : collaborators.
Variable stream_name : string.
Variable cfg : endpoint_config.
Variable bookmark_field : option string.
Variable last_datetime : value.
Variable parent_record parent_id : value.

(** X14: every turn of the page loop issues one request, whatever
    happens to the response. On the first page, and on every page of a
    stream that does not paginate, it is squashed from the parameters as
    they are; on a later page of a paginated stream it carries the
    session id that the loop holds from the previous response and the
    number of the page, the other parameters as they are. *)
Theorem page_request_carries_session (st : page_state) (w : world) :
  exists ps,
    w_calls (world_of
               (page_body env stream_name cfg bookmark_field last_datetime
                          parent_record parent_id st w))
    = (w_calls w ++ [StreamRequest ps parent_id])%list
    /\ (pagination cfg = false \/ page st = 0 -> ps = w_params w)
    /\ (pagination cfg = true -> page st <> 0 ->
        dict_get ps "session_id" = Some (session_id st)
        /\ dict_get ps "page" = Some (VInt (page st))
        /\ forall k, k <> "session_id" -> k <> "page" ->
             dict_get ps k = dict_get (w_params w) k).
Proof.
  pose proof (page_body_outcome env stream_name cfg bookmark_field
                last_datetime parent_record parent_id st w) as B.
  cbv zeta in B. destruct B as (_ & Bc & _).
  exists (w_params (world_of (page_params cfg st w))).
  split; [exact Bc|]. split.
  - intros H. unfold page_params, when.
    destruct H as [->| ->]; [reflexivity|].
    cbn [Z.eqb negb]. now rewrite andb_false_r.
  - intros Hp Hpage.
    destruct (page_params_written cfg st w Hp Hpage) as [Hs Hn].
    split; [exact Hs|]. split; [exact Hn|].
    intros k Hk1 Hk2. unfold page_params, when. rewrite Hp.
    apply Z.eqb_neq in Hpage. rewrite Hpage. cbn [andb negb].
    unfold bind, set_param. cbn [world_of with_params w_params].
    now rewrite !dict_get_set_other by congruence.
Qed.

End PageRequest.

(** The second request of a paginated stream. *)
Example page_request_run :
  w_calls (world_of
    (page_body (sample_env (paging_client 600)) "engage" paged_config None
               VNone (VDict [("id", VStr "none")]) (VStr "none")
               (mk_page_state 1 250 (VInt 600) (VStr "s1") VNone 600)
               (mk_world [("page_size", VInt 250)] [] [] [])))
  = [StreamRequest [("page_size", VInt 250); ("session_id", VStr "s1");
                    ("page", VInt 1)] (VStr "none")].
Proof. vm_compute. reflexivity. Qed.

(** ** Parent loop and window loop: fan-out, window dates, empty runs *)

Lemma params_fixed_refl (k1 k2 : string) (w : world) : params_fixed k1 k2 w w.
Proof.
  split; [reflexivity|]. split; [reflexivity|].
  exists []. rewrite app_nil_r. split; [reflexivity | constructor].
Qed.

Lemma params_fixed_trans (k1 k2 : string) (w1 w2 w3 : world) :
  params_fixed k1 k2 w1 w2 -> params_fixed k1 k2 w2 w3 ->
  params_fixed k1 k2 w1 w3.
Proof.
  intros (A1 & B1 & n1 & C1 & F1) (A2 & B2 & n2 & C2 & F2).
  split; [now rewrite A2|]. split; [now rewrite B2|].
  exists (n1 ++ n2)%list. split; [rewrite C2, C1; symmetry; apply app_assoc|].
  rewrite stream_params_app. apply Forall_app. split; [exact F1|].
  eapply Forall_impl; [|exact F2]. intros ps [Ha Hb].
  now rewrite Ha, Hb, A1, B1.
Qed.

(** A step that leaves the parameters and the requests alone. *)
Lemma params_fixed_same (k1 k2 : string) (w w' : world) :
  w_params w' = w_params w -> w_calls w' = w_calls w ->
  params_fixed k1 k2 w w'.
Proof.
  intros Hp Hc. unfold params_fixed. rewrite Hp.
  split; [reflexivity|]. split; [reflexivity|].
  exists []. rewrite app_nil_r. split; [exact Hc | constructor].
Qed.

Section ParentLoop.

Variable env : collaborators.
Variable stream_name : string.
Variable cfg : endpoint_config.
Variable bookmark_field : option string.

(** The parent loop neither assigns nor drops a parameter that is not
    one of the pagination keys. *)
Lemma parent_loop_fixed (k1 k2 : string) (fuel : nat) (last_datetime : value)
    (parent_id_field : option string) (parent_data : list value)
    (max0 : value) (total : Z) :
  ~ In k1 pagination_keys -> ~ In k2 pagination_keys ->
  preserves (params_fixed k1 k2)
    (parent_loop env stream_name cfg bookmark_field fuel last_datetime
                 parent_id_field parent_data max0 total).
Proof.
  intros H1 H2. apply parent_loop_effects.
  - apply params_fixed_refl.
  - apply params_fixed_trans.
  - intros k v Hk w. unfold set_param. cbn [world_of].
    split; [|split].
    + cbn [with_params w_params]. apply dict_get_set_other. now intros ->.
    + cbn [with_params w_params]. apply dict_get_set_other. now intros ->.
    + exists []. rewrite app_nil_r. split; [reflexivity | constructor].
  - intros records max_bookmark_value w.
    destruct (process_records_frame env stream_name bookmark_field
                last_datetime records max_bookmark_value w) as (Hp & _ & Hc).
    now apply params_fixed_same.
  - intros parent_id w. unfold request_stream, bind, get_params, request_data.
    assert (G : params_fixed k1 k2 w
                  (called w (StreamRequest (w_params w) parent_id))).
    { split; [reflexivity|]. split; [reflexivity|].
      exists [StreamRequest (w_params w) parent_id]. split; [reflexivity|].
      cbn. constructor; [now split | constructor]. }
    now destruct (client_request env (w_calls w)
                    (StreamRequest (w_params w) parent_id)).
Qed.

(** X15: the parent loop asks for the pages of each parent record in turn,
    in the order of the listing, at least one page each, and every
    request carries the id that the record has under the parent id field
    ([None] when it has none). *)
Theorem parent_fan_out (fuel : nat) (last_datetime : value)
    (parent_id_field : option string) (parent_data : list value) :
  forall (max0 : value) (total0 : Z) (w : world)
         (max' : value) (total' : Z) (w' : world),
    parent_loop env stream_name cfg bookmark_field fuel last_datetime
                parent_id_field parent_data max0 total0 w
    = Done (max', total') w' ->
    exists groups,
      w_calls w' = (w_calls w ++ List.concat groups)%list
      /\ Forall2
           (fun parent_record group =>
              exists parent_id,
                py_get parent_record parent_id_field = Ok parent_id
                /\ group <> []
                /\ Forall (fun r => exists ps, r = StreamRequest ps parent_id)
                          group)
           parent_data groups.
Proof.
  induction parent_data as [|parent_record rest IH];
    intros max0 total0 w max' total' w' H; cbn [parent_loop] in H.
  - apply ret_done in H. destruct H as [_ ->].
    exists []. cbn [List.concat]. rewrite app_nil_r. split; [reflexivity | constructor].
  - apply bind_done in H. destruct H as (parent_id & w1 & Hid & H).
    apply lift_done in Hid. destruct Hid as [Hid ->].
    apply bind_done in H. destruct H as ([] & w2 & Hps & H).
    assert (Hc2 : w_calls w2 = w_calls w).
    { unfold when, set_param, ret in Hps.
      destruct (pagination cfg); injection Hps as <-; reflexivity. }
    apply bind_done in H. destruct H as (st & w3 & Hl & H).
    apply page_loop_done in Hl. destruct Hl as (entered & _ & Hr & Hg).
    pose proof (page_run_counts env stream_name cfg bookmark_field
                  last_datetime parent_record parent_id _ _ _ _ _ Hr) as C.
    cbv zeta in C. destruct C as (_ & _ & _ & _ & reqs & Hc3 & Hlen & Hall).
    destruct (IH _ _ _ _ _ _ H) as (groups & Hc & Hgroups).
    exists (reqs :: groups). cbn [List.concat]. split.
    + rewrite Hc, Hc3, Hc2. symmetry. apply app_assoc.
    + constructor; [|exact Hgroups].
      exists parent_id. split; [exact Hid|]. split; [|exact Hall].
      intros ->. destruct entered; [|discriminate Hlen].
      inversion Hr; subst. rewrite first_page_guard in Hg. discriminate Hg.
Qed.

(** The parameters and the requests as [set_range] leaves them for a
    stream with a cursor range. *)
Lemma set_range_params (field_from field_to : string)
    (start_window end_window : Z) (w : world) :
  bookmark_query_field_from cfg = Some field_from ->
  bookmark_query_field_to cfg = Some field_to ->
  ranged cfg = true ->
  field_from <> field_to ->
  let w0 := world_of (set_range env cfg start_window end_window w) in
  carries field_from field_to (window_date env start_window)
          (window_date env end_window) (w_params w0)
  /\ w_calls w0 = w_calls w.
Proof.
  intros Hf Ht Hr Hne. unfold set_range. rewrite Hf, Ht, Hr.
  cbn [when]. unfold bind, set_param.
  cbn [world_of with_params w_params w_calls]. split; [split|reflexivity].
  - rewrite dict_get_set_other by exact Hne. apply dict_get_set_same.
  - apply dict_get_set_same.
Qed.

(** After the parent loop a window neither issues a request nor touches
    the parameters. *)
Lemma window_parents_frame (fuel : nat) (last_datetime : value)
    (now_datetime days_interval : Z) (st : window_state)
    (parent_id_field : option string) (parent_data : list value) (w : world) :
  let ol := parent_loop env stream_name cfg bookmark_field fuel last_datetime
              parent_id_field parent_data (ws_max_bookmark_value st)
              (ws_endpoint_total st) w in
  let o := window_parents env stream_name cfg bookmark_field fuel
             last_datetime now_datetime days_interval st parent_id_field
             parent_data w in
  w_calls (world_of o) = w_calls (world_of ol)
  /\ w_params (world_of o) = w_params (world_of ol)
  /\ (forall st1 w1, o = Done st1 w1 -> exists r wl, ol = Done r wl).
Proof.
  cbv zeta. unfold window_parents, bind.
  destruct (parent_loop env stream_name cfg bookmark_field fuel last_datetime
              parent_id_field parent_data (ws_max_bookmark_value st)
              (ws_endpoint_total st) w)
    as [[max' total] w2|e w2|w2]; cbn [world_of];
    try (repeat split; discriminate).
  assert (Hd : forall (o : outcome window_state),
            (forall st1 w1, o = Done st1 w1 ->
               exists (r : value * Z) (wl : world),
                 @Done (value * Z) (max', total) w2 = Done r wl))
    by (intros; now eexists; eexists).
  destruct (next_window now_datetime days_interval (ws_end st)) as [[s e]|ex];
    cbn [lift]; [|repeat split; apply Hd].
  unfold ret, when. destruct (name_set bookmark_field);
    [|repeat split; apply Hd].
  destruct (write_bookmark_outcome env stream_name max' w2)
    as [(b & _ & _ & ->)|(state' & -> & _)]; [repeat split; apply Hd|].
  destruct (singer_write env (w_sink w2) (StateMessage state'));
    repeat split; apply Hd.
Qed.

(** The shape of a window: up to the parent loop nothing but the
    cursor-range fields is assigned and no page is requested; what the
    window leaves is what its parent loop leaves. *)
Lemma window_body_shape (fuel : nat) (last_datetime : value)
    (now_datetime days_interval : Z) (st : window_state) (w : world) :
  let w0 := world_of (set_range env cfg (ws_start st) (ws_end st) w) in
  let o := window_body env stream_name cfg bookmark_field fuel
             last_datetime now_datetime days_interval st w in
  exists pre,
    stream_params pre = []
    /\ ((w_calls (world_of o) = (w_calls w ++ pre)%list
         /\ w_params (world_of o) = w_params w0
         /\ forall st1 w1, o <> Done st1 w1)
        \/ exists parent_id_field parents w1,
             w_calls w1 = (w_calls w ++ pre)%list
             /\ w_params w1 = w_params w0
             /\ let ol := parent_loop env stream_name cfg bookmark_field fuel
                            last_datetime parent_id_field parents
                            (ws_max_bookmark_value st) (ws_endpoint_total st)
                            w1 in
                w_calls (world_of o) = w_calls (world_of ol)
                /\ w_params (world_of o) = w_params (world_of ol)
                /\ (forall st1 w', o = Done st1 w' -> exists r wl, ol = Done r wl)).
Proof.
  cbv zeta.
  pose proof (window_body_eq env stream_name cfg bookmark_field fuel
                last_datetime now_datetime days_interval st w) as E.
  cbv zeta in E. rewrite E. clear E.
  destruct (set_range_done env cfg (ws_start st) (ws_end st) w)
    as (_ & Hc0 & _).
  set (w0 := world_of (set_range env cfg (ws_start st) (ws_end st) w)) in *.
  assert (Hres : exists pre,
    stream_params pre = []
    /\ w_calls (world_of (resolve_parents env cfg (ws_parent_id_field st) w0))
       = (w_calls w ++ pre)%list
    /\ w_params (world_of (resolve_parents env cfg (ws_parent_id_field st) w0))
       = w_params w0).
  { unfold resolve_parents.
    assert (Hflat : exists pre,
      stream_params pre = []
      /\ w_calls (world_of
           (ret (VList [VDict [("id", VStr "none")]], Some "id") w0))
         = (w_calls w ++ pre)%list
      /\ w_params (world_of
           (ret (VList [VDict [("id", VStr "none")]], Some "id") w0))
         = w_params w0).
    { exists []. cbn [ret world_of]. rewrite app_nil_r. now rewrite Hc0. }
    destruct (parent_path cfg) as [path|]; [|exact Hflat].
    destruct (name_set (Some path) && name_set (ws_parent_id_field st));
      [|exact Hflat].
    exists [ParentRequest path]. unfold bind, request_data.
    destruct (client_request env (w_calls w0) (ParentRequest path));
      cbn [world_of ret called w_calls w_params]; now rewrite Hc0. }
  destruct Hres as (pre & Hpre & Hc1 & Hp1). exists pre.
  split; [exact Hpre|].
  destruct (resolve_parents env cfg (ws_parent_id_field st) w0)
    as [[parent_data pif] w1|e w1|w1]; cbn [world_of] in Hc1, Hp1 |- *;
    try (left; repeat split; [exact Hc1 | exact Hp1 | discriminate]).
  destruct (py_iter parent_data) as [parents|e]; cbn [world_of];
    [|left; repeat split; [exact Hc1 | exact Hp1 | discriminate]].
  right. exists pif, parents, w1. split; [exact Hc1|]. split; [exact Hp1|].
  apply window_parents_frame.
Qed.

(** The dates of a window, in the dict that the window leaves and in the
    dict of every page request it made. *)
Lemma window_body_carries (field_from field_to : string)
    (fuel : nat) (last_datetime : value) (now_datetime days_interval : Z)
    (st : window_state) (w : world) :
  bookmark_query_field_from cfg = Some field_from ->
  bookmark_query_field_to cfg = Some field_to ->
  ranged cfg = true ->
  field_from <> field_to ->
  ~ In field_from pagination_keys ->
  ~ In field_to pagination_keys ->
  let w' := world_of (window_body env stream_name cfg bookmark_field fuel
                        last_datetime now_datetime days_interval st w) in
  carries field_from field_to
          (window_date env (ws_start st)) (window_date env (ws_end st))
          (w_params w')
  /\ exists new,
       w_calls w' = (w_calls w ++ new)%list
       /\ Forall (carries field_from field_to
                    (window_date env (ws_start st))
                    (window_date env (ws_end st)))
                 (stream_params new).
Proof.
  intros Hf Ht Hr Hne Hfk Htk. cbv zeta.
  destruct (set_range_params field_from field_to (ws_start st) (ws_end st) w
              Hf Ht Hr Hne) as ([Cf Ct] & _).
  pose proof (window_body_shape fuel last_datetime now_datetime days_interval
                st w) as S.
  cbv zeta in S.
  destruct S as (pre & Hpre & [(Hc & Hp & _)|(pif & parents & w1 & Hc1 & Hp1 & Hc & Hp & _)]).
  - rewrite Hp. split; [now split|].
    exists pre. rewrite Hpre. split; [exact Hc | constructor].
  - pose proof (parent_loop_fixed field_from field_to fuel last_datetime pif
                  parents (ws_max_bookmark_value st) (ws_endpoint_total st)
                  Hfk Htk w1) as (Ha & Hb & new & Hc2 & Hall).
    rewrite Hp, Hc. split.
    + split; [now rewrite Ha, Hp1 | now rewrite Hb, Hp1].
    + exists (pre ++ new)%list. split.
      * rewrite Hc2, Hc1. symmetry. apply app_assoc.
      * rewrite stream_params_app, Hpre. cbn [app].
        eapply Forall_impl; [|exact Hall]. intros ps [Ha' Hb'].
        split; [now rewrite Ha', Hp1 | now rewrite Hb', Hp1].
Qed.

(** X16: every page request of a window of a stream with a cursor range
    carries the dates of that window under the two cursor-range fields
    (the fields being two, and none of them a pagination key), whatever
    the outcome of the window. *)
Theorem window_requests_carry_dates (field_from field_to : string)
    (fuel : nat) (last_datetime : value) (now_datetime days_interval : Z)
    (st : window_state) (w : world) :
  bookmark_query_field_from cfg = Some field_from ->
  bookmark_query_field_to cfg = Some field_to ->
  ranged cfg = true ->
  field_from <> field_to ->
  ~ In field_from pagination_keys ->
  ~ In field_to pagination_keys ->
  let w' := world_of (window_body env stream_name cfg bookmark_field fuel
                        last_datetime now_datetime days_interval st w) in
  exists new,
    w_calls w' = (w_calls w ++ new)%list
    /\ Forall (carries field_from field_to
                 (window_date env (ws_start st)) (window_date env (ws_end st)))
              (stream_params new).
Proof.
  intros Hf Ht Hr Hne Hfk Htk.
  exact (proj2 (window_body_carries field_from field_to fuel last_datetime
                  now_datetime days_interval st w Hf Ht Hr Hne Hfk Htk)).
Qed.

(** X17: a run with nothing to do. The stream is in the catalog, the
    output takes its schema, the project timezone is one that [pytz]
    knows and the checkpoint parses. Then for a stream without a cursor
    range whose checkpoint is not before now, and for a stream with a
    cursor range, an attribution window of no days, a checkpoint no more
    than that many whole days old and a plan whose dates are within the
    range of [datetime], [sync_endpoint] writes the schema and returns 0:
    no request is made and no bookmark is written. *)
Theorem nothing_to_sync (project_timezone : value) (fuel : nat)
    (start_date last_datetime : value)
    (last_dttm now_datetime days_interval attribution_window : Z) (w : world) :
  get_bookmark (w_state w) stream_name start_date = Ok last_datetime ->
  catalog_get_stream env stream_name = true ->
  singer_write env (w_sink w) (SchemaMessage stream_name) = true ->
  pytz_timezone env project_timezone = true ->
  strptime_to_utc env last_datetime = Some last_dttm ->
  (ranged cfg = false /\ now_datetime <= last_dttm)
  \/ (ranged cfg = true /\ attribution_window <= 0
      /\ td_days (now_datetime - last_dttm) <= attribution_window
      /\ datetime_min <= now_datetime
      /\ now_datetime - timedelta attribution_window <= datetime_max
      /\ datetime_min
         <= now_datetime - timedelta attribution_window
            + timedelta (if days_interval =? 0 then 30 else days_interval)
         <= datetime_max) ->
  sync_endpoint env stream_name cfg bookmark_field project_timezone (S fuel)
                start_date now_datetime days_interval attribution_window w
  = Done 0 (written w (SchemaMessage stream_name)).
Proof.
  intros Hb Hcat Hw Htz Hp Hcase.
  assert (Hplan : exists p,
            plan_windows (ranged cfg) now_datetime last_dttm days_interval
                         attribution_window = Ok p
            /\ now_datetime <= pw_start p).
  { destruct Hcase as [[-> Hle]|(-> & Haw & Hd & Hmin & Hmax & Hend)].
    - eexists. split; [apply unranged_plan | exact Hle].
    - assert (Hback : days_back now_datetime last_dttm attribution_window
                      = attribution_window).
      { unfold days_back. apply Z.leb_le in Hd. now rewrite Hd. }
      assert (Htd : timedelta attribution_window <= 0)
        by (rewrite timedelta_eq; lia).
      eexists. split.
      + apply plan_ranged_ok; rewrite ?Hback; [lia | lia | exact Hend].
      + cbn [pw_start]. rewrite Hback. lia. }
  destruct Hplan as (p & Eplan & Hstart).
  rewrite sync_endpoint_eq, Hb, Hcat, Hw. cbv zeta. rewrite Htz, Hp, Eplan.
  rewrite window_loop_S. cbn [ws_start].
  apply Z.ltb_ge in Hstart. rewrite Hstart. reflexivity.
Qed.

End ParentLoop.

Lemma parent_fan_out_witness :
  exists groups,
    w_calls (world_of
      (parent_loop (sample_env two_record_client) "funnels" child_config
                   None 5 (VStr "2023-10-05T22:13:20.000000Z")
                   (Some "funnel_id")
                   [VDict [("funnel_id", VInt 7)]; VDict [("funnel_id", VInt 9)]]
                   VNone 0 empty_world))
    = (w_calls empty_world ++ List.concat groups)%list
    /\ Forall2
         (fun parent_record group =>
            exists parent_id,
              py_get parent_record (Some "funnel_id") = Ok parent_id
              /\ group <> []
              /\ Forall (fun r => exists ps, r = StreamRequest ps parent_id)
                        group)
         [VDict [("funnel_id", VInt 7)]; VDict [("funnel_id", VInt 9)]] groups.
Proof.
  apply (parent_fan_out (sample_env two_record_client) "funnels" child_config
           None 5 (VStr "2023-10-05T22:13:20.000000Z") (Some "funnel_id")
           [VDict [("funnel_id", VInt 7)]; VDict [("funnel_id", VInt 9)]]
           VNone 0 empty_world VNone 4).
  vm_compute. reflexivity.
Defined.

Lemma window_requests_carry_dates_witness :
  let st := mk_window_state (now0 - timedelta 40) (now0 - timedelta 10)
                            None (VStr "2023-10-05T22:13:20.000000Z") 0 in
  let w' := world_of
    (window_body (sample_env (paging_client 300)) "engage" paged_ranged_config
                 None 5 (VStr "2023-10-05T22:13:20.000000Z") now0 30 st
                 empty_world) in
  exists new,
    w_calls w' = (w_calls empty_world ++ new)%list
    /\ Forall (carries "from_date" "to_date"
                 (window_date (sample_env (paging_client 300)) (ws_start st))
                 (window_date (sample_env (paging_client 300)) (ws_end st)))
              (stream_params new).
Proof.
  apply (window_requests_carry_dates (sample_env (paging_client 300)) "engage"
           paged_ranged_config None "from_date" "to_date" 5
           (VStr "2023-10-05T22:13:20.000000Z") now0 30
           (mk_window_state (now0 - timedelta 40) (now0 - timedelta 10)
                            None (VStr "2023-10-05T22:13:20.000000Z") 0)
           empty_world).
  - reflexivity.
  - reflexivity.
  - reflexivity.
  - discriminate.
  - cbn. intros [H|[H|[H|[]]]]; discriminate H.
  - cbn. intros [H|[H|[H|[]]]]; discriminate H.
Defined.

Lemma nothing_to_sync_witness :
  sync_endpoint (sample_env no_client) "engage" paged_config None (VStr "UTC") 1
                (VStr "2023-10-05T22:13:20Z") (now0 - timedelta 40) 30 5
                empty_world
  = Done 0 (written empty_world (SchemaMessage "engage")).
Proof.
  apply (nothing_to_sync (sample_env no_client) "engage" paged_config None
           (VStr "UTC") 0
           (VStr "2023-10-05T22:13:20Z") (VStr "2023-10-05T22:13:20Z")
           (now0 - timedelta 40) (now0 - timedelta 40) 30 5 empty_world).
  - reflexivity.
  - reflexivity.
  - reflexivity.
  - reflexivity.
  - reflexivity.
  - left. split; [reflexivity | lia].
Defined.

(** With an attribution window of no days and a checkpoint of this very
    day, a stream with a cursor range is not asked at all. *)
Example nothing_to_sync_ranged :
  sync_endpoint (sample_env no_client) "export" flat_config (Some "time") (VStr "UTC") 1
                (VStr "2023-10-05T22:13:20Z") (now0 - timedelta 40 + 3600) 30 0
                empty_world
  = Done 0 (written empty_world (SchemaMessage "export")).
Proof. vm_compute. reflexivity. Qed.

(** ** Identifying fields: the records that pass *)

Lemma check_id_fields_ok_iff (record : value) (keys : list string) :
  check_id_fields record keys = Ok tt
  <-> forall key, In key keys -> has_id record key = true.
Proof.
  induction keys as [|k keys IH]; cbn [check_id_fields].
  - split; [intros _ key [] | reflexivity].
  - unfold has_id in *.
    destruct (py_get record (Some k)) as [val|e] eqn:Eg; cbn [result_bind].
    + assert (Hc : is_empty_str val || negb (truthy val) = negb (truthy val)).
      { destruct val as [| | |s| |]; try reflexivity. cbn.
        now destruct (String.eqb s ""). }
      rewrite Hc. destruct (truthy val) eqn:Et; cbn [negb].
      * rewrite IH. split.
        -- intros H key [<-|Hin]; [now rewrite Eg | now apply H].
        -- intros H key Hin. apply H. now right.
      * split; [discriminate|]. intros H.
        specialize (H k (or_introl eq_refl)). rewrite Eg in H. congruence.
    + split; [discriminate|]. intros H.
      specialize (H k (or_introl eq_refl)). rewrite Eg in H. discriminate H.
Qed.

(** X18: the check of lines 286-293 lets a page through exactly when
    every record of it is a dict with a true value (not [None], [''], 0,
    [False] or an empty list or dict) under every identifying field. *)
Theorem check_records_ok_iff (transformed_data : list value)
    (keys : list string) :
  check_records transformed_data (Some keys) = Ok tt
  <-> forall record key,
        In record transformed_data -> In key keys -> has_id record key = true.
Proof.
  induction transformed_data as [|r td IH]; cbn [check_records].
  - split; [intros _ record key [] | reflexivity].
  - destruct (check_id_fields r keys) as [[]|e] eqn:Ec; cbn [result_bind].
    + rewrite IH.
      pose proof (proj1 (check_id_fields_ok_iff r keys) Ec) as Hr. split.
      * intros H record key [<-|Hin] Hk; [now apply Hr | now apply H].
      * intros H record key Hin Hk. apply H; [now right | exact Hk].
    + split; [discriminate|]. intros H.
      assert (Hr : check_id_fields r keys = Ok tt)
        by (apply check_id_fields_ok_iff; intros key Hk; apply H;
            [now left | exact Hk]).
      rewrite Hr in Ec. discriminate Ec.
Qed.

(** ** Date dictionaries: the responses that cannot be normalised *)

(** X19: the loop of lines 264-269 returns exactly when every value of
    the date dictionary, the one under [$overall] apart, is a record; it
    then yields one record for each of them; otherwise it raises
    [TypeError]. *)
Theorem date_records_ok_iff (items : dict) :
  (Forall (fun kv => is_dict (snd kv) = true) (filter is_date_key items) ->
   exists results,
     date_records items = Ok results
     /\ List.length results = List.length (filter is_date_key items))
  /\ (~ Forall (fun kv => is_dict (snd kv) = true) (filter is_date_key items) ->
      date_records items = Err TypeError).
Proof.
  split.
  - intros H. destruct (date_records_ok items H) as (results & Hr & Hall).
    exists results. split; [exact Hr|]. symmetry.
    eapply Forall2_length. exact Hall.
  - induction items as [|[key val] items IH]; intros H.
    + contradiction H. constructor.
    + cbn [date_records filter] in *. unfold is_date_key at 1 in H.
      cbn [fst] in H.
      destruct (negb (String.eqb key "$overall")); [|now apply IH].
      destruct val as [| | | | |d]; try reflexivity.
      rewrite IH; [reflexivity|].
      intros Hrest. apply H. constructor; [reflexivity | exact Hrest].
Qed.

(** A number under a date: the response is refused; under [$overall] it
    is passed over. *)
Example date_records_run :
  date_records [("2024-01-01", VDict [("amount", VInt 5)]); ("2024-01-02", VInt 0)]
  = Err TypeError
  /\ date_records [("2024-01-01", VDict [("amount", VInt 5)]); ("$overall", VInt 0)]
     = Ok [VDict [("amount", VInt 5); ("date", VStr "2024-01-01");
                  ("datetime", VStr "2024-01-01T00:00:00Z")]].
Proof. split; vm_compute; reflexivity. Qed.

(** ** Stream orchestrator *)

Lemma dict_get_del_same (d : dict) (k : string) :
  dict_get (dict_del d k) k = None.
Proof.
  unfold dict_del. induction d as [|[k' v] d IH]; [reflexivity|].
  cbn [filter fst]. destruct (String.eqb k' k) eqn:E; cbn [negb]; [exact IH|].
  cbn [dict_get]. now rewrite E.
Qed.

Lemma dict_get_del_other (d : dict) (k k' : string) :
  k' <> k -> dict_get (dict_del d k) k' = dict_get d k'.
Proof.
  intros Hne. unfold dict_del. induction d as [|[k0 v] d IH]; [reflexivity|].
  cbn [filter fst dict_get]. destruct (String.eqb k0 k) eqn:E; cbn [negb].
  - apply String.eqb_eq in E. subst k0.
    destruct (String.eqb k k') eqn:E'; [|exact IH].
    apply String.eqb_eq in E'. congruence.
  - cbn [dict_get]. destruct (String.eqb k0 k'); [reflexivity | exact IH].
Qed.

Section Marker.

Variable env : collaborators.
Variable rt : runtime.

Lemma update_currently_syncing_eq (stream_name : option string) (w : world) :
  update_currently_syncing env rt stream_name w
  = let state' := marked rt stream_name (w_state w) in
    if singer_write env (w_sink w) (StateMessage state')
    then Done tt (written (with_state w state') (StateMessage state'))
    else Raised OSError (with_state w state').
Proof. reflexivity. Qed.

(** The state that [update_currently_syncing] leaves in memory, whether
    the output takes it or not. Called with [None] on a state that names
    a stream as currently syncing, it removes that entry and nothing
    else; in every other case the state is the one that
    [singer.set_currently_syncing] leaves, also for [None] on a state
    that names no stream. *)
Lemma update_currently_syncing_state (stream_name : option string)
    (w : world) :
  let o := update_currently_syncing env rt stream_name w in
  let w' := world_of o in
  (o = Done tt w'
   /\ singer_write env (w_sink w) (StateMessage (w_state w')) = true
   /\ w_sink w' = (w_sink w ++ [StateMessage (w_state w')])%list
   \/ o = Raised OSError w'
      /\ singer_write env (w_sink w) (StateMessage (w_state w')) = false
      /\ w_sink w' = w_sink w)
  /\ w_params w' = w_params w
  /\ w_calls w' = w_calls w
  /\ (stream_name = None ->
      dict_has (w_state w) "currently_syncing" = true ->
      dict_has (w_state w') "currently_syncing" = false
      /\ forall k, k <> "currently_syncing" ->
           dict_get (w_state w') k = dict_get (w_state w) k)
  /\ (stream_name <> None
      \/ dict_has (w_state w) "currently_syncing" = false ->
      w_state w'
      = set_currently_syncing rt (w_state w) (name_value stream_name)).
Proof.
  cbv zeta. rewrite update_currently_syncing_eq. cbv zeta.
  assert (Hst : w_state
            (world_of
               (if singer_write env (w_sink w)
                     (StateMessage (marked rt stream_name (w_state w)))
                then Done tt
                       (written
                          (with_state w (marked rt stream_name (w_state w)))
                          (StateMessage (marked rt stream_name (w_state w))))
                else Raised OSError
                       (with_state w (marked rt stream_name (w_state w)))))
          = marked rt stream_name (w_state w)).
  { now destruct (singer_write env (w_sink w) _). }
  rewrite Hst. split; [|split; [|split; [|split]]].
  - destruct (singer_write env (w_sink w) _); [left | right];
      repeat split.
  - now destruct (singer_write env (w_sink w) _).
  - now destruct (singer_write env (w_sink w) _).
  - unfold marked. intros -> Hhas. cbn [name_value is_none andb].
    rewrite Hhas. split.
    + unfold dict_has. now rewrite dict_get_del_same.
    + intros k Hk. now apply dict_get_del_other.
  - unfold marked. intros [Hname|Hhas].
    + destruct stream_name as [s|]; [reflexivity | contradiction].
    + rewrite Hhas. now rewrite andb_false_r.
Qed.

(** One stream, step by step. *)
Lemma sync_stream_eq (fuel : nat) (config : dict) (start_date : value)
    (k : nat) (stream_name : string) (rw : run_world) :
  let STREAMS := rw_streams rw in
  let state1 := marked rt (Some stream_name) (w_state (rw_world rw)) in
  let w := written (with_state (rw_world rw) state1) (StateMessage state1) in
  sync_stream env rt fuel config start_date k stream_name rw
  = if singer_write env (w_sink (rw_world rw)) (StateMessage state1) then
      match find_stream STREAMS stream_name with
      | None => Aborted (StreamError KeyError) (mk_run_world STREAMS w)
      | Some endpoint_config =>
          match py_int rt (dict_get_default config "date_window_size" (VStr "30")) with
          | None => Aborted IntError (mk_run_world STREAMS w)
          | Some days_interval =>
              match py_int rt (dict_get_default config "attribution_window" (VStr "5")) with
              | None => Aborted IntError (mk_run_world STREAMS w)
              | Some attribution_window =>
                  let o :=
                    sync_endpoint env stream_name (sd_config endpoint_config)
                      (first_replication_key endpoint_config)
                      (dict_get_default config "project_timezone" (VStr "UTC"))
                      fuel start_date
                      (now_at rt k) days_interval attribution_window
                      (with_params w (static_params endpoint_config)) in
                  let STREAMS :=
                    store_params STREAMS stream_name (w_params (world_of o)) in
                  match o with
                  | Done _ w2 =>
                      let state2 := marked rt None (w_state w2) in
                      if singer_write env (w_sink w2) (StateMessage state2)
                      then Finished
                             (mk_run_world STREAMS
                                (written (with_state w2 state2)
                                         (StateMessage state2)))
                      else Aborted (StreamError OSError)
                             (mk_run_world STREAMS (with_state w2 state2))
                  | Raised e w2 => Aborted (StreamError e) (mk_run_world STREAMS w2)
                  | Starved w2 => Stalled (mk_run_world STREAMS w2)
                  end
              end
          end
      end
    else Aborted (StreamError OSError)
           (mk_run_world STREAMS (with_state (rw_world rw) state1)).
Proof.
  cbv zeta. unfold sync_stream. rewrite update_currently_syncing_eq. cbv zeta.
  destruct (singer_write env (w_sink (rw_world rw)) _); [|reflexivity].
  destruct (find_stream (rw_streams rw) stream_name) as [sd|]; [|reflexivity].
  destruct (py_int rt (dict_get_default config "date_window_size" (VStr "30")));
    [|reflexivity].
  destruct (py_int rt (dict_get_default config "attribution_window" (VStr "5")));
    [|reflexivity].
  cbv zeta. unfold bind.
  destruct (sync_endpoint env stream_name (sd_config sd)
              (first_replication_key sd)
              (dict_get_default config "project_timezone" (VStr "UTC"))
              fuel start_date (now_at rt k) _ _ _)
    as [total w2|e w2|w2]; [|reflexivity|reflexivity].
  rewrite update_currently_syncing_eq. cbv zeta.
  now destruct (singer_write env (w_sink w2) _).
Qed.

Lemma stream_output_no_schema (stream_name : string)
    (bookmark_field : option string) (msgs : list message) :
  Forall (stream_output stream_name bookmark_field) msgs ->
  schemas_of msgs = [].
Proof.
  induction 1 as [|m msgs Hm _ IH]; [reflexivity|].
  unfold schemas_of in *. cbn [flat_map]. rewrite IH.
  destruct m; [contradiction | reflexivity | reflexivity].
Qed.

(** What one stream writes: when it is done, its schema and no other,
    and the state in memory last. *)
Lemma sync_stream_sink (fuel : nat) (config : dict) (start_date : value)
    (k : nat) (stream_name : string) (rw rw' : run_world) :
  sync_stream env rt fuel config start_date k stream_name rw = Finished rw' ->
  (exists msgs,
     w_sink (rw_world rw') = (w_sink (rw_world rw) ++ msgs)%list
     /\ schemas_of msgs = [stream_name])
  /\ exists before,
       w_sink (rw_world rw')
       = (before ++ [StateMessage (w_state (rw_world rw'))])%list.
Proof.
  pose proof (sync_stream_eq fuel config start_date k stream_name rw) as E.
  cbv zeta in E. rewrite E. clear E.
  set (state1 := marked rt (Some stream_name) (w_state (rw_world rw))).
  destruct (singer_write env (w_sink (rw_world rw)) (StateMessage state1));
    [|discriminate].
  destruct (find_stream (rw_streams rw) stream_name) as [sd|]; [|discriminate].
  destruct (py_int rt (dict_get_default config "date_window_size" (VStr "30")))
    as [days_interval|]; [|discriminate].
  destruct (py_int rt (dict_get_default config "attribution_window" (VStr "5")))
    as [attribution_window|]; [|discriminate].
  destruct (sync_endpoint_trace env stream_name (sd_config sd)
              (first_replication_key sd)
              (dict_get_default config "project_timezone" (VStr "UTC"))
              fuel start_date (now_at rt k)
              days_interval attribution_window
              (with_params
                 (written (with_state (rw_world rw) state1)
                          (StateMessage state1))
                 (static_params sd)))
    as [(e & Hr & _)|(last_datetime & _ & _ & _ & msgs & Hs & Hall & _)].
  - rewrite Hr. discriminate.
  - cbn [written with_params with_state w_sink] in Hs.
    rewrite <- !app_assoc in Hs. cbn [app] in Hs.
    apply stream_output_no_schema in Hall.
    destruct (sync_endpoint env stream_name (sd_config sd)
                (first_replication_key sd)
                (dict_get_default config "project_timezone" (VStr "UTC"))
                fuel start_date (now_at rt k)
                days_interval attribution_window _)
      as [total w2|e w2|w2]; try discriminate.
    cbn [world_of] in Hs.
    destruct (singer_write env (w_sink w2) _); [|discriminate].
    intros H. injection H as <-.
    cbn [rw_world written with_state w_sink w_state]. split.
    + exists (StateMessage state1 :: SchemaMessage stream_name :: msgs
              ++ [StateMessage (marked rt None (w_state w2))])%list.
      split; [rewrite Hs; now rewrite <- app_assoc|].
      unfold schemas_of in *. cbn [app flat_map].
      rewrite flat_map_app, Hall. reflexivity.
    + now eexists.
Qed.

Lemma sync_streams_cons (fuel : nat) (config : dict) (start_date : value)
    (k : nat) (stream_name : string) (rest : list string) (rw : run_world) :
  sync_streams env rt fuel config start_date k (stream_name :: rest) rw
  = match sync_stream env rt fuel config start_date k stream_name rw with
    | Finished rw1 => sync_streams env rt fuel config start_date (S k) rest rw1
    | o => o
    end.
Proof. reflexivity. Qed.

(** X21: when [sync] returns, it has written the schema of each selected
    stream once, in the order of the selection, which is the one read
    from the state it started with. *)
Theorem sync_writes_schemas_in_order (fuel : nat) (config : dict)
    (start_date : value) (rw rw' : run_world) :
  sync env rt fuel config start_date rw = Finished rw' ->
  exists msgs,
    w_sink (rw_world rw') = (w_sink (rw_world rw) ++ msgs)%list
    /\ schemas_of msgs = get_selected_streams rt (w_state (rw_world rw)).
Proof.
  unfold sync.
  destruct (get_selected_streams rt (w_state (rw_world rw)))
    as [|stream_name rest].
  - intros H. injection H as <-. exists []. now rewrite app_nil_r.
  - generalize 0%nat as k.
    generalize (stream_name :: rest) as selected. clear stream_name rest.
    intros selected. revert rw.
    induction selected as [|stream_name rest IH]; intros rw k H.
    + cbn [sync_streams] in H. injection H as <-. exists [].
      now rewrite app_nil_r.
    + rewrite sync_streams_cons in H.
      destruct (sync_stream env rt fuel config start_date k stream_name rw)
        as [rw1| |] eqn:E1; try discriminate H.
      apply sync_stream_sink in E1. destruct E1 as [(msgs & Hs & Hsch) _].
      destruct (IH rw1 (S k) H) as (more & Hs' & Hsch').
      exists (msgs ++ more)%list. split.
      * rewrite Hs', Hs. symmetry. apply app_assoc.
      * unfold schemas_of in *. now rewrite flat_map_app, Hsch, Hsch'.
Qed.

(** The library leaves the stream it is given under [currently_syncing]. *)
Hypothesis set_currently_syncing_sets :
  forall state v,
    dict_get (set_currently_syncing rt state v) "currently_syncing" = Some v.

Lemma marked_stream (stream_name : string) (state : dict) :
  dict_get (marked rt (Some stream_name) state) "currently_syncing"
  = Some (VStr stream_name).
Proof.
  unfold marked. cbn [name_value is_none andb].
  apply set_currently_syncing_sets.
Qed.

Lemma marked_none (state : dict) :
  dict_has state "currently_syncing" = true ->
  dict_has (marked rt None state) "currently_syncing" = false.
Proof.
  intros H. unfold marked. cbn [name_value is_none andb]. rewrite H.
  unfold dict_has. now rewrite dict_get_del_same.
Qed.

(** [sync_endpoint] leaves the marker as it is. *)
Lemma sync_endpoint_keeps_marker (stream_name : string) (cfg : endpoint_config)
    (bookmark_field : option string) (project_timezone : value) (fuel : nat)
    (start_date : value) (now_datetime days_interval attribution_window : Z)
    (w : world) :
  dict_get (w_state (world_of
              (sync_endpoint env stream_name cfg bookmark_field
                             project_timezone fuel start_date
                             now_datetime days_interval attribution_window w)))
           "currently_syncing"
  = dict_get (w_state w) "currently_syncing".
Proof.
  destruct (sync_endpoint_trace env stream_name cfg bookmark_field
              project_timezone fuel start_date now_datetime days_interval
              attribution_window w)
    as [(e & -> & _)|(last_datetime & _ & _ & _ & msgs & _ & _ & _ & Hkeys)];
    [reflexivity|].
  now apply Hkeys.
Qed.

(** The marker that one stream leaves: none when it is done; itself when
    it is not, unless its last state message, the one without the
    marker, was not taken by the output. *)
Lemma sync_stream_marker (fuel : nat) (config : dict) (start_date : value)
    (k : nat) (stream_name : string) (rw : run_world) :
  let o := sync_stream env rt fuel config start_date k stream_name rw in
  let state' := w_state (rw_world (run_world_of o)) in
  match o with
  | Finished _ => dict_has state' "currently_syncing" = false
  | _ => dict_get state' "currently_syncing" = Some (VStr stream_name)
         \/ ((exists rw', o = Aborted (StreamError OSError) rw')
             /\ dict_has state' "currently_syncing" = false
             /\ state_refused env (rw_world (run_world_of o)))
  end.
Proof.
  cbv zeta.
  pose proof (sync_stream_eq fuel config start_date k stream_name rw) as E.
  cbv zeta in E. rewrite E. clear E.
  set (state1 := marked rt (Some stream_name) (w_state (rw_world rw))).
  set (w1 := written (with_state (rw_world rw) state1) (StateMessage state1)).
  assert (Hm1 : dict_get (w_state w1) "currently_syncing"
                = Some (VStr stream_name)) by apply marked_stream.
  destruct (singer_write env (w_sink (rw_world rw)) (StateMessage state1));
    [|left; exact Hm1].
  destruct (find_stream (rw_streams rw) stream_name) as [sd|]; [|left; exact Hm1].
  destruct (py_int rt (dict_get_default config "date_window_size" (VStr "30")))
    as [days_interval|]; [|left; exact Hm1].
  destruct (py_int rt (dict_get_default config "attribution_window" (VStr "5")))
    as [attribution_window|]; [|left; exact Hm1].
  pose proof (sync_endpoint_keeps_marker stream_name (sd_config sd)
                (first_replication_key sd)
                (dict_get_default config "project_timezone" (VStr "UTC"))
                fuel start_date (now_at rt k)
                days_interval attribution_window
                (with_params w1 (static_params sd))) as Hkeep.
  cbn [with_params w_state] in Hkeep. rewrite Hm1 in Hkeep.
  destruct (sync_endpoint env stream_name (sd_config sd)
              (first_replication_key sd)
              (dict_get_default config "project_timezone" (VStr "UTC"))
              fuel start_date (now_at rt k)
              days_interval attribution_window
              (with_params w1 (static_params sd)))
    as [total w2|e w2|w2];
    cbn [world_of run_world_of rw_world written with_state w_state]
      in Hkeep |- *; [|left; exact Hkeep|left; exact Hkeep].
  assert (Hnone : dict_has (marked rt None (w_state w2)) "currently_syncing"
                  = false).
  { apply marked_none. unfold dict_has. now rewrite Hkeep. }
  destruct (singer_write env (w_sink w2) (StateMessage (marked rt None (w_state w2))))
    eqn:Ew; cbn [run_world_of rw_world written with_state w_state];
    [exact Hnone|].
  right. split; [now eexists|]. split; [exact Hnone | exact Ew].
Qed.

(** X22: when [sync] returns, no stream is marked as currently syncing
    and the state in memory is the one written last, provided a stream
    was selected; when none was, [sync] does nothing at all, and a stream
    that the state names stays named. *)
Theorem sync_completed_clears_marker (fuel : nat) (config : dict)
    (start_date : value) (rw rw' : run_world) :
  sync env rt fuel config start_date rw = Finished rw' ->
  (get_selected_streams rt (w_state (rw_world rw)) = [] -> rw' = rw)
  /\ (get_selected_streams rt (w_state (rw_world rw)) <> [] ->
      dict_has (w_state (rw_world rw')) "currently_syncing" = false
      /\ exists before,
           w_sink (rw_world rw')
           = (before ++ [StateMessage (w_state (rw_world rw'))])%list).
Proof.
  unfold sync.
  destruct (get_selected_streams rt (w_state (rw_world rw)))
    as [|stream_name rest].
  - intros H. injection H as <-. split; [reflexivity | contradiction].
  - intros H. split; [discriminate|]. intros _.
    revert H. generalize 0%nat as k. revert stream_name rw.
    induction rest as [|next rest IH]; intros stream_name rw k H;
      rewrite sync_streams_cons in H;
      pose proof (sync_stream_marker fuel config start_date k stream_name rw)
        as O; cbv zeta in O;
      destruct (sync_stream env rt fuel config start_date k stream_name rw)
        as [rw1| |] eqn:E1; try discriminate H.
    + cbn [sync_streams] in H. injection H as <-.
      split; [exact O|]. apply sync_stream_sink in E1. exact (proj2 E1).
    + eapply IH. exact H.
Qed.

(** X23: when [sync] does not return, because an exception escaped or a
    loop did not end, the streams of the selection before some stream were
    done, the outcome is the one of that stream's turn, no later stream
    being touched, and the state names that stream as currently syncing.
    The one exception is the last state message of that stream's turn:
    [update_currently_syncing] removes the marker from the state before
    it writes it, so when the output does not take that message the run
    ends with [OSError] and a state in memory that names no stream. *)
Theorem sync_interrupted_keeps_marker (fuel : nat) (config : dict)
    (start_date : value) (rw : run_world) :
  let o := sync env rt fuel config start_date rw in
  (forall rw', o <> Finished rw') ->
  exists done stream_name rest rw1,
    get_selected_streams rt (w_state (rw_world rw))
    = (done ++ stream_name :: rest)%list
    /\ sync_streams env rt fuel config start_date 0 done rw = Finished rw1
    /\ o = sync_stream env rt fuel config start_date (List.length done)
                       stream_name rw1
    /\ (dict_get (w_state (rw_world (run_world_of o))) "currently_syncing"
        = Some (VStr stream_name)
        \/ ((exists rw', o = Aborted (StreamError OSError) rw')
            /\ dict_has (w_state (rw_world (run_world_of o)))
                        "currently_syncing" = false
            /\ singer_write env (w_sink (rw_world (run_world_of o)))
                 (StateMessage (w_state (rw_world (run_world_of o))))
               = false)).
Proof.
  cbv zeta. unfold sync.
  assert (G : forall selected rw k,
    (forall rw', sync_streams env rt fuel config start_date k selected rw
                 <> Finished rw') ->
    exists done stream_name rest rw1,
      selected = (done ++ stream_name :: rest)%list
      /\ sync_streams env rt fuel config start_date k done rw = Finished rw1
      /\ sync_streams env rt fuel config start_date k selected rw
         = sync_stream env rt fuel config start_date (k + List.length done)
                       stream_name rw1
      /\ (dict_get
            (w_state (rw_world (run_world_of
               (sync_streams env rt fuel config start_date k selected rw))))
            "currently_syncing"
          = Some (VStr stream_name)
          \/ ((exists rw',
                 sync_streams env rt fuel config start_date k selected rw
                 = Aborted (StreamError OSError) rw')
              /\ dict_has
                   (w_state (rw_world (run_world_of
                      (sync_streams env rt fuel config start_date k selected rw))))
                   "currently_syncing" = false
              /\ state_refused env
                   (rw_world (run_world_of
                      (sync_streams env rt fuel config start_date k selected rw)))))).
  { clear rw. intros selected.
    induction selected as [|stream_name rest IH]; intros rw k H.
    - now contradiction (H rw).
    - rewrite sync_streams_cons in H |- *.
      pose proof (sync_stream_marker fuel config start_date k stream_name rw)
        as O. cbv zeta in O.
      destruct (sync_stream env rt fuel config start_date k stream_name rw)
        as [rw1|e rw1|rw1] eqn:E1; cbn [run_world_of] in O |- *.
      + destruct (IH rw1 (S k) H) as (done & s & rest' & rw2 & Hsel & Hd & Ho & Hm).
        exists (stream_name :: done), s, rest', rw2.
        split; [cbn [app]; now rewrite Hsel|].
        split; [now rewrite sync_streams_cons, E1|].
        split; [|exact Hm].
        rewrite Ho. cbn [List.length]. now rewrite Nat.add_succ_r.
      + exists [], stream_name, rest, rw. cbn [List.length].
        rewrite Nat.add_0_r. repeat split; [symmetry; exact E1 | exact O].
      + exists [], stream_name, rest, rw. cbn [List.length].
        rewrite Nat.add_0_r. repeat split; [symmetry; exact E1 | exact O]. }
  destruct (get_selected_streams rt (w_state (rw_world rw)))
    as [|stream_name rest].
  - intros H. now contradiction (H rw).
  - intros H. apply (G (stream_name :: rest) rw 0%nat H).
Qed.

End Marker.

Lemma sync_writes_schemas_in_order_witness :
  let rt := sample_runtime ["export"; "engage"] in
  let rw := mk_run_world sample_streams empty_world in
  let rw' := run_world_of
               (sync (sample_env two_record_client) rt 10 sample_config
                     (VStr "2023-10-05T22:13:20.000000Z") rw) in
  exists msgs,
    w_sink (rw_world rw') = (w_sink (rw_world rw) ++ msgs)%list
    /\ schemas_of msgs = get_selected_streams rt (w_state (rw_world rw)).
Proof.
  apply (sync_writes_schemas_in_order (sample_env two_record_client)
           (sample_runtime ["export"; "engage"]) 10 sample_config
           (VStr "2023-10-05T22:13:20.000000Z")
           (mk_run_world sample_streams empty_world)).
  vm_compute. reflexivity.
Defined.

Lemma sync_completed_clears_marker_witness :
  let rt := sample_runtime ["export"; "engage"] in
  let rw := mk_run_world sample_streams empty_world in
  let rw' := run_world_of
               (sync (sample_env two_record_client) rt 10 sample_config
                     (VStr "2023-10-05T22:13:20.000000Z") rw) in
  (get_selected_streams rt (w_state (rw_world rw)) = [] -> rw' = rw)
  /\ (get_selected_streams rt (w_state (rw_world rw)) <> [] ->
      dict_has (w_state (rw_world rw')) "currently_syncing" = false
      /\ exists before,
           w_sink (rw_world rw')
           = (before ++ [StateMessage (w_state (rw_world rw'))])%list).
Proof.
  apply (sync_completed_clears_marker (sample_env two_record_client)
           (sample_runtime ["export"; "engage"])
           (fun state v => dict_get_set_same state "currently_syncing" v)
           10 sample_config (VStr "2023-10-05T22:13:20.000000Z")
           (mk_run_world sample_streams empty_world)).
  vm_compute. reflexivity.
Defined.

Lemma sync_interrupted_keeps_marker_witness :
  let env := sample_env two_record_client in
  let rt := sample_runtime ["export"; "cohorts"; "engage"] in
  let rw := mk_run_world sample_streams empty_world in
  let o := sync env rt 10 sample_config (VStr "2023-10-05T22:13:20.000000Z") rw in
  exists done stream_name rest rw1,
    get_selected_streams rt (w_state (rw_world rw))
    = (done ++ stream_name :: rest)%list
    /\ sync_streams env rt 10 sample_config
                    (VStr "2023-10-05T22:13:20.000000Z") 0 done rw
       = Finished rw1
    /\ o = sync_stream env rt 10 sample_config
                       (VStr "2023-10-05T22:13:20.000000Z") (List.length done)
                       stream_name rw1
    /\ (dict_get (w_state (rw_world (run_world_of o))) "currently_syncing"
        = Some (VStr stream_name)
        \/ ((exists rw', o = Aborted (StreamError OSError) rw')
            /\ dict_has (w_state (rw_world (run_world_of o)))
                        "currently_syncing" = false
            /\ singer_write env (w_sink (rw_world (run_world_of o)))
                 (StateMessage (w_state (rw_world (run_world_of o))))
               = false)).
Proof.
  apply (sync_interrupted_keeps_marker (sample_env two_record_client)
           (sample_runtime ["export"; "cohorts"; "engage"])
           (fun state v => dict_get_set_same state "currently_syncing" v)
           10 sample_config (VStr "2023-10-05T22:13:20.000000Z")
           (mk_run_world sample_streams empty_world)).
  intros rw'. vm_compute. discriminate.
Defined.

(** An output that takes eight messages and no more: the run of one stream
    ends with [OSError] on its last state message. The state in memory
    names no stream, the last state written names the stream. *)
Example sync_last_write_refused :
  let env := sample_env_with two_record_client
               (fun sink _ => Nat.ltb (List.length sink) 8) (fun _ => false) in
  let rt := sample_runtime ["export"] in
  let o := sync env rt 10 sample_config (VStr "2023-10-05T22:13:20.000000Z")
                (mk_run_world sample_streams empty_world) in
  (exists rw', o = Aborted (StreamError OSError) rw')
  /\ List.length (w_sink (rw_world (run_world_of o))) = 8%nat
  /\ w_state (rw_world (run_world_of o))
     = [("bookmarks", VDict [("export", VStr "2023-11-09T22:13:20.000000Z")])]
  /\ last_state (w_sink (rw_world (run_world_of o))) []
     = [("currently_syncing", VStr "export");
        ("bookmarks", VDict [("export", VStr "2023-11-09T22:13:20.000000Z")])].
Proof.
  cbv zeta. split; [eexists; vm_compute; reflexivity|].
  repeat split; vm_compute; reflexivity.
Qed.

(** Two streams, then one that the stream table does not have: the
    first is done, the second is left marked, the third is not reached. *)
Example sync_run :
  let rt := sample_runtime ["export"; "cohorts"; "engage"] in
  let o := sync (sample_env two_record_client) rt 10 sample_config
                (VStr "2023-10-05T22:13:20.000000Z")
                (mk_run_world sample_streams empty_world) in
  (exists rw', o = Aborted (StreamError KeyError) rw')
  /\ schemas_of (w_sink (rw_world (run_world_of o))) = ["export"]
  /\ w_state (rw_world (run_world_of o))
     = [("bookmarks", VDict [("export", VStr "2023-11-09T22:13:20.000000Z")]);
        ("currently_syncing", VStr "cohorts")].
Proof.
  cbv zeta. split; [eexists; vm_compute; reflexivity|].
  split; vm_compute; reflexivity.
Qed.

(** ** The parameter dict, from window to window and from run to run *)

Lemma world_of_bind {A B} (m : M A) (f : A -> M B) (w : world) :
  world_of (bind m f w)
  = match m w with
    | Done a w1 => world_of (f a w1)
    | Raised _ w1 => w1
    | Starved w1 => w1
    end.
Proof. unfold bind. now destruct (m w). Qed.

Lemma when_set_param (b : bool) (k : string) (v : value) (w : world) :
  when b (set_param k v) w = Done tt (world_of (when b (set_param k v) w))
  /\ w_calls (world_of (when b (set_param k v) w)) = w_calls w
  /\ w_params (world_of (when b (set_param k v) w))
     = (if b then dict_set (w_params w) k v else w_params w).
Proof. destruct b; repeat split. Qed.

Lemma find_stream_store_params (STREAMS : stream_table) (stream_name : string)
    (params : dict) :
  find_stream (store_params STREAMS stream_name params) stream_name
  = match find_stream STREAMS stream_name with
    | Some sd =>
        Some (match sd_params sd with
              | Some _ => mk_stream (sd_config sd) (sd_replication_keys sd)
                                    (Some params)
              | None => sd
              end)
    | None => None
    end.
Proof.
  induction STREAMS as [|[name sd] rest IH]; [reflexivity|].
  cbn [store_params find_stream].
  destruct (String.eqb name stream_name) eqn:E; cbn [find_stream]; rewrite E;
    [reflexivity | exact IH].
Qed.

Section SharedDict.

Variable env : collaborators.
Variable stream_name : string.
Variable cfg : endpoint_config.
Variable bookmark_field : option string.

(** The page loop assigns [session_id] and [page], and nothing else. *)
Lemma page_loop_fixed (k1 k2 : string) (fuel : nat)
    (last_datetime parent_record parent_id : value) (st : page_state) :
  ~ In k1 ["session_id"; "page"] -> ~ In k2 ["session_id"; "page"] ->
  preserves (params_fixed k1 k2)
    (page_loop env stream_name cfg bookmark_field fuel last_datetime
               parent_record parent_id st).
Proof.
  intros H1 H2.
  apply (page_loop_closure (fun A m => preserves (params_fixed k1 k2) m));
    cbv beta; intros.
  - apply preserves_ret, params_fixed_refl.
  - apply preserves_raise, params_fixed_refl.
  - apply preserves_starve, params_fixed_refl.
  - now apply (preserves_bind _ (params_fixed_trans k1 k2)).
  - intros w. unfold set_param. cbn [world_of].
    split; [|split].
    + cbn [with_params w_params]. apply dict_get_set_other. now intros ->.
    + cbn [with_params w_params]. apply dict_get_set_other. now intros ->.
    + exists []. rewrite app_nil_r. split; [reflexivity | constructor].
  - intros w.
    destruct (process_records_frame env stream_name bookmark_field
                last_datetime records max_bookmark_value w) as (Hp & _ & Hc).
    now apply params_fixed_same.
  - intros w. unfold request_stream, bind, get_params, request_data.
    assert (G : params_fixed k1 k2 w
                  (called w (StreamRequest (w_params w) parent_id0))).
    { split; [reflexivity|]. split; [reflexivity|].
      exists [StreamRequest (w_params w) parent_id0]. split; [reflexivity|].
      cbn. constructor; [now split | constructor]. }
    now destruct (client_request env (w_calls w)
                    (StreamRequest (w_params w) parent_id0)).
Qed.

(** The world that the parent loop leaves, by the first parent. *)
Lemma parent_loop_world (fuel : nat) (last_datetime : value)
    (parent_id_field : option string) (p : value) (rest : list value)
    (max0 : value) (total : Z) (w : world) :
  world_of (parent_loop env stream_name cfg bookmark_field fuel last_datetime
              parent_id_field (p :: rest) max0 total w)
  = match py_get p parent_id_field with
    | Err _ => w
    | Ok pid =>
        let w1 := world_of (when (pagination cfg)
                                 (set_param "page_size" (VInt limit)) w) in
        match page_loop env stream_name cfg bookmark_field fuel last_datetime
                        p pid (first_page max0 total) w1 with
        | Done st w2 =>
            world_of (parent_loop env stream_name cfg bookmark_field fuel
                        last_datetime parent_id_field rest
                        (ps_max_bookmark_value st) (ps_endpoint_total st) w2)
        | Raised _ w2 => w2
        | Starved w2 => w2
        end
    end.
Proof.
  cbn [parent_loop]. unfold bind.
  destruct (py_get p parent_id_field) as [pid|e]; cbn [lift];
    [|reflexivity].
  unfold ret. destruct (pagination cfg); cbn [when]; unfold set_param, ret;
    cbn [world_of];
    now destruct (page_loop env stream_name cfg bookmark_field fuel
                    last_datetime p pid (first_page max0 total) _).
Qed.

(** Every page request of a paginated stream has the page size, and so
    has the dict that the parent loop leaves. *)
Lemma parent_loop_sized (fuel : nat) (last_datetime : value)
    (parent_id_field : option string) (parent_data : list value) :
  pagination cfg = true ->
  forall max0 total w,
    let w' := world_of (parent_loop env stream_name cfg bookmark_field fuel
                          last_datetime parent_id_field parent_data
                          max0 total w) in
    exists new,
      w_calls w' = (w_calls w ++ new)%list
      /\ Forall (fun ps => dict_get ps "page_size" = Some (VInt limit))
                (stream_params new)
      /\ (dict_get (w_params w) "page_size" = Some (VInt limit)
          \/ stream_params new <> [] ->
          dict_get (w_params w') "page_size" = Some (VInt limit)).
Proof.
  intros Hp. induction parent_data as [|p rest IH]; intros max0 total w;
    cbv zeta.
  - exists []. cbn [parent_loop ret world_of stream_params flat_map].
    rewrite app_nil_r. split; [reflexivity|]. split; [constructor|].
    intros [H|H]; [exact H | contradiction].
  - rewrite parent_loop_world.
    destruct (py_get p parent_id_field) as [pid|e].
    2:{ exists []. cbn [stream_params flat_map]. rewrite app_nil_r.
        split; [reflexivity|]. split; [constructor|].
        intros [H|H]; [exact H | contradiction]. }
    cbv zeta. rewrite Hp. cbn [when]. unfold set_param. cbn [world_of].
    set (w1 := with_params w (dict_set (w_params w) "page_size" (VInt limit))).
    assert (Hs1 : dict_get (w_params w1) "page_size" = Some (VInt limit))
      by apply dict_get_set_same.
    assert (Hk : ~ In "page_size" ["session_id"; "page"])
      by (cbn; intros [H|[H|[]]]; discriminate H).
    pose proof (page_loop_fixed "page_size" "page_size" fuel last_datetime
                  p pid (first_page max0 total) Hk Hk w1)
      as (Ha & _ & reqs & Hc & Hall).
    assert (Hreqs : Forall (fun ps => dict_get ps "page_size"
                                      = Some (VInt limit))
                           (stream_params reqs)).
    { eapply Forall_impl; [|exact Hall]. intros ps [Hps _].
      now rewrite Hps. }
    destruct (page_loop env stream_name cfg bookmark_field fuel last_datetime
                p pid (first_page max0 total) w1) as [st2 w2|e w2|w2];
      cbn [world_of] in Ha, Hc |- *.
    + destruct (IH (ps_max_bookmark_value st2) (ps_endpoint_total st2) w2)
        as (new2 & Hc2 & Hall2 & Hlast2).
      exists (reqs ++ new2)%list. split.
      * rewrite Hc2, Hc. cbn [w1 with_params w_calls]. symmetry.
        apply app_assoc.
      * split; [rewrite stream_params_app; apply Forall_app; now split|].
        intros _. apply Hlast2. left. now rewrite Ha.
    + exists reqs. split; [exact Hc|]. split; [exact Hreqs|].
      intros _. now rewrite Ha.
    + exists reqs. split; [exact Hc|]. split; [exact Hreqs|].
      intros _. now rewrite Ha.
Qed.

(** The first page request of the parent loop is squashed from the
    parameters as the loop found them, but for the page size. *)
Lemma parent_loop_first (fuel : nat) (last_datetime : value)
    (parent_id_field : option string) (parent_data : list value)
    (max0 : value) (total : Z) (w : world) :
  let w' := world_of (parent_loop env stream_name cfg bookmark_field fuel
                        last_datetime parent_id_field parent_data
                        max0 total w) in
  exists new,
    w_calls w' = (w_calls w ++ new)%list
    /\ forall ps rest,
         stream_params new = ps :: rest ->
         ps = w_params (world_of (when (pagination cfg)
                                       (set_param "page_size" (VInt limit)) w)).
Proof.
  cbv zeta. destruct parent_data as [|p rest].
  - exists []. cbn [parent_loop ret world_of stream_params flat_map].
    rewrite app_nil_r. split; [reflexivity | discriminate].
  - rewrite parent_loop_world.
    destruct (py_get p parent_id_field) as [pid|e].
    2:{ exists []. cbn [stream_params flat_map]. rewrite app_nil_r.
        split; [reflexivity | discriminate]. }
    cbv zeta.
    destruct (when_set_param (pagination cfg) "page_size" (VInt limit) w)
      as (_ & Hc1 & _).
    set (w1 := world_of (when (pagination cfg)
                              (set_param "page_size" (VInt limit)) w)) in *.
    destruct fuel as [|fuel].
    { cbn [page_loop starve]. exists []. cbn [stream_params flat_map].
      rewrite app_nil_r. split; [exact Hc1 | discriminate]. }
    rewrite page_loop_S, first_page_guard.
    pose proof (page_body_outcome env stream_name cfg bookmark_field
                  last_datetime p pid (first_page max0 total) w1) as B.
    cbv zeta in B. destruct B as (_ & Bc & _).
    rewrite page_params_first in Bc. cbn [world_of] in Bc.
    assert (Hfirst : forall more ps rest0,
              stream_params (StreamRequest (w_params w1) pid :: more)
              = ps :: rest0 -> ps = w_params w1).
    { intros more ps rest0 H. cbn [stream_params flat_map app] in H.
      now injection H as <- _. }
    destruct (page_body env stream_name cfg bookmark_field last_datetime
                p pid (first_page max0 total) w1) as [st1 w2|e w2|w2];
      cbn [world_of] in Bc |- *.
    + pose proof (page_loop_grows env stream_name cfg bookmark_field fuel
                    last_datetime p pid st1 w2) as G1.
      apply params_grow_calls in G1. destruct G1 as (m1 & G1).
      destruct (page_loop env stream_name cfg bookmark_field fuel
                  last_datetime p pid st1 w2) as [st2 w3|e w3|w3];
        cbn [world_of] in G1 |- *.
      * pose proof (parent_loop_grows env stream_name cfg bookmark_field
                      (S fuel) last_datetime parent_id_field rest
                      (ps_max_bookmark_value st2) (ps_endpoint_total st2) w3)
          as G2.
        apply params_grow_calls in G2. destruct G2 as (m2 & G2).
        exists (StreamRequest (w_params w1) pid :: m1 ++ m2)%list.
        split; [|apply Hfirst].
        rewrite G2, G1, Bc, Hc1, <- !app_assoc. reflexivity.
      * exists (StreamRequest (w_params w1) pid :: m1)%list.
        split; [|apply Hfirst].
        rewrite G1, Bc, Hc1, <- !app_assoc. reflexivity.
      * exists (StreamRequest (w_params w1) pid :: m1)%list.
        split; [|apply Hfirst].
        rewrite G1, Bc, Hc1, <- !app_assoc. reflexivity.
    + exists [StreamRequest (w_params w1) pid].
      split; [now rewrite Bc, Hc1 | apply Hfirst].
    + exists [StreamRequest (w_params w1) pid].
      split; [now rewrite Bc, Hc1 | apply Hfirst].
Qed.

(** A run of turns of the page loop ends on a request, and leaves the
    dict that this request was squashed from. *)
Lemma page_run_last (last_datetime parent_record parent_id : value)
    (entered : list page_state) :
  forall st w st' w',
    page_run env stream_name cfg bookmark_field last_datetime parent_record
             parent_id entered st w st' w' ->
    entered <> [] ->
    exists before ps,
      w_calls w'
      = (w_calls w ++ before ++ [StreamRequest ps parent_id])%list
      /\ w_params w' = ps.
Proof.
  induction entered as [|st0 entered IH]; intros st w st' w' Hr Hne;
    [contradiction|].
  inversion Hr as [|e0 s0 w0 s1 w1 s2 w2 Hg Hb Hr']; subst.
  pose proof (page_body_outcome env stream_name cfg bookmark_field
                last_datetime parent_record parent_id st w) as B.
  cbv zeta in B. destruct B as (_ & Bc & Bp & _).
  rewrite Hb in Bc, Bp. cbn [world_of] in Bc, Bp.
  destruct entered as [|st2 entered].
  - inversion Hr'; subst. exists [], (w_params w'). split; [|reflexivity].
    rewrite Bc, Bp. reflexivity.
  - destruct (IH _ _ _ _ Hr' ltac:(discriminate)) as (before & ps & Hc & Hp).
    eexists (_ :: before), ps. split; [|exact Hp].
    rewrite Hc, Bc, <- app_assoc. reflexivity.
Qed.

(** So does a parent loop that returns. *)
Lemma parent_loop_last (fuel : nat) (last_datetime : value)
    (parent_id_field : option string) (parent_data : list value) :
  forall max0 total w r w',
    parent_loop env stream_name cfg bookmark_field fuel last_datetime
                parent_id_field parent_data max0 total w = Done r w' ->
    parent_data <> [] ->
    exists before ps parent_id,
      w_calls w'
      = (w_calls w ++ before ++ [StreamRequest ps parent_id])%list
      /\ w_params w' = ps.
Proof.
  induction parent_data as [|p rest IH]; intros max0 total w r w' H Hne;
    [contradiction|].
  cbn [parent_loop] in H.
  apply bind_done in H. destruct H as (pid & w1 & Hid & H).
  apply lift_done in Hid. destruct Hid as [Hid ->].
  apply bind_done in H. destruct H as ([] & w2 & Hps & H).
  assert (Hc2 : w_calls w2 = w_calls w).
  { unfold when, set_param, ret in Hps.
    destruct (pagination cfg); injection Hps as <-; reflexivity. }
  apply bind_done in H. destruct H as (st & w3 & Hl & H).
  apply page_loop_done in Hl. destruct Hl as (entered & _ & Hr & Hg).
  assert (Hent : entered <> []).
  { intros ->. inversion Hr; subst. rewrite first_page_guard in Hg.
    discriminate Hg. }
  destruct (page_run_last _ _ _ _ _ _ _ _ Hr Hent)
    as (before & ps & Hc3 & Hp3).
  destruct rest as [|p' rest'].
  - cbn [parent_loop] in H. apply ret_done in H. destruct H as [_ ->].
    exists before, ps, pid. rewrite Hc3, Hc2. now split.
  - destruct (IH _ _ _ _ _ H ltac:(discriminate))
      as (before' & ps' & pid' & Hc & Hp).
    exists (before ++ [StreamRequest ps pid] ++ before')%list, ps', pid'.
    split; [|exact Hp]. rewrite Hc, Hc3, Hc2, <- !app_assoc. reflexivity.
Qed.

(** The start of a window: what it assigns, and what it leaves alone. *)
Lemma window_start_params (start_window end_window : Z) (w : world) :
  let w' := world_of ((set_range env cfg start_window end_window ;;;
                       when (pagination cfg)
                            (set_param "page_size" (VInt limit))) w) in
  kept (window_keys cfg) (w_params w) (w_params w')
  /\ (pagination cfg = true ->
      dict_get (w_params w') "page_size" = Some (VInt limit)).
Proof.
  cbv zeta. unfold window_keys, set_range.
  destruct (bookmark_query_field_from cfg) as [f|],
           (bookmark_query_field_to cfg) as [t0|];
    unfold when; destruct (ranged cfg), (pagination cfg);
    unfold bind, set_param, ret; cbn [world_of with_params w_params];
    (split; [|intros H; try discriminate H; apply dict_get_set_same]);
    repeat (eapply kept_trans; [|apply kept_set; cbn; auto]);
    apply kept_refl.
Qed.

(** A completed window and the one after it. *)
Lemma window_pair_params (fuel : nat) (last_datetime : value)
    (now_datetime days_interval : Z) (st0 st1 : window_state) (w0 w1 : world) :
  window_body env stream_name cfg bookmark_field fuel last_datetime
              now_datetime days_interval st0 w0 = Done st1 w1 ->
  let w2 := world_of (window_body env stream_name cfg bookmark_field fuel
                        last_datetime now_datetime days_interval st1 w1) in
  exists reqs1 reqs2,
    w_calls w1 = (w_calls w0 ++ reqs1)%list
    /\ w_calls w2 = (w_calls w1 ++ reqs2)%list
    /\ (stream_params reqs1 <> [] ->
        exists before ps parent_id,
          reqs1 = (before ++ [StreamRequest ps parent_id])%list
          /\ w_params w1 = ps)
    /\ (pagination cfg = true -> stream_params reqs1 <> [] ->
        dict_get (w_params w1) "page_size" = Some (VInt limit))
    /\ (forall ps rest,
          stream_params reqs2 = ps :: rest ->
          ps = w_params
                 (world_of
                    ((set_range env cfg (ws_start st1) (ws_end st1) ;;;
                      when (pagination cfg)
                           (set_param "page_size" (VInt limit))) w1))
          /\ kept (window_keys cfg) (w_params w1) ps
          /\ (pagination cfg = true ->
              dict_get ps "page_size" = Some (VInt limit))).
Proof.
  intros Hb. cbv zeta.
  (* the first window *)
  assert (H1 : exists reqs1,
            w_calls w1 = (w_calls w0 ++ reqs1)%list
            /\ (stream_params reqs1 <> [] ->
                exists before ps parent_id,
                  reqs1 = (before ++ [StreamRequest ps parent_id])%list
                  /\ w_params w1 = ps)
            /\ (pagination cfg = true -> stream_params reqs1 <> [] ->
                dict_get (w_params w1) "page_size" = Some (VInt limit))).
  { pose proof (window_body_shape env stream_name cfg bookmark_field fuel
                  last_datetime now_datetime days_interval st0 w0) as S.
    cbv zeta in S. rewrite Hb in S. cbn [world_of] in S.
    destruct S as (pre & Hpre
                   & [(_ & _ & Hn)
                     |(pif & parents & wa & Hca & _ & Hc & Hp & Hd)]);
      [now contradiction (Hn st1 w1)|].
    destruct (Hd st1 w1 eq_refl) as (r & wl & Hl).
    rewrite Hl in Hc, Hp. cbn [world_of] in Hc, Hp.
    destruct parents as [|p rest].
    - cbn [parent_loop] in Hl. apply ret_done in Hl. destruct Hl as [_ ->].
      exists pre. split; [now rewrite Hc|].
      split; intros; contradiction.
    - destruct (parent_loop_last fuel last_datetime pif (p :: rest) _ _ _ _ _
                  Hl ltac:(discriminate))
        as (before & ps & pid & Hcl & Hpl).
      exists (pre ++ before ++ [StreamRequest ps pid])%list.
      split; [rewrite Hc, Hcl, Hca, <- !app_assoc; reflexivity|].
      split.
      + intros _. exists (pre ++ before)%list, ps, pid.
        split; [now rewrite <- app_assoc | now rewrite Hp].
      + intros Hpag _.
        pose proof (parent_loop_sized fuel last_datetime pif (p :: rest) Hpag
                      (ws_max_bookmark_value st0) (ws_endpoint_total st0) wa)
          as Z.
        cbv zeta in Z. rewrite Hl in Z. cbn [world_of] in Z.
        destruct Z as (new & Hcn & _ & Hlast).
        rewrite Hp. apply Hlast. right.
        rewrite Hcl in Hcn. apply app_inv_head in Hcn. subst new.
        rewrite stream_params_app. cbn [stream_params flat_map app].
        intros H. now apply app_eq_nil in H. }
  destruct H1 as (reqs1 & Hc1 & Hlast & Hsize).
  exists reqs1.
  (* the second window *)
  pose proof (window_body_shape env stream_name cfg bookmark_field fuel
                last_datetime now_datetime days_interval st1 w1) as S.
  cbv zeta in S.
  destruct S as (pre & Hpre
                 & [(Hc & _)|(pif & parents & wb & Hcb & Hpb & Hc & _)]).
  - exists pre. split; [exact Hc1|]. split; [exact Hc|].
    split; [exact Hlast|]. split; [exact Hsize|].
    intros ps rest H. rewrite Hpre in H. discriminate H.
  - pose proof (parent_loop_first fuel last_datetime pif parents
                  (ws_max_bookmark_value st1) (ws_endpoint_total st1) wb)
      as F.
    cbv zeta in F. destruct F as (new & Hcn & Hfirst).
    exists (pre ++ new)%list. split; [exact Hc1|].
    split; [rewrite Hc, Hcn, Hcb, <- app_assoc; reflexivity|].
    split; [exact Hlast|]. split; [exact Hsize|].
    intros ps rest H. rewrite stream_params_app, Hpre in H. cbn [app] in H.
    assert (Eps : ps = w_params
                         (world_of
                            ((set_range env cfg (ws_start st1) (ws_end st1) ;;;
                              when (pagination cfg)
                                   (set_param "page_size" (VInt limit))) w1))).
    { rewrite (Hfirst ps rest H), world_of_bind.
      destruct (set_range_done env cfg (ws_start st1) (ws_end st1) w1)
        as (-> & _).
      destruct (when_set_param (pagination cfg) "page_size" (VInt limit) wb)
        as (_ & _ & ->).
      destruct (when_set_param (pagination cfg) "page_size" (VInt limit)
                  (world_of (set_range env cfg (ws_start st1) (ws_end st1) w1)))
        as (_ & _ & ->).
      now rewrite Hpb. }
    split; [exact Eps|]. rewrite Eps.
    apply (window_start_params (ws_start st1) (ws_end st1) w1).
Qed.


End SharedDict.

(** ** Entry point *)

Lemma record_get_truthy (d : dict) (k : string) :
  truthy (record_get d (Some k)) = true ->
  exists v, dict_get d k = Some v /\ truthy v = true.
Proof.
  unfold record_get. destruct (dict_get d k) as [v|]; [|discriminate].
  intros H. now exists v.
Qed.

Lemma config_item_get (config : dict) (key : string) (v : value) :
  dict_get config key = Some v -> config_item config key = Returned v.
Proof. unfold config_item. now intros ->. Qed.

(** The two ways in which lines 41-49 let a configuration through. *)
Lemma credentials_outcome (params config : dict) :
  credentials params = Returned config ->
  (truthy (record_get params (Some "username")) = true
   /\ truthy (record_get params (Some "password")) = true
   /\ is_none (record_get params (Some "project_id")) = false
   /\ config = dict_set params "api_secret" VNone)
  \/ (truthy (record_get params (Some "username"))
      && truthy (record_get params (Some "password")) = false
      /\ truthy (record_get params (Some "api_secret")) = true
      /\ config = dict_set (dict_set (dict_set params "username" VNone)
                                     "password" VNone)
                           "project_id" VNone).
Proof.
  unfold credentials.
  destruct (truthy (record_get params (Some "username"))
            && truthy (record_get params (Some "password"))) eqn:E.
  - apply andb_prop in E. destruct E as [Eu Ep].
    destruct (is_none (record_get params (Some "project_id"))) eqn:Ei;
      [discriminate|].
    intros H. injection H as <-. left. repeat split; assumption.
  - destruct (truthy (record_get params (Some "api_secret"))) eqn:Ea;
      [|discriminate].
    intros H. injection H as <-. right. repeat split.
Qed.

Lemma credentials_keeps (params config : dict) (k : string) :
  credentials params = Returned config ->
  ~ In k credential_keys ->
  dict_get config k = dict_get params k.
Proof.
  intros H Hk. unfold credential_keys in Hk. cbn [In] in Hk.
  destruct (credentials_outcome _ _ H) as [(_ & _ & _ & ->)|(_ & _ & ->)];
    rewrite ?dict_get_set_other; try reflexivity; intros ->; tauto.
Qed.

(** [main], once the start date is read and the credentials are
    through. *)
Lemma main_returned (args : parsed_args) (ca : client_arguments)
    (cmd : command) :
  main args = Returned (ca, cmd) ->
  exists start_date config,
    dict_get (pa_config args) "start_date" = Some start_date
    /\ credentials (pa_config args) = Returned config
    /\ dict_get config "api_secret" = Some (ca_api_secret ca)
    /\ dict_get config "username" = Some (ca_username ca)
    /\ dict_get config "password" = Some (ca_password ca)
    /\ dict_get config "project_id" = Some (ca_project_id ca)
    /\ dict_get config "user_agent" = Some (ca_user_agent ca)
    /\ cmd = (if pa_discover args
              then Discover (record_get config (Some "select_properties_by_default"))
                            (dict_get_default config "denest_properties"
                                              (VStr "true"))
              else if pa_catalog args
                   then Sync config
                             (if truthy (pa_state args) then pa_state args
                              else VDict [])
                             start_date
                   else NoCommand).
Proof.
  unfold main, main_bind, config_item.
  destruct (dict_get (pa_config args) "start_date") as [start_date|];
    [|discriminate].
  destruct (credentials (pa_config args)) as [config|]; [|discriminate].
  destruct (dict_get config "api_secret") as [a|] eqn:Ea; [|discriminate].
  destruct (dict_get config "username") as [u|] eqn:Eu; [|discriminate].
  destruct (dict_get config "password") as [p|] eqn:Ep; [|discriminate].
  destruct (dict_get config "project_id") as [i|] eqn:Ei; [|discriminate].
  destruct (dict_get config "user_agent") as [ua|] eqn:Eua; [|discriminate].
  intros H. injection H as <- <-. cbn.
  exists start_date, config. repeat split; assumption.
Qed.

(** X24: the client is constructed in exactly one of two ways. With a
    user name and a password in the configuration it gets them and the
    project id, which is not [None], and no API secret, whatever secret
    the configuration holds; otherwise it gets the API secret of the
    configuration and [None] for the other three. *)
Theorem main_credentials_exclusive (args : parsed_args)
    (ca : client_arguments) (cmd : command) :
  main args = Returned (ca, cmd) ->
  (truthy (record_get (pa_config args) (Some "username")) = true
   /\ truthy (record_get (pa_config args) (Some "password")) = true
   /\ ca_api_secret ca = VNone
   /\ ca_username ca = record_get (pa_config args) (Some "username")
   /\ ca_password ca = record_get (pa_config args) (Some "password")
   /\ ca_project_id ca = record_get (pa_config args) (Some "project_id")
   /\ ca_project_id ca <> VNone)
  \/ (truthy (record_get (pa_config args) (Some "username"))
      && truthy (record_get (pa_config args) (Some "password")) = false
      /\ ca_api_secret ca = record_get (pa_config args) (Some "api_secret")
      /\ truthy (ca_api_secret ca) = true
      /\ ca_username ca = VNone
      /\ ca_password ca = VNone
      /\ ca_project_id ca = VNone).
Proof.
  intros H. apply main_returned in H.
  destruct H as (start_date & config & _ & Hc & Ha & Hu & Hp & Hi & _).
  destruct (credentials_outcome _ _ Hc)
    as [(Eu & Ep & Ei & ->)|(E & Ea & ->)].
  - left. rewrite dict_get_set_same in Ha.
    rewrite dict_get_set_other in Hu, Hp, Hi by discriminate.
    unfold record_get in *. rewrite Hu, Hp, Hi in *.
    injection Ha as <-. repeat split; try assumption.
    intros Hn. rewrite Hn in Ei. discriminate Ei.
  - right.
    rewrite !dict_get_set_other in Ha by discriminate.
    rewrite dict_get_set_other, dict_get_set_other, dict_get_set_same in Hu
      by discriminate.
    rewrite dict_get_set_other, dict_get_set_same in Hp by discriminate.
    rewrite dict_get_set_same in Hi.
    injection Hu as <-. injection Hp as <-. injection Hi as <-.
    unfold record_get in *. rewrite Ha in *. repeat split; assumption.
Qed.

Ltac settle :=
  repeat split;
  try (intros; discriminate);
  try (intros (? & ? & H); discriminate H);
  try (intros; do 2 eexists; reflexivity);
  try (intros; intuition congruence).

(** X25: with the keys that [parse_args] requires, [main] fails in two
    cases only: a user name and a password without a project id, even
    when the configuration holds an API secret; and no user name and
    password pair and no API secret. No key is looked up in vain. *)
Theorem main_refusals (args : parsed_args) :
  Forall (fun k => dict_has (pa_config args) k = true) REQUIRED_CONFIG_KEYS ->
  let config := pa_config args in
  let service_account :=
    truthy (record_get config (Some "username"))
    && truthy (record_get config (Some "password")) in
  (main args = Failed ProjectIdRequired
   <-> service_account = true
       /\ is_none (record_get config (Some "project_id")) = true)
  /\ (main args = Failed NoCredentials
      <-> service_account = false
          /\ truthy (record_get config (Some "api_secret")) = false)
  /\ (forall key, main args <> Failed (ConfigKeyError key))
  /\ ((exists ca cmd, main args = Returned (ca, cmd))
      <-> (service_account = true
           /\ is_none (record_get config (Some "project_id")) = false)
          \/ (service_account = false
              /\ truthy (record_get config (Some "api_secret")) = true)).
Proof.
  intros Hreq. cbv zeta.
  assert (Hsd : exists sd, dict_get (pa_config args) "start_date" = Some sd).
  { unfold REQUIRED_CONFIG_KEYS in Hreq. rewrite Forall_forall in Hreq.
    specialize (Hreq "start_date" ltac:(cbn; tauto)). unfold dict_has in Hreq.
    destruct (dict_get (pa_config args) "start_date") as [sd|];
      [now exists sd | discriminate]. }
  assert (Hua : exists ua, dict_get (pa_config args) "user_agent" = Some ua).
  { unfold REQUIRED_CONFIG_KEYS in Hreq. rewrite Forall_forall in Hreq.
    specialize (Hreq "user_agent" ltac:(cbn; tauto)). unfold dict_has in Hreq.
    destruct (dict_get (pa_config args) "user_agent") as [ua|];
      [now exists ua | discriminate]. }
  destruct Hsd as (sd & Hsd). destruct Hua as (ua & Hua).
  unfold main. rewrite (config_item_get _ _ _ Hsd). cbn [main_bind].
  unfold credentials.
  destruct (truthy (record_get (pa_config args) (Some "username"))
            && truthy (record_get (pa_config args) (Some "password"))) eqn:E.
  - apply andb_prop in E. destruct E as [Eu Ep].
    apply record_get_truthy in Eu, Ep.
    destruct Eu as (u & Hu & _). destruct Ep as (p & Hp & _).
    destruct (is_none (record_get (pa_config args) (Some "project_id"))) eqn:Ei.
    + cbn [main_bind]. settle.
    + assert (Hi : exists i, dict_get (pa_config args) "project_id" = Some i).
      { unfold record_get in Ei.
        destruct (dict_get (pa_config args) "project_id") as [i|];
          [now exists i | discriminate]. }
      destruct Hi as (i & Hi). cbn [main_bind].
      rewrite (config_item_get _ "api_secret" VNone)
        by apply dict_get_set_same.
      rewrite (config_item_get _ "username" u)
        by (rewrite dict_get_set_other by discriminate; exact Hu).
      rewrite (config_item_get _ "password" p)
        by (rewrite dict_get_set_other by discriminate; exact Hp).
      rewrite (config_item_get _ "project_id" i)
        by (rewrite dict_get_set_other by discriminate; exact Hi).
      rewrite (config_item_get _ "user_agent" ua)
        by (rewrite dict_get_set_other by discriminate; exact Hua).
      cbn [main_bind]. settle.
  - destruct (truthy (record_get (pa_config args) (Some "api_secret"))) eqn:Ea.
    + apply record_get_truthy in Ea. destruct Ea as (a & Ha & _).
      cbn [main_bind].
      rewrite (config_item_get _ "api_secret" a)
        by (rewrite !dict_get_set_other by discriminate; exact Ha).
      rewrite (config_item_get _ "username" VNone)
        by (rewrite !dict_get_set_other by discriminate;
            apply dict_get_set_same).
      rewrite (config_item_get _ "password" VNone)
        by (rewrite dict_get_set_other by discriminate;
            apply dict_get_set_same).
      rewrite (config_item_get _ "project_id" VNone)
        by apply dict_get_set_same.
      rewrite (config_item_get _ "user_agent" ua)
        by (rewrite !dict_get_set_other by discriminate; exact Hua).
      cbn [main_bind]. settle.
    + cbn [main_bind]. settle.
Qed.

(** X26: the command that [main] runs. Discovery when it is asked for,
    with or without a catalog; the sync when it is not and a catalog is
    given; nothing otherwise. The sync gets the start date of the
    configuration, the state given (an empty one when none or an empty
    one was given), and the configuration itself, in which only the
    four credential keys may have changed and all four are present. *)
Theorem main_command (args : parsed_args) (ca : client_arguments)
    (cmd : command) :
  main args = Returned (ca, cmd) ->
  (pa_discover args = true ->
   cmd = Discover
           (record_get (pa_config args) (Some "select_properties_by_default"))
           (dict_get_default (pa_config args) "denest_properties" (VStr "true")))
  /\ (pa_discover args = false -> pa_catalog args = false -> cmd = NoCommand)
  /\ (pa_discover args = false -> pa_catalog args = true ->
      exists config,
        cmd = Sync config
                   (if truthy (pa_state args) then pa_state args else VDict [])
                   (record_get (pa_config args) (Some "start_date"))
        /\ (forall k, ~ In k credential_keys ->
              dict_get config k = dict_get (pa_config args) k)
        /\ Forall (fun k => dict_has config k = true) credential_keys).
Proof.
  intros H. apply main_returned in H.
  destruct H as (start_date & config & Hsd & Hc & Ha & Hu & Hp & Hi & _ & ->).
  split; [|split].
  - intros ->. unfold record_get, dict_get_default.
    rewrite !(credentials_keeps _ _ _ Hc)
      by (cbn; intros [H|[H|[H|[H|[]]]]]; discriminate H).
    reflexivity.
  - intros -> ->. reflexivity.
  - intros -> ->. exists config. unfold record_get. rewrite Hsd.
    split; [reflexivity|]. split.
    + intros k Hk. now apply (credentials_keeps _ _ _ Hc).
    + unfold credential_keys, dict_has.
      repeat constructor; [now rewrite Ha | now rewrite Hu | now rewrite Hp
                          | now rewrite Hi].
Qed.

Lemma main_credentials_exclusive_witness :
  let args := mk_parsed_args sample_config (VDict []) false true in
  let ca := mk_client_arguments VNone (VStr "user") (VStr "pass") (VInt 7)
                                (VStr "tap") VNone in
  (truthy (record_get (pa_config args) (Some "username")) = true
   /\ truthy (record_get (pa_config args) (Some "password")) = true
   /\ ca_api_secret ca = VNone
   /\ ca_username ca = record_get (pa_config args) (Some "username")
   /\ ca_password ca = record_get (pa_config args) (Some "password")
   /\ ca_project_id ca = record_get (pa_config args) (Some "project_id")
   /\ ca_project_id ca <> VNone)
  \/ (truthy (record_get (pa_config args) (Some "username"))
      && truthy (record_get (pa_config args) (Some "password")) = false
      /\ ca_api_secret ca = record_get (pa_config args) (Some "api_secret")
      /\ truthy (ca_api_secret ca) = true
      /\ ca_username ca = VNone
      /\ ca_password ca = VNone
      /\ ca_project_id ca = VNone).
Proof.
  eapply (main_credentials_exclusive
            (mk_parsed_args sample_config (VDict []) false true)
            (mk_client_arguments VNone (VStr "user") (VStr "pass") (VInt 7)
                                 (VStr "tap") VNone)).
  vm_compute. reflexivity.
Defined.

Lemma main_refusals_witness :
  let args := mk_parsed_args sample_config (VDict []) false true in
  let config := pa_config args in
  let service_account :=
    truthy (record_get config (Some "username"))
    && truthy (record_get config (Some "password")) in
  (main args = Failed ProjectIdRequired
   <-> service_account = true
       /\ is_none (record_get config (Some "project_id")) = true)
  /\ (main args = Failed NoCredentials
      <-> service_account = false
          /\ truthy (record_get config (Some "api_secret")) = false)
  /\ (forall key, main args <> Failed (ConfigKeyError key))
  /\ ((exists ca cmd, main args = Returned (ca, cmd))
      <-> (service_account = true
           /\ is_none (record_get config (Some "project_id")) = false)
          \/ (service_account = false
              /\ truthy (record_get config (Some "api_secret")) = true)).
Proof.
  apply (main_refusals (mk_parsed_args sample_config (VDict []) false true)).
  repeat constructor.
Defined.

Lemma main_command_witness :
  let args := mk_parsed_args sample_config (VDict []) false true in
  let cmd := Sync (dict_set sample_config "api_secret" VNone) (VDict [])
                  (VStr "2023-10-05T22:13:20Z") in
  (pa_discover args = true ->
   cmd = Discover
           (record_get (pa_config args) (Some "select_properties_by_default"))
           (dict_get_default (pa_config args) "denest_properties" (VStr "true")))
  /\ (pa_discover args = false -> pa_catalog args = false -> cmd = NoCommand)
  /\ (pa_discover args = false -> pa_catalog args = true ->
      exists config,
        cmd = Sync config
                   (if truthy (pa_state args) then pa_state args else VDict [])
                   (record_get (pa_config args) (Some "start_date"))
        /\ (forall k, ~ In k credential_keys ->
              dict_get config k = dict_get (pa_config args) k)
        /\ Forall (fun k => dict_has config k = true) credential_keys).
Proof.
  eapply (main_command (mk_parsed_args sample_config (VDict []) false true)
            (mk_client_arguments VNone (VStr "user") (VStr "pass") (VInt 7)
                                 (VStr "tap") VNone)).
  vm_compute. reflexivity.
Defined.

(** A user name and a password without a project id are refused although
    an API secret is configured; with both kinds of credentials and
    discovery asked for, the catalog is not looked at. *)
Example main_run :
  main (mk_parsed_args
          [("start_date", VStr "2023-10-05T22:13:20Z"); ("user_agent", VStr "tap");
           ("api_secret", VStr "secret"); ("username", VStr "user");
           ("password", VStr "pass")]
          VNone false true)
  = Failed ProjectIdRequired
  /\ main (mk_parsed_args sample_config VNone true true)
     = Returned (mk_client_arguments VNone (VStr "user") (VStr "pass") (VInt 7)
                                     (VStr "tap") VNone,
                 Discover VNone (VStr "true")).
Proof. split; vm_compute; reflexivity. Qed.
